(** * Indicator engine of the Nifty-50 analyzer

    A shallow embedding of [src/pricing_model.py]
    ([analyze_technical_indicators]) together with the pandas and [ta]
    operations it calls, and the properties of the engine proved on it.

    Layout:
    - [NumOps]: the arithmetic the engine uses on prices, with two
      instances: [Float64] (IEEE binary64, the numbers Python computes
      with; executable) and [Ideal] (exact real arithmetic with a
      not-a-number value; no rounding);
    - the pandas series operations ([diff], [pct_change], [where_],
      [ewm_mean], [std]) and the [ta] oscillator ([ta_momentum_rsi]);
    - data frames as objects in a store, and the engine as a program in a
      state-and-exception monad;
    - the theorems: for every number model where no arithmetic is
      involved; on [Float64], from the standard library's specification
      of binary64, for the saturation of monotone series; on [Ideal] for
      equalities with, and bounds by, real-valued formulas. *)

From Stdlib Require Import ZArith List String Bool Reals Lra Lia.
From Stdlib Require PrimFloat Uint63 SpecFloat FloatOps FloatAxioms.
From Stdlib Require Import Sorted.
From stdpp Require Import gmap strings list.

Local Open Scope string_scope.
Local Open Scope list_scope.

(* ===================================================================== *)
(** ** Numbers *)
(* ===================================================================== *)

(** The operations of a Python/numpy float that the engine and the library
    routines it calls rely on.  [flt a b] is [a < b], [feq a b] is
    [a == b]; both are [false] as soon as an argument is not-a-number. *)
Class NumOps := {
  num  : Type;
  of_Z : Z -> num;
  nan  : num;
  fadd : num -> num -> num;
  fsub : num -> num -> num;
  fmul : num -> num -> num;
  fdiv : num -> num -> num;
  fneg : num -> num;
  fsqrt : num -> num;
  flt  : num -> num -> bool;
  feq  : num -> num -> bool
}.

(** [x == x] fails exactly for not-a-number: pandas' [notna]. *)
Definition notna `{NumOps} (x : num) : bool := feq x x.
Definition isna `{NumOps} (x : num) : bool := negb (feq x x).

(** *** IEEE binary64

    The numbers Python computes with.  The order in which the compiled
    loops of numpy and pandas add up a series is not modelled, so the last
    bits of a long sum may differ from theirs; the evaluations made below
    on these numbers (an exact 0 or 100, a not-a-number, a comparison by a
    wide margin) do not depend on it. *)

Definition float_of_Z (z : Z) : PrimFloat.float :=
  if (z <? 0)%Z
  then PrimFloat.opp (PrimFloat.of_uint63 (Uint63.of_Z (- z)))
  else PrimFloat.of_uint63 (Uint63.of_Z z).

Definition Float64 : NumOps := {|
  num := PrimFloat.float;
  of_Z := float_of_Z;
  nan := PrimFloat.nan;
  fadd := PrimFloat.add;
  fsub := PrimFloat.sub;
  fmul := PrimFloat.mul;
  fdiv := PrimFloat.div;
  fneg := PrimFloat.opp;
  fsqrt := PrimFloat.sqrt;
  flt := PrimFloat.ltb;
  feq := PrimFloat.eqb
|}.

(** *** Exact reals with a not-a-number value

    Rounding is ignored.  There are no infinities: a division by zero and
    the square root of a negative number give not-a-number. *)

Inductive xreal : Type :=
| XNan
| XFin (r : R).

Definition xlift2 (f : R -> R -> R) (a b : xreal) : xreal :=
  match a, b with
  | XFin x, XFin y => XFin (f x y)
  | _, _ => XNan
  end.

Definition xdiv (a b : xreal) : xreal :=
  match a, b with
  | XFin x, XFin y => if Req_dec_T y 0 then XNan else XFin (x / y)
  | _, _ => XNan
  end.

Definition xneg (a : xreal) : xreal :=
  match a with
  | XFin x => XFin (- x)
  | XNan => XNan
  end.

Definition xsqrt (a : xreal) : xreal :=
  match a with
  | XFin x => if Rlt_dec x 0 then XNan else XFin (sqrt x)
  | XNan => XNan
  end.

Definition xlt (a b : xreal) : bool :=
  match a, b with
  | XFin x, XFin y => if Rlt_dec x y then true else false
  | _, _ => false
  end.

Definition xeq (a b : xreal) : bool :=
  match a, b with
  | XFin x, XFin y => if Req_dec_T x y then true else false
  | _, _ => false
  end.

Definition Ideal : NumOps := {|
  num := xreal;
  of_Z := fun z => XFin (IZR z);
  nan := XNan;
  fadd := xlift2 Rplus;
  fsub := xlift2 Rminus;
  fmul := xlift2 Rmult;
  fdiv := xdiv;
  fneg := xneg;
  fsqrt := xsqrt;
  flt := xlt;
  feq := xeq
|}.

(* ===================================================================== *)
(** ** pandas series operations *)
(* ===================================================================== *)

Section Series.
Context {N : NumOps}.

(** [s.shift(1)]: every value moves one place down, the first place is
    filled with NaN, the length is kept. *)
Definition shift1 (s : list num) : list num :=
  take (length s) (nan :: s).

(** [f] applied to each value of [s] and the value before it, [prev]
    being the value before the first: what an element-wise operation
    between a series and its shift computes after the first place. *)
Fixpoint adjacent (f : num -> num -> num) (prev : num) (s : list num)
  : list num :=
  match s with
  | [] => []
  | x :: t => f x prev :: adjacent f x t
  end.

(** [s.diff(1)] is [s - s.shift(1)]. *)
Definition diff (s : list num) : list num :=
  zip_with fsub s (shift1 s).

(** [s.pct_change()] is [s / s.shift(1) - 1].  (Older pandas releases fill
    missing prices forward first; that is not modelled, and nothing below
    concerns the returns of a series with missing prices.) *)
Definition pct_change (s : list num) : list num :=
  map (fun q => fsub q (of_Z 1)) (zip_with fdiv s (shift1 s)).

(** [s.where(cond, other)]: keep the values satisfying [cond], replace the
    others (NaN included, on which a comparison is false) by [other]. *)
Definition where_ (cond : num -> bool) (other : num) (s : list num)
  : list num :=
  map (fun x => if cond x then x else other) s.

(** [s.ewm(alpha=alpha, min_periods=minp, adjust=False).mean()]:
    [y_0 = x_0], [y_t = (1 - alpha) * y_(t-1) + alpha * x_t], and the
    first [minp - 1] places are NaN.  The series it is applied to below
    never contain NaN ([where_] has replaced them), so the skipping of
    missing observations is not needed. *)
Definition ewm_step (alpha y x : num) : num :=
  fadd (fmul (fsub (of_Z 1) alpha) y) (fmul alpha x).

Fixpoint ewm_from (alpha y : num) (s : list num) : list num :=
  match s with
  | [] => []
  | x :: t =>
      let y' := ewm_step alpha y x in
      y' :: ewm_from alpha y' t
  end.

Definition ewm_raw (alpha : num) (s : list num) : list num :=
  match s with
  | [] => []
  | x :: t => x :: ewm_from alpha x t
  end.

Definition min_periods_mask (minp : nat) (s : list num) : list num :=
  imap (fun i y => if (S i <? minp)%nat then nan else y) s.

Definition ewm_mean (alpha : num) (minp : nat) (s : list num) : list num :=
  min_periods_mask minp (ewm_raw alpha s).

Definition fsum (s : list num) : num := fold_left fadd s (of_Z 0).

Definition dropna (s : list num) : list num := List.filter notna s.

(** [s.mean()] over the values that are present. *)
Definition nanmean (v : list num) : num :=
  fdiv (fsum v) (of_Z (Z.of_nat (length v))).

(** [s.std()]: missing values are skipped, the denominator is the number
    of remaining values minus one ([ddof=1]); with at most one value the
    result is NaN. *)
Definition std (s : list num) : num :=
  let v := dropna s in
  let count := length v in
  if (count <=? 1)%nat then nan
  else
    let avg := nanmean v in
    let sqr := map (fun x => let d := fsub avg x in fmul d d) v in
    fsqrt (fdiv (fsum sqr) (of_Z (Z.of_nat (count - 1)))).

(** [s.iloc[-1]], when the series is not empty. *)
Definition iloc_last (s : list num) : option num := last s.

(* ------------------------------------------------------------------- *)
(** *** The [ta] package's RSI

    [ta] is an external dependency of the repository; the function below
    is [ta.momentum.rsi(close, window)] ([RSIIndicator._run] with
    [fillna=False]) of the releases that accept the [window] keyword the
    engine passes:
<<
    diff = close.diff(1)
    up_direction = diff.where(diff > 0, 0.0)
    down_direction = -diff.where(diff < 0, 0.0)
    emaup = up_direction.ewm(alpha=1/window, min_periods=window, adjust=False).mean()
    emadn = down_direction.ewm(alpha=1/window, min_periods=window, adjust=False).mean()
    relative_strength = emaup / emadn
    rsi = np.where(emadn == 0, 100, 100 - (100 / (1 + relative_strength)))
>> *)

Definition up_direction (close : list num) : list num :=
  where_ (fun d => flt (of_Z 0) d) (of_Z 0) (diff close).

Definition down_direction (close : list num) : list num :=
  map fneg (where_ (fun d => flt d (of_Z 0)) (of_Z 0) (diff close)).

Definition rsi_value (emaup emadn : num) : num :=
  let relative_strength := fdiv emaup emadn in
  if feq emadn (of_Z 0) then of_Z 100
  else fsub (of_Z 100) (fdiv (of_Z 100) (fadd (of_Z 1) relative_strength)).

Definition ta_momentum_rsi (close : list num) (window : nat) : list num :=
  let alpha := fdiv (of_Z 1) (of_Z (Z.of_nat window)) in
  let emaup := ewm_mean alpha window (up_direction close) in
  let emadn := ewm_mean alpha window (down_direction close) in
  zip_with rsi_value emaup emadn.

End Series.

(* ===================================================================== *)
(** ** Data frames, the store, and the engine's monad *)
(* ===================================================================== *)

(** Python exceptions the modelled operations can raise.  [Unbound] stands
    for a reference that designates no object; Python cannot produce one,
    it only makes the store lookup total. *)
Inductive exn : Type :=
| KeyError (column : string)
| IndexError
| ValueError
| Unbound.

Section Frames.
Context {N : NumOps}.

(** One row of the price table: the five columns written by the ingestion
    script, and the float columns added to the frame later ([extra]). *)
Record Row : Type := mkRow {
  date : Z;
  product_id : string;
  product_name : string;
  avg_price : num;
  qty_sold : Z;
  extra : gmap string num
}.

Definition DataFrame : Type := list Row.

(** Frame objects live in a store; a reference is an index into it. *)
Definition loc : Type := nat.
Definition Store : Type := list DataFrame.

(** The output dictionary's values. *)
Record Entry : Type := mkEntry {
  rsi : num;
  volatility : num;
  signal : string;
  signal_color : string
}.

(** A computation may read and update the store, and either returns a
    value or raises. *)
Definition M (A : Type) : Type := Store -> (exn + A) * Store.

Definition ret {A} (a : A) : M A := fun st => (inr a, st).

Definition raise {A} (e : exn) : M A := fun st => (inl e, st).

Definition bind {A B} (m : M A) (k : A -> M B) : M B :=
  fun st =>
    match m st with
    | (inr a, st') => k a st'
    | (inl e, st') => (inl e, st')
    end.

Definition lift_option {A} (e : exn) (o : option A) : M A :=
  match o with
  | Some a => ret a
  | None => raise e
  end.

Definition read (l : loc) : M DataFrame :=
  fun st =>
    match st !! l with
    | Some f => (inr f, st)
    | None => (inl Unbound, st)
    end.

(** A new object gets the next free index. *)
Definition alloc (f : DataFrame) : M loc :=
  fun st => (inr (length st), (st ++ [f])%list).

Definition write (l : loc) (f : DataFrame) : M unit :=
  fun st => (inr tt, <[l := f]> st).

End Frames.

Notation "x <~ m ;; k" := (bind m (fun x => k))
  (at level 100, m at level 99, k at level 200, right associativity).
Notation "m ;;; k" := (bind m (fun _ => k))
  (at level 100, k at level 200, right associativity).

Section Pandas.
Context {N : NumOps}.

(** [df[df['product_id'] == ticker]]: a new frame with the selected
    rows, in their order. *)
Definition select_product (df : loc) (ticker : string) : M loc :=
  f <~ read df ;;
  alloc (List.filter (fun r => String.eqb (product_id r) ticker) f).

(** [.copy()] *)
Definition copy (df : loc) : M loc :=
  f <~ read df ;;
  alloc f.

(** Rows by ascending date.  Rows of equal date keep their order here,
    while pandas' default sort promises no order among them: what is proved
    below of values that depend on the order of an instrument's rows
    (returns, smoothed changes) is proved for instruments whose dates are
    pairwise different, where every sort gives the same rows
    ([stock_rows_history]). *)
Fixpoint insert_by_date (r : Row) (f : DataFrame) : DataFrame :=
  match f with
  | [] => [r]
  | x :: t =>
      if (date x <? date r)%Z then x :: insert_by_date r t
      else r :: x :: t
  end.

Definition sorted_by_date (f : DataFrame) : DataFrame :=
  foldr insert_by_date [] f.

(** [.sort_values(by='date')]: a new frame, the receiver is untouched. *)
Definition sort_values_date (df : loc) : M loc :=
  f <~ read df ;;
  alloc (sorted_by_date f).

(** [len(df)] *)
Definition len (df : loc) : M nat :=
  f <~ read df ;;
  ret (length f).

(** [df['product_id']], [df['avg_price']] *)
Definition col_product_id (df : loc) : M (list string) :=
  f <~ read df ;;
  ret (map product_id f).

Definition col_avg_price (df : loc) : M (list num) :=
  f <~ read df ;;
  ret (map avg_price f).

(** [df[name]] for an added column: the column exists when every row
    carries it. *)
Definition col_values (name : string) (f : DataFrame) : option (list num) :=
  mapM (fun r => extra r !! name) f.

Definition getcol (df : loc) (name : string) : M (list num) :=
  f <~ read df ;;
  lift_option (KeyError name) (col_values name f).

(** [df[name] = values], in place.  The values assigned here are series
    computed from a column of the same frame; a series of another length
    does not fit the frame. *)
Definition with_column (name : string) (values : list num) (f : DataFrame)
  : DataFrame :=
  zip_with
    (fun r v =>
       {| date := date r; product_id := product_id r;
          product_name := product_name r; avg_price := avg_price r;
          qty_sold := qty_sold r; extra := <[name := v]> (extra r) |})
    f values.

Definition setcol (df : loc) (name : string) (values : list num) : M unit :=
  f <~ read df ;;
  if (length values =? length f)%nat
  then write df (with_column name values f)
  else raise ValueError.

(** [series.unique()]: the distinct values in order of first appearance. *)
Fixpoint unique_from (seen : gset string) (s : list string) : list string :=
  match s with
  | [] => []
  | x :: t =>
      if bool_decide (x ∈ seen) then unique_from seen t
      else x :: unique_from ({[x]} ∪ seen) t
  end.

Definition unique (s : list string) : list string := unique_from ∅ s.

End Pandas.

(* ===================================================================== *)
(** ** The engine: [analyze_technical_indicators] *)
(* ===================================================================== *)

Section Engine.
Context {N : NumOps}.

(** [ta.momentum.rsi], the oscillator of the external [ta] package. *)
Variable momentum_rsi : list num -> nat -> list num.

(** Lines 32-46: the signal and its colour start at the neutral pair and
    are overwritten by the first branch that applies. *)
Definition signal_logic (current_rsi : num) : string * string :=
  let signal := "HOLD / NEUTRAL" in
  let signal_color := "gray" in
  if flt (of_Z 70) current_rsi then ("SELL (Overbought)", "red")
  else if flt current_rsi (of_Z 30) then ("BUY (Oversold)", "green")
  else if flt (of_Z 60) current_rsi then ("Watch (Trending High)", "orange")
  else if flt current_rsi (of_Z 40) then ("Watch (Trending Low)", "blue")
  else (signal, signal_color).

(** The body of the loop over the tickers (lines 14-53); [continue]
    leaves [results] as it is. *)
Definition analyze_ticker (df : loc) (ticker : string)
    (results : gmap string Entry) : M (gmap string Entry) :=
  selected <~ select_product df ticker ;;
  copied <~ copy selected ;;
  stock_df <~ sort_values_date copied ;;
  n <~ len stock_df ;;
  if (n <? 15)%nat then ret results
  else
    close <~ col_avg_price stock_df ;;
    setcol stock_df "rsi" (momentum_rsi close 14) ;;;
    close <~ col_avg_price stock_df ;;
    setcol stock_df "pct_change" (pct_change close) ;;;
    changes <~ getcol stock_df "pct_change" ;;
    let volatility := fmul (std changes) (fsqrt (of_Z 252)) in
    rsi_col <~ getcol stock_df "rsi" ;;
    current_rsi <~ lift_option IndexError (iloc_last rsi_col) ;;
    let '(signal, signal_color) := signal_logic current_rsi in
    ret (<[ticker :=
             {| rsi := current_rsi; volatility := volatility;
                signal := signal; signal_color := signal_color |}]> results).

Fixpoint for_tickers (df : loc) (tickers : list string)
    (results : gmap string Entry) : M (gmap string Entry) :=
  match tickers with
  | [] => ret results
  | ticker :: rest =>
      results' <~ analyze_ticker df ticker results ;;
      for_tickers df rest results'
  end.

Definition analyze_technical_indicators (df : loc) : M (gmap string Entry) :=
  ids <~ col_product_id df ;;
  for_tickers df (unique ids) ∅.

End Engine.

(* ===================================================================== *)
(** ** What the engine computes, read off the program *)
(* ===================================================================== *)

Section Denotation.
Context {N : NumOps}.
Variable momentum_rsi : list num -> nat -> list num.

(** The rows of one instrument, ordered by date. *)
Definition stock_rows (f : DataFrame) (ticker : string) : DataFrame :=
  sorted_by_date
    (List.filter (fun r => String.eqb (product_id r) ticker) f).

(** The dictionary entry built from the ordered rows of one instrument
    (lines 22-53), or the exception raised on the way. *)
Definition indicators (stock : DataFrame) : exn + Entry :=
  let close := map avg_price stock in
  let rsi_col := momentum_rsi close 14 in
  if (length rsi_col =? length stock)%nat then
    match iloc_last rsi_col with
    | Some current_rsi =>
        inr {| rsi := current_rsi;
               volatility :=
                 fmul (std (pct_change close)) (fsqrt (of_Z 252));
               signal := fst (signal_logic current_rsi);
               signal_color := snd (signal_logic current_rsi) |}
    | None => inl IndexError
    end
  else inl ValueError.

(** One iteration of the loop, on the frame [f] the reference designates. *)
Definition iteration (f : DataFrame) (ticker : string)
    (results : gmap string Entry) : exn + gmap string Entry :=
  let stock := stock_rows f ticker in
  if (length stock <? 15)%nat then inr results
  else
    match indicators stock with
    | inr entry => inr (<[ticker := entry]> results)
    | inl e => inl e
    end.

Fixpoint results_of (f : DataFrame) (tickers : list string)
    (results : gmap string Entry) : exn + gmap string Entry :=
  match tickers with
  | [] => inr results
  | ticker :: rest =>
      let stock := stock_rows f ticker in
      if (length stock <? 15)%nat then results_of f rest results
      else
        match indicators stock with
        | inr entry => results_of f rest (<[ticker := entry]> results)
        | inl e => inl e
        end
  end.

(** The mapping (or exception) for a whole table. *)
Definition compute (f : DataFrame) : exn + gmap string Entry :=
  results_of f (unique (map product_id f)) ∅.

End Denotation.

(* ===================================================================== *)
(** ** The specification's vocabulary *)
(* ===================================================================== *)

Section Specification.
Context {N : NumOps}.

(** The signal as the threshold table states it, first match wins. *)
Definition signal_of_momentum (value : num) : string :=
  if flt (of_Z 70) value then "SELL (Overbought)"
  else if flt value (of_Z 30) then "BUY (Oversold)"
  else if flt (of_Z 60) value then "Watch (Trending High)"
  else if flt value (of_Z 40) then "Watch (Trending Low)"
  else "HOLD / NEUTRAL".

(** The colour that goes with each signal. *)
Definition color_of_signal (s : string) : option string :=
  if String.eqb s "SELL (Overbought)" then Some "red"
  else if String.eqb s "BUY (Oversold)" then Some "green"
  else if String.eqb s "Watch (Trending High)" then Some "orange"
  else if String.eqb s "Watch (Trending Low)" then Some "blue"
  else if String.eqb s "HOLD / NEUTRAL" then Some "gray"
  else None.

(** An observation whose price is not a positive number (zero, negative
    or missing), and a date that occurs twice for one instrument. *)
Definition bad_price (r : Row) : bool := negb (flt (of_Z 0) (avg_price r)).

Definition duplicate_date (f : DataFrame) : Prop :=
  exists i j r1 r2,
    i <> j /\ f !! i = Some r1 /\ f !! j = Some r2 /\
    product_id r1 = product_id r2 /\ date r1 = date r2.

Definition malformed (f : DataFrame) : Prop :=
  Exists (fun r => bad_price r = true) f \/ duplicate_date f.



End Specification.

(** *** Real-valued formulas *)

Local Open Scope R_scope.

(** Day-over-day changes [p_t - p_(t-1)] and returns
    [(p_t - p_(t-1)) / p_(t-1)] of a price series. *)
Fixpoint changes_from (prev : R) (ps : list R) : list R :=
  match ps with
  | [] => []
  | p :: t => (p - prev) :: changes_from p t
  end.

Definition changes (ps : list R) : list R :=
  match ps with
  | [] => []
  | p :: t => changes_from p t
  end.

Fixpoint returns_from (prev : R) (ps : list R) : list R :=
  match ps with
  | [] => []
  | p :: t => ((p - prev) / prev) :: returns_from p t
  end.

Definition returns (ps : list R) : list R :=
  match ps with
  | [] => []
  | p :: t => returns_from p t
  end.

Definition Rsum (xs : list R) : R := fold_right Rplus 0 xs.

Definition Rmean (xs : list R) : R := Rsum xs / INR (length xs).

(** Sample standard deviation, denominator [n - 1]. *)
Definition sample_std (xs : list R) : R :=
  sqrt (Rsum (map (fun x => (x - Rmean xs) * (x - Rmean xs)) xs)
        / (INR (length xs) - 1)).

Definition annualized_volatility (ps : list R) : R :=
  sample_std (returns ps) * sqrt 252.

(** Magnitudes of the upward and of the downward part of a change. *)
Definition gain (d : R) : R := if Rlt_dec 0 d then d else 0.
Definition loss (d : R) : R := if Rlt_dec d 0 then - d else 0.

(** Wilder's smoothing with period 14, started at zero on the first
    observation and run over the whole history:
    [avg_t = (13 * avg_(t-1) + x_t) / 14]. *)
Definition wilder_avg (xs : list R) : R :=
  fold_left (fun avg x => (13 * avg + x) / 14) xs 0.

Definition oscillator (avg_gain avg_loss : R) : R :=
  if Req_dec_T avg_loss 0 then 100
  else 100 - 100 / (1 + avg_gain / avg_loss).

Definition wilder_rsi (ps : list R) : R :=
  oscillator (wilder_avg (map gain (changes ps)))
             (wilder_avg (map loss (changes ps))).

Definition strictly_increasing (ps : list R) : Prop :=
  forall i a b, ps !! i = Some a -> ps !! S i = Some b -> a < b.

Definition strictly_decreasing (ps : list R) : Prop :=
  forall i a b, ps !! i = Some a -> ps !! S i = Some b -> b < a.

Local Close Scope R_scope.

(** *** Concrete tables *)

Section Tables.
Context {N : NumOps}.

(** Rows of one instrument on consecutive days, with the given prices. *)
Definition daily (ticker : string) (prices : list Z) : DataFrame :=
  imap (fun i p =>
          {| date := Z.of_nat i; product_id := ticker;
             product_name := ticker; avg_price := of_Z p;
             qty_sold := 0; extra := ∅ |}) prices.

(** A fall of 50 followed by fourteen gains of 1 (16 rows). *)
Definition dip_then_rise : DataFrame :=
  daily "X" [100; 50; 51; 52; 53; 54; 55; 56; 57; 58; 59; 60; 61; 62; 63; 64]%Z.

(** Fifteen rows at the price 100. *)
Definition flat : DataFrame := daily "X" (repeat 100%Z 15).

(** Fifteen rows, the price of the eighth being zero. *)
Definition zero_price : DataFrame :=
  daily "X" [100; 101; 102; 103; 104; 105; 106; 0; 108; 109; 110; 111; 112; 113; 114]%Z.

(** Fifteen rows rising by 1 a day, and fifteen rows falling by 1 a day. *)
Definition rising : DataFrame :=
  daily "X" [100; 101; 102; 103; 104; 105; 106; 107; 108; 109; 110; 111; 112; 113; 114]%Z.

Definition falling : DataFrame :=
  daily "X" [114; 113; 112; 111; 110; 109; 108; 107; 106; 105; 104; 103; 102; 101; 100]%Z.

(** Fifteen rising rows of one instrument and three rows of another. *)
Definition two_stocks : DataFrame :=
  (daily "X" [100; 101; 102; 103; 104; 105; 106; 107; 108; 109; 110; 111; 112; 113; 114]%Z
   ++ daily "Y" [10; 11; 12]%Z)%list.

End Tables.

(** The prices of [rising] and [flat] as real numbers. *)
Definition rising_prices : list R :=
  [100; 101; 102; 103; 104; 105; 106; 107; 108; 109; 110; 111; 112; 113; 114]%R.

Definition flat_prices : list R := repeat 100%R 15.

(** The output of a run with Python floats on a store holding one table,
    and its entry for the instrument "X" (the empty mapping and an entry of
    missing values when there is none). *)
Definition float_run (f : @DataFrame Float64) : exn + gmap string (@Entry Float64) :=
  fst (analyze_technical_indicators ta_momentum_rsi 0%nat [f]).

Definition out_of (r : exn + gmap string (@Entry Float64))
  : gmap string (@Entry Float64) :=
  match r with
  | inr out => out
  | inl _ => ∅
  end.

Definition entry_of (out : gmap string (@Entry Float64)) (t : string)
  : @Entry Float64 :=
  match out !! t with
  | Some entry => entry
  | None =>
      {| rsi := nan; volatility := nan; signal := ""; signal_color := "" |}
  end.

Definition demo_out : gmap string (@Entry Float64) :=
  out_of (float_run dip_then_rise).

Definition demo_entry : @Entry Float64 := entry_of demo_out "X".

Definition two_out : gmap string (@Entry Float64) :=
  out_of (float_run two_stocks).

Definition zero_out : gmap string (@Entry Float64) :=
  out_of (float_run zero_price).

Definition zero_entry : @Entry Float64 := entry_of zero_out "X".

Definition flat_out : gmap string (@Entry Float64) :=
  out_of (float_run flat).

Definition flat_entry : @Entry Float64 := entry_of flat_out "X".

(** *** Further vocabulary for tables *)

Section TableVocabulary.
Context {N : NumOps}.

(** The rows of one instrument, in table order. *)
Definition rows_of (f : DataFrame) (ticker : string) : DataFrame :=
  List.filter (fun r => String.eqb (product_id r) ticker) f.

(** No instrument has two rows of the same date. *)
Definition unique_dates (f : DataFrame) : Prop :=
  forall ticker, NoDup (map date (rows_of f ticker)).

End TableVocabulary.

(** [rising] with its rows in the opposite order. *)
Definition rising_reversed {N : NumOps} : DataFrame := reverse rising.

(* ===================================================================== *)
(** ** The dashboard script: [app.py], lines 56-131 *)
(* ===================================================================== *)

(** What the script can raise: the exceptions of the frame operations and
    of the engine, and the [TypeError] of subscripting [None]. *)
Inductive app_exn : Type :=
| Raised (e : exn)
| TypeError.

(** The three kinds of signal box: [k4.success], [k4.error], [k4.info]. *)
Inductive box : Type :=
| success
| error
| info.

(** [needle in hay] for Python strings. *)
Fixpoint contains (needle hay : string) : bool :=
  String.prefix needle hay
  || match hay with
     | EmptyString => false
     | String _ rest => contains needle rest
     end.

(** [sorted(names)] *)
Fixpoint insert_string (x : string) (l : list string) : list string :=
  match l with
  | [] => [x]
  | y :: t => if String.leb x y then x :: y :: t else y :: insert_string x t
  end.

Definition sorted_strings (l : list string) : list string :=
  foldr insert_string [] l.

(** [dict(zip(keys, values))]: a later pair replaces an earlier one with
    the same key. *)
Definition dict_zip (keys values : list string) : gmap string string :=
  fold_left (fun m kv => <[kv.1 := kv.2]> m) (zip keys values) ∅.

Section App.
Context {N : NumOps}.
Variable momentum_rsi : list num -> nat -> list num.

(** [s.iloc[-k]] for [k >= 1]. *)
Definition iloc_neg (k : nat) (s : list num) : option num :=
  if (length s <? k)%nat then None else s !! (length s - k)%nat.

(** What the script hands to the page: the four KPI widgets, the series of
    the two charts and the rows of the raw-data tab.  The formatting of the
    numbers as text is not modelled. *)
Record Dashboard : Type := mkDashboard {
  latest_price : num;
  daily_pct : num;
  rsi_kpi : num;
  volatility_kpi : num;
  signal_box : box * string;
  price_chart : list (Z * num);
  rsi_chart : list (Z * num);
  raw_data : list (Z * num * Z)
}.

Definition App (A : Type) : Type := Store -> (app_exn + A) * Store.

Definition app_ret {A} (a : A) : App A := fun st => (inr a, st).

Definition app_bind {A B} (m : App A) (k : A -> App B) : App B :=
  fun st =>
    match m st with
    | (inr a, st') => k a st'
    | (inl e, st') => (inl e, st')
    end.

(** An engine or frame operation run inside the script. *)
Definition lift {A} (m : M A) : App A :=
  fun st =>
    match m st with
    | (inr a, st') => (inr a, st')
    | (inl e, st') => (inl (Raised e), st')
    end.

Definition app_option {A} (e : app_exn) (o : option A) : App A :=
  fun st =>
    match o with
    | Some a => (inr a, st)
    | None => (inl e, st)
    end.

(** [df['product_name']], [df['date']], [df['qty_sold']] *)
Definition col_product_name (df : loc) : M (list string) :=
  bind (read df) (fun f => ret (map product_name f)).

Definition col_date (df : loc) : M (list Z) :=
  bind (read df) (fun f => ret (map date f)).

Definition col_qty_sold (df : loc) : M (list Z) :=
  bind (read df) (fun f => ret (map qty_sold f)).

(** Rows by descending date, for [sort_values(by='date', ascending=False)]. *)
Fixpoint insert_by_date_desc (r : Z * num * Z) (l : list (Z * num * Z))
  : list (Z * num * Z) :=
  match l with
  | [] => [r]
  | x :: t =>
      if (r.1.1 <? x.1.1)%Z then x :: insert_by_date_desc r t
      else r :: x :: t
  end.

Definition newest_first (l : list (Z * num * Z)) : list (Z * num * Z) :=
  foldr insert_by_date_desc [] l.

(** The signal box chosen at lines 95-100. *)
Definition signal_box_of (signal_msg : string) : box * string :=
  if contains "BUY" signal_msg then (success, signal_msg)
  else if contains "SELL" signal_msg then (error, signal_msg)
  else (info, signal_msg).

(** The options of the dropdown and the ticker it selects (lines 58-65);
    [choice] is the position the user picks in the sorted list of names. *)
Definition name_map_of (f : DataFrame) : gmap string string :=
  dict_zip (map product_name f) (map product_id f).

Definition options_of (f : DataFrame) : list string :=
  sorted_strings (map fst (map_to_list (name_map_of f))).

End App.

Notation "x <~~ m ;; k" := (app_bind m (fun x => k))
  (at level 100, m at level 99, k at level 200, right associativity).
Notation "m ;;;; k" := (app_bind m (fun _ => k))
  (at level 100, k at level 200, right associativity).

Section AppScript.
Context {N : NumOps}.
Variable momentum_rsi : list num -> nat -> list num.

(** The [else] branch of the script, from the name map to the last tab. *)
Definition dashboard (df : loc) (choice : nat) : App Dashboard :=
  names <~~ lift (col_product_name df) ;;
  ids <~~ lift (col_product_id df) ;;
  let name_map := dict_zip names ids in
  let options := sorted_strings (map fst (map_to_list name_map)) in
  let selected_name := options !! choice in
  selected_ticker <~~
    app_option (Raised (KeyError (default "None" selected_name)))
      (selected_name ≫= fun name => name_map !! name) ;;
  selected <~~ lift (select_product df selected_ticker) ;;
  stock_data <~~ lift (sort_values_date selected) ;;
  indicators <~~ lift (analyze_technical_indicators momentum_rsi df) ;;
  let stats := indicators !! selected_ticker in
  prices <~~ lift (col_avg_price stock_data) ;;
  latest_price <~~ app_option (Raised IndexError) (iloc_neg 1 prices) ;;
  prices <~~ lift (col_avg_price stock_data) ;;
  prev_price <~~ app_option (Raised IndexError) (iloc_neg 2 prices) ;;
  let daily_change := fsub latest_price prev_price in
  let daily_pct := fmul (fdiv daily_change prev_price) (of_Z 100) in
  entry <~~ app_option TypeError stats ;;
  let signal_msg := signal entry in
  dates <~~ lift (col_date stock_data) ;;
  prices <~~ lift (col_avg_price stock_data) ;;
  let price_chart := zip dates prices in
  close <~~ lift (col_avg_price stock_data) ;;
  lift (setcol stock_data "rsi_plot" (momentum_rsi close 14)) ;;;;
  dates <~~ lift (col_date stock_data) ;;
  rsi_plot <~~ lift (getcol stock_data "rsi_plot") ;;
  let rsi_chart := zip dates rsi_plot in
  dates <~~ lift (col_date stock_data) ;;
  prices <~~ lift (col_avg_price stock_data) ;;
  volumes <~~ lift (col_qty_sold stock_data) ;;
  let raw := take 100 (newest_first (zip (zip dates prices) volumes)) in
  app_ret {| latest_price := latest_price;
             daily_pct := daily_pct;
             rsi_kpi := rsi entry;
             volatility_kpi := fmul (volatility entry) (of_Z 100);
             signal_box := signal_box_of signal_msg;
             price_chart := price_chart;
             rsi_chart := rsi_chart;
             raw_data := raw |}.

(** The same values as a function of the table. *)
Definition selected_ticker_of (f : DataFrame) (choice : nat) : option string :=
  options_of f !! choice ≫= fun name => name_map_of f !! name.

Definition dashboard_of (f : DataFrame) (choice : nat)
  : app_exn + Dashboard :=
  match selected_ticker_of f choice with
  | None => inl (Raised (KeyError (default "None" (options_of f !! choice))))
  | Some ticker =>
      let stock := stock_rows f ticker in
      let prices := map avg_price stock in
      match compute momentum_rsi f with
      | inl e => inl (Raised e)
      | inr indicators =>
          match iloc_neg 1 prices with
          | None => inl (Raised IndexError)
          | Some latest =>
              match iloc_neg 2 prices with
              | None => inl (Raised IndexError)
              | Some prev =>
                  match indicators !! ticker with
                  | None => inl TypeError
                  | Some entry =>
                      let plot := momentum_rsi prices 14 in
                      if (length plot =? length stock)%nat then
                        inr {| latest_price := latest;
                               daily_pct :=
                                 fmul (fdiv (fsub latest prev) prev)
                                   (of_Z 100);
                               rsi_kpi := rsi entry;
                               volatility_kpi :=
                                 fmul (volatility entry) (of_Z 100);
                               signal_box := signal_box_of (signal entry);
                               price_chart := zip (map date stock) prices;
                               rsi_chart := zip (map date stock) plot;
                               raw_data :=
                                 take 100
                                   (newest_first
                                      (zip (zip (map date stock) prices)
                                         (map qty_sold stock))) |}
                      else inl (Raised ValueError)
                  end
              end
          end
      end
  end.

End AppScript.

(** The dashboard of a run with Python floats on a store holding one table
    (a dashboard of missing values when the script raises). *)
Definition float_dashboard (f : @DataFrame Float64) (choice : nat)
  : app_exn + @Dashboard Float64 :=
  fst (dashboard ta_momentum_rsi 0%nat choice [f]).

Definition view_of (r : app_exn + @Dashboard Float64) : @Dashboard Float64 :=
  match r with
  | inr view => view
  | inl _ =>
      {| latest_price := nan; daily_pct := nan; rsi_kpi := nan;
         volatility_kpi := nan; signal_box := (info, "");
         price_chart := []; rsi_chart := []; raw_data := [] |}
  end.

Definition two_view : @Dashboard Float64 :=
  view_of (float_dashboard two_stocks 0).

(* ===================================================================== *)
(** ** The ingestion script: [data_ingestion.py], and [load_data] *)
(* ===================================================================== *)

(** The file both scripts name (lines 10 of [data_ingestion.py] and 14 of
    [app.py]). *)
Definition OUTPUT_PATH : string := "../data/raw/nifty50_history.csv".
Definition DATA_PATH : string := "../data/raw/nifty50_history.csv".

(** The registry of symbols and display names, in the order of the
    dictionary literal (lines 13-64). *)
Definition NIFTY_50_TICKERS : list (string * string) :=
  [("RELIANCE.NS", "Reliance Industries");
   ("TCS.NS", "Tata Consultancy Services");
   ("HDFCBANK.NS", "HDFC Bank");
   ("ICICIBANK.NS", "ICICI Bank");
   ("INFY.NS", "Infosys");
   ("BHARTIARTL.NS", "Bharti Airtel");
   ("ITC.NS", "ITC Ltd");
   ("SBIN.NS", "State Bank of India");
   ("LICI.NS", "LIC India");
   ("HINDUNILVR.NS", "Hindustan Unilever");
   ("LT.NS", "Larsen & Toubro");
   ("BAJFINANCE.NS", "Bajaj Finance");
   ("MARUTI.NS", "Maruti Suzuki");
   ("HCLTECH.NS", "HCL Technologies");
   ("SUNPHARMA.NS", "Sun Pharma");
   ("ADANIENT.NS", "Adani Enterprises");
   ("TITAN.NS", "Titan Company");
   ("KOTAKBANK.NS", "Kotak Mahindra Bank");
   ("ONGC.NS", "ONGC");
   ("TMPV.NS", "Tata Motors (Passenger & EV)");
   ("NTPC.NS", "NTPC");
   ("AXISBANK.NS", "Axis Bank");
   ("ADANIPORTS.NS", "Adani Ports");
   ("ULTRACEMCO.NS", "UltraTech Cement");
   ("M&M.NS", "Mahindra & Mahindra");
   ("WIPRO.NS", "Wipro");
   ("BAJAJFINSV.NS", "Bajaj Finserv");
   ("JSWSTEEL.NS", "JSW Steel");
   ("POWERGRID.NS", "Power Grid Corp");
   ("TATASTEEL.NS", "Tata Steel");
   ("COALINDIA.NS", "Coal India");
   ("SBILIFE.NS", "SBI Life Insurance");
   ("HDFCLIFE.NS", "HDFC Life Insurance");
   ("GRASIM.NS", "Grasim Industries");
   ("TECHM.NS", "Tech Mahindra");
   ("BRITANNIA.NS", "Britannia Industries");
   ("HINDALCO.NS", "Hindalco Industries");
   ("EICHERMOT.NS", "Eicher Motors");
   ("INDUSINDBK.NS", "IndusInd Bank");
   ("DRREDDY.NS", "Dr. Reddys Labs");
   ("CIPLA.NS", "Cipla");
   ("TATACONSUM.NS", "Tata Consumer Products");
   ("DIVISLAB.NS", "Divis Laboratories");
   ("APOLLOHOSP.NS", "Apollo Hospitals");
   ("BAJAJ-AUTO.NS", "Bajaj Auto");
   ("HEROMOTOCO.NS", "Hero MotoCorp");
   ("ASIANPAINT.NS", "Asian Paints");
   ("UPL.NS", "UPL Ltd");
   ("BPCL.NS", "BPCL");
   ("SHREECEM.NS", "Shree Cements")].

Section Ingestion.
Context {N : NumOps}.

(** One daily bar of [Ticker.history]: the [Date] index, [Close] and
    [Volume]; the other columns are dropped at line 105. *)
Record Bar : Type := mkBar {
  bar_date : Z;
  bar_close : num;
  bar_volume : Z
}.

(** What the data provider answers for a symbol during one run: the bars
    (none when the frame comes back empty), or the message of the
    exception raised inside the [try] block. *)
Variable history : string -> string + list Bar.

(** Lines 89-105: the index becomes a column, the symbol and the name are
    attached, [Close] and [Volume] are renamed, five columns are kept. *)
Definition tag_rows (symbol name : string) (bars : list Bar) : DataFrame :=
  map (fun b =>
         {| date := bar_date b; product_id := symbol; product_name := name;
            avg_price := bar_close b; qty_sold := bar_volume b;
            extra := ∅ |}) bars.

(** The body of the loop (lines 74-109) on the pair
    [(all_data, failed_tickers)]. *)
Definition fetch_step (state : list DataFrame * list string)
    (entry : string * string) : list DataFrame * list string :=
  let '(all_data, failed_tickers) := state in
  let '(symbol, name) := entry in
  match history symbol with
  | inr [] => (all_data, failed_tickers ++ [symbol])
  | inr bars => (all_data ++ [tag_rows symbol name bars], failed_tickers)
  | inl message =>
      (all_data, failed_tickers ++ [symbol ++ " (" ++ message ++ ")"]%string)
  end.

Definition fetch_all (registry : list (string * string))
  : list DataFrame * list string :=
  fold_left fetch_step registry ([], []).

(** [sort_values(by=['product_id', 'date'])]: by symbol, then by date;
    rows equal on both keep their order. *)
Definition row_leb (a b : Row) : bool :=
  match String.compare (product_id a) (product_id b) with
  | Lt => true
  | Eq => (date a <=? date b)%Z
  | Gt => false
  end.

Definition row_le (a b : Row) : Prop := row_leb a b = true.

Fixpoint insert_row (r : Row) (l : DataFrame) : DataFrame :=
  match l with
  | [] => [r]
  | x :: t => if row_leb r x then r :: x :: t else x :: insert_row r t
  end.

Definition sort_by_product_and_date (l : DataFrame) : DataFrame :=
  foldr insert_row [] l.

(** Files: a path either holds a content or does not exist.  [to_csv]
    writes a table as a content; [read_table] is [pd.read_csv] followed by
    the conversion of the date column (lines 29-30 of [app.py]), [None]
    when either raises. *)
Variable content : Type.
Variable to_csv : DataFrame -> content.
Variable read_table : content -> option DataFrame.

(** Lines 111-126, for any registry: the table is written only when at
    least one symbol brought rows. *)
Definition ingest_registry (registry : list (string * string))
    (files : gmap string content) : gmap string content :=
  let '(all_data, failed_tickers) := fetch_all registry in
  match all_data with
  | [] => files
  | _ :: _ =>
      let final_df := sort_by_product_and_date (concat all_data) in
      <[OUTPUT_PATH := to_csv final_df]> files
  end.

Definition ingest_nifty50_data (files : gmap string content)
  : gmap string content :=
  ingest_registry NIFTY_50_TICKERS files.

(** [load_data] of [app.py] (lines 17-33): the table, or [None], and the
    files as the call leaves them. *)
Definition load_data (files : gmap string content)
  : option DataFrame * gmap string content :=
  let files' :=
    match files !! DATA_PATH with
    | None => ingest_nifty50_data files
    | Some _ => files
    end in
  (files' !! DATA_PATH ≫= read_table, files').

(** The frame a registry entry contributes, if any. *)
Definition fetched (entry : string * string) : option DataFrame :=
  match history entry.1 with
  | inr (b :: bars) => Some (tag_rows entry.1 entry.2 (b :: bars))
  | _ => None
  end.

(** The label a registry entry leaves in [failed_tickers], if any. *)
Definition failure (entry : string * string) : option string :=
  match history entry.1 with
  | inr [] => Some entry.1
  | inr (_ :: _) => None
  | inl message => Some (entry.1 ++ " (" ++ message ++ ")")%string
  end.

End Ingestion.

(** A provider that answers fifteen rising bars for the first symbol of
    the registry, an empty frame for the second, an error for the third
    and three bars for every other symbol. *)
Definition demo_bars {N : NumOps} (prices : list Z) : list Bar :=
  imap (fun i p => {| bar_date := Z.of_nat i; bar_close := of_Z p;
                      bar_volume := 0 |}) prices.

Definition demo_history {N : NumOps} (symbol : string) : string + list Bar :=
  if String.eqb symbol "RELIANCE.NS" then
    inr (demo_bars [100; 101; 102; 103; 104; 105; 106; 107; 108; 109; 110; 111; 112; 113; 114]%Z)
  else if String.eqb symbol "TCS.NS" then inr []
  else if String.eqb symbol "HDFCBANK.NS" then inl "timeout"
  else inr (demo_bars [10; 11; 12]%Z).

(** A provider that answers nothing at all. *)
Definition dead_history {N : NumOps} (symbol : string) : string + list Bar :=
  inl "no connection".

(** The bars a symbol brought (none when the fetch raised). *)
Definition bars_of {N : NumOps} (history : string -> string + list Bar)
    (symbol : string) : list Bar :=
  match history symbol with
  | inr bars => bars
  | inl _ => []
  end.

(** The table an ingestion run writes, when it writes one. *)
Definition ingested_table {N : NumOps}
    (history : string -> string + list Bar)
    (registry : list (string * string)) : DataFrame :=
  sort_by_product_and_date (concat (fst (fetch_all history registry))).

(** Files holding tables as they are, for examples. *)
Definition plain_files {N : NumOps} : Type := gmap string DataFrame.

(** Newest first, the order of the raw-data tab: the date of the row below
    is not after the date of the row above. *)
Definition newer {N : NumOps} (a b : Z * num * Z) : Prop :=
  (b.1.1 <= a.1.1)%Z.

(** A reader that accepts every file but one holding no row, for
    examples. *)
Definition read_nonempty {N : NumOps} (c : DataFrame) : option DataFrame :=
  match c with
  | [] => None
  | _ :: _ => Some c
  end.

(** *** Date order, and monotone series *)

Section Histories.
Context {N : NumOps}.

Definition date_lt (a b : Row) : Prop := (date a < date b)%Z.
Definition date_le (a b : Row) : Prop := (date a <= date b)%Z.





End Histories.





(** *** IEEE doubles: vocabulary of the binary64 specification *)




(* ===================================================================== *)
(** ** Series lemmas *)
(* ===================================================================== *)

Section SeriesFacts.
Context {N : NumOps}.

Lemma length_shift1 (s : list num) : length (shift1 s) = length s.
Proof. unfold shift1. rewrite length_take. simpl. lia. Qed.

Lemma length_diff (s : list num) : length (diff s) = length s.
Proof. unfold diff. rewrite length_zip_with, length_shift1. lia. Qed.

Lemma length_pct_change (s : list num) : length (pct_change s) = length s.
Proof.
  unfold pct_change.
  rewrite length_map, length_zip_with, length_shift1. lia.
Qed.

Lemma length_ewm_from alpha y (s : list num) :
  length (ewm_from alpha y s) = length s.
Proof. revert y. induction s as [|x t IH]; intros y; simpl; auto. Qed.

Lemma length_ewm_mean alpha minp (s : list num) :
  length (ewm_mean alpha minp s) = length s.
Proof.
  unfold ewm_mean, min_periods_mask. rewrite length_imap.
  destruct s; simpl; auto using length_ewm_from.
Qed.

Lemma length_ta_momentum_rsi (close : list num) (window : nat) :
  length (ta_momentum_rsi close window) = length close.
Proof.
  unfold ta_momentum_rsi, up_direction, down_direction, where_.
  rewrite length_zip_with, !length_ewm_mean, !length_map, length_diff. lia.
Qed.

(** An element-wise operation between a series and its shift. *)
Lemma zip_with_shift1 (f : num -> num -> num) (x : num) (t : list num) :
  zip_with f (x :: t) (shift1 (x :: t)) = f x nan :: adjacent f x t.
Proof.
  unfold shift1. change (length (x :: t)) with (S (length t)).
  rewrite firstn_cons. simpl zip_with. f_equal.
  revert x. induction t as [|y t IH]; intros x; [reflexivity|].
  change (take (length (y :: t)) (x :: y :: t))
    with (x :: take (length t) (y :: t)).
  simpl. f_equal. apply IH.
Qed.

Lemma diff_cons (x : num) (t : list num) :
  diff (x :: t) = fsub x nan :: adjacent fsub x t.
Proof. apply zip_with_shift1. Qed.

Lemma pct_change_cons (x : num) (t : list num) :
  pct_change (x :: t)
  = fsub (fdiv x nan) (of_Z 1)
    :: map (fun q => fsub q (of_Z 1)) (adjacent fdiv x t).
Proof. unfold pct_change. rewrite zip_with_shift1. reflexivity. Qed.

Lemma last_ewm_from alpha (s : list num) :
  forall y, last (y :: ewm_from alpha y s)
            = Some (fold_left (ewm_step alpha) s y).
Proof.
  induction s as [|x t IH]; intros y; [reflexivity|].
  simpl ewm_from. simpl fold_left. rewrite <- IH. reflexivity.
Qed.

Lemma last_ewm_raw alpha (x : num) (t : list num) :
  last (ewm_raw alpha (x :: t)) = Some (fold_left (ewm_step alpha) t x).
Proof. apply last_ewm_from. Qed.

Lemma last_min_periods_mask minp (s : list num) y :
  last s = Some y ->
  (minp <= length s)%nat ->
  last (min_periods_mask minp s) = Some y.
Proof.
  intros Hl Hn. unfold min_periods_mask.
  rewrite last_lookup, length_imap, list_lookup_imap.
  rewrite last_lookup in Hl. rewrite Hl. simpl.
  destruct s as [|z s]; [discriminate|]. simpl in *.
  destruct (S (length s) <? minp)%nat eqn:E; [|reflexivity].
  apply Nat.ltb_lt in E. lia.
Qed.

Lemma last_zip_with (f : num -> num -> num) (a b : list num) x y :
  length a = length b ->
  last a = Some x -> last b = Some y ->
  last (zip_with f a b) = Some (f x y).
Proof.
  intros Hlen Ha Hb.
  rewrite last_lookup in Ha, Hb. rewrite <- Hlen in Hb.
  rewrite last_lookup, length_zip_with, <- Hlen, Nat.min_id.
  rewrite lookup_zip_with, Ha. simpl. rewrite Hb. reflexivity.
Qed.

(** The last value of the oscillator series is [rsi_value] of the last
    smoothed gain and the last smoothed loss. *)
Lemma last_ta_momentum_rsi (close : list num) (window : nat) up0 ups dn0 dns :
  up_direction close = up0 :: ups ->
  down_direction close = dn0 :: dns ->
  (window <= length close)%nat ->
  let alpha := fdiv (of_Z 1) (of_Z (Z.of_nat window)) in
  iloc_last (ta_momentum_rsi close window)
  = Some (rsi_value (fold_left (ewm_step alpha) ups up0)
                    (fold_left (ewm_step alpha) dns dn0)).
Proof.
  intros Hup Hdn Hw alpha. unfold iloc_last, ta_momentum_rsi. fold alpha.
  assert (Lu : length (up_direction close) = length close)
    by (unfold up_direction, where_; rewrite length_map; apply length_diff).
  assert (Ld : length (down_direction close) = length close)
    by (unfold down_direction, where_; rewrite !length_map;
        apply length_diff).
  apply last_zip_with.
  - rewrite !length_ewm_mean. lia.
  - unfold ewm_mean. apply last_min_periods_mask.
    + rewrite Hup. apply last_ewm_raw.
    + rewrite <- length_ewm_mean with (alpha := alpha) (minp := window) in Lu.
      unfold ewm_mean, min_periods_mask in Lu. rewrite length_imap in Lu.
      lia.
  - unfold ewm_mean. apply last_min_periods_mask.
    + rewrite Hdn. apply last_ewm_raw.
    + rewrite <- length_ewm_mean with (alpha := alpha) (minp := window) in Ld.
      unfold ewm_mean, min_periods_mask in Ld. rewrite length_imap in Ld.
      lia.
Qed.

End SeriesFacts.

(* ===================================================================== *)
(** ** The program and its denotation *)
(* ===================================================================== *)

Section StoreFacts.
Context {N : NumOps}.

Lemma read_bound (st : Store) l f :
  st !! l = Some f -> read l st = (inr f, st).
Proof. intros H. unfold read. rewrite H. reflexivity. Qed.

Lemma lookup_fresh (st : Store) (f : DataFrame) :
  (st ++ [f]) !! length st = Some f.
Proof. rewrite lookup_app_r by lia. rewrite Nat.sub_diag. reflexivity. Qed.

Lemma insert_fresh (st : Store) (f g : DataFrame) :
  <[length st := g]> (st ++ [f]) = st ++ [g].
Proof.
  rewrite insert_app_r_alt by lia. rewrite Nat.sub_diag. reflexivity.
Qed.

Lemma length_with_column name (values : list num) (f : DataFrame) :
  length values = length f -> length (with_column name values f) = length f.
Proof. intros H. unfold with_column. rewrite length_zip_with. lia. Qed.

Lemma avg_price_with_column name (values : list num) (f : DataFrame) :
  length values = length f ->
  map avg_price (with_column name values f) = map avg_price f.
Proof.
  unfold with_column. revert values.
  induction f as [|r f IH]; intros [|v values] H; simpl in *;
    try discriminate; auto.
  f_equal. apply IH. lia.
Qed.

Lemma col_values_with_column name (values : list num) (f : DataFrame) :
  length values = length f ->
  col_values name (with_column name values f) = Some values.
Proof.
  unfold col_values, with_column. revert values.
  induction f as [|r f IH]; intros [|v values] H; simpl in *;
    try discriminate; auto.
  rewrite lookup_insert_eq. simpl.
  rewrite IH by lia. reflexivity.
Qed.

Lemma col_values_with_column_ne name name' (values vs : list num)
    (f : DataFrame) :
  name <> name' ->
  length values = length f ->
  col_values name' f = Some vs ->
  col_values name' (with_column name values f) = Some vs.
Proof.
  intros Hne. unfold col_values, with_column. revert values vs.
  induction f as [|r f IH]; intros [|v values] vs H Hc; simpl in *;
    try discriminate; auto.
  rewrite lookup_insert_ne by done.
  destruct (extra r !! name') as [x|]; simpl in *; [|discriminate].
  destruct (mapM (fun r0 => extra r0 !! name') f) as [xs|] eqn:E;
    simpl in *; [|discriminate].
  erewrite IH; [exact Hc| lia | reflexivity].
Qed.

End StoreFacts.

Local Set Warnings "-clear-no-such-hyp".

Section Run.
Context {N : NumOps}.
Variable momentum_rsi : list num -> nat -> list num.

Lemma length_insert_by_date (r : Row) (f : DataFrame) :
  length (insert_by_date r f) = S (length f).
Proof.
  induction f as [|x t IH]; simpl; [reflexivity|].
  destruct (date x <? date r)%Z; simpl; auto.
Qed.

Lemma length_sorted_by_date (f : DataFrame) :
  length (sorted_by_date f) = length f.
Proof.
  induction f as [|x t IH]; simpl; [reflexivity|].
  rewrite length_insert_by_date. auto.
Qed.

Lemma run_bind {A B} (m : M A) (k : A -> M B) st a st' :
  m st = (inr a, st') -> bind m k st = k a st'.
Proof. intros H. unfold bind. rewrite H. reflexivity. Qed.

Lemma run_bind_raise {A B} (m : M A) (k : A -> M B) st e st' :
  m st = (inl e, st') -> bind m k st = (inl e, st').
Proof. intros H. unfold bind. rewrite H. reflexivity. Qed.

Lemma select_product_run (st : Store) df f ticker :
  st !! df = Some f ->
  select_product df ticker st
  = (inr (length st),
     st ++ [List.filter (fun r => String.eqb (product_id r) ticker) f]).
Proof.
  intros H. unfold select_product.
  rewrite (run_bind _ _ _ _ _ (read_bound _ _ _ H)). reflexivity.
Qed.

Lemma copy_run (st : Store) df f :
  st !! df = Some f -> copy df st = (inr (length st), st ++ [f]).
Proof.
  intros H. unfold copy.
  rewrite (run_bind _ _ _ _ _ (read_bound _ _ _ H)). reflexivity.
Qed.

Lemma sort_values_date_run (st : Store) df f :
  st !! df = Some f ->
  sort_values_date df st = (inr (length st), st ++ [sorted_by_date f]).
Proof.
  intros H. unfold sort_values_date.
  rewrite (run_bind _ _ _ _ _ (read_bound _ _ _ H)). reflexivity.
Qed.

Lemma len_run (st : Store) df f :
  st !! df = Some f -> len df st = (inr (length f), st).
Proof.
  intros H. unfold len.
  rewrite (run_bind _ _ _ _ _ (read_bound _ _ _ H)). reflexivity.
Qed.

Lemma col_avg_price_run (st : Store) df f :
  st !! df = Some f -> col_avg_price df st = (inr (map avg_price f), st).
Proof.
  intros H. unfold col_avg_price.
  rewrite (run_bind _ _ _ _ _ (read_bound _ _ _ H)). reflexivity.
Qed.

Lemma col_product_id_run (st : Store) df f :
  st !! df = Some f -> col_product_id df st = (inr (map product_id f), st).
Proof.
  intros H. unfold col_product_id.
  rewrite (run_bind _ _ _ _ _ (read_bound _ _ _ H)). reflexivity.
Qed.

(** Assigning a column to the most recently created frame. *)
Lemma setcol_run (st : Store) f name (values : list num) :
  length values = length f ->
  setcol (length st) name values (st ++ [f])
  = (inr tt, st ++ [with_column name values f]).
Proof.
  intros H. unfold setcol.
  rewrite (run_bind _ _ _ _ _ (read_bound _ _ _ (lookup_fresh st f))).
  rewrite (proj2 (Nat.eqb_eq _ _) H).
  unfold write. f_equal. apply insert_fresh.
Qed.

Lemma setcol_run_raise (st : Store) f name (values : list num) :
  length values <> length f ->
  setcol (length st) name values (st ++ [f]) = (inl ValueError, st ++ [f]).
Proof.
  intros H. unfold setcol.
  rewrite (run_bind _ _ _ _ _ (read_bound _ _ _ (lookup_fresh st f))).
  rewrite (proj2 (Nat.eqb_neq _ _) H). reflexivity.
Qed.

Lemma getcol_run (st : Store) df f name (values : list num) :
  st !! df = Some f ->
  col_values name f = Some values ->
  getcol df name st = (inr values, st).
Proof.
  intros H Hc. unfold getcol.
  rewrite (run_bind _ _ _ _ _ (read_bound _ _ _ H)).
  rewrite Hc. reflexivity.
Qed.

(** The loop body returns what [iteration] says, and only adds objects to
    the store: every object that existed before is left as it was. *)
Lemma analyze_ticker_run (st : Store) df f ticker results :
  st !! df = Some f ->
  exists ext,
    analyze_ticker momentum_rsi df ticker results st
    = (iteration momentum_rsi f ticker results, st ++ ext).
Proof.
  intros Hdf. unfold analyze_ticker, iteration, stock_rows.
  set (sel := List.filter _ f).
  set (stock := sorted_by_date sel).
  rewrite (run_bind _ _ _ _ _ (select_product_run _ _ _ ticker Hdf)).
  fold sel.
  rewrite (run_bind _ _ _ _ _ (copy_run _ _ _ (lookup_fresh st sel))).
  rewrite (run_bind _ _ _ _ _
             (sort_values_date_run _ _ _ (lookup_fresh (st ++ [sel]) sel))).
  fold stock.
  set (st2 := (st ++ [sel]) ++ [sel]).
  assert (Hst2 : forall g, st2 ++ [g] = st ++ [sel; sel; g])
    by (intros g; unfold st2; rewrite <- !app_assoc; reflexivity).
  rewrite (run_bind _ _ _ _ _ (len_run _ _ _ (lookup_fresh st2 stock))).
  destruct (length stock <? 15)%nat eqn:Hlen.
  { exists [sel; sel; stock]. unfold ret. rewrite Hst2. reflexivity. }
  rewrite (run_bind _ _ _ _ _
             (col_avg_price_run _ _ _ (lookup_fresh st2 stock))).
  unfold indicators.
  destruct (length (momentum_rsi (map avg_price stock) 14) =? length stock)%nat
    eqn:Hr.
  2:{ apply Nat.eqb_neq in Hr.
      rewrite (run_bind_raise _ _ _ _ _ (setcol_run_raise _ _ _ _ Hr)).
      exists [sel; sel; stock]. rewrite Hst2. reflexivity. }
  apply Nat.eqb_eq in Hr.
  rewrite (run_bind _ _ _ _ _ (setcol_run _ _ _ _ Hr)).
  set (stock1 := with_column "rsi" _ stock).
  rewrite (run_bind _ _ _ _ _
             (col_avg_price_run _ _ _ (lookup_fresh st2 stock1))).
  assert (Hp1 : map avg_price stock1 = map avg_price stock)
    by (apply avg_price_with_column; exact Hr).
  rewrite Hp1.
  assert (Hpc : length (pct_change (map avg_price stock)) = length stock1).
  { rewrite length_pct_change, length_map.
    symmetry. apply length_with_column. exact Hr. }
  rewrite (run_bind _ _ _ _ _ (setcol_run _ _ _ _ Hpc)).
  set (stock2 := with_column "pct_change" _ stock1).
  rewrite (run_bind _ _ _ _ _
             (getcol_run _ _ _ _ _ (lookup_fresh st2 stock2)
                (col_values_with_column _ _ _ Hpc))).
  assert (Hc : col_values "rsi" stock2
               = Some (momentum_rsi (map avg_price stock) 14)).
  { unfold stock2. apply col_values_with_column_ne; [done|exact Hpc|].
    unfold stock1. apply col_values_with_column. exact Hr. }
  rewrite (run_bind _ _ _ _ _
             (getcol_run _ _ _ _ _ (lookup_fresh st2 stock2) Hc)).
  exists [sel; sel; stock2]. rewrite <- Hst2.
  destruct (iloc_last (momentum_rsi (map avg_price stock) 14))
    as [cur|] eqn:Hlast.
  - unfold bind, lift_option, ret.
    destruct (signal_logic cur) as [s c]. reflexivity.
  - reflexivity.
Qed.

Lemma results_of_cons (f : DataFrame) ticker rest results :
  results_of momentum_rsi f (ticker :: rest) results
  = match iteration momentum_rsi f ticker results with
    | inr results' => results_of momentum_rsi f rest results'
    | inl e => inl e
    end.
Proof.
  unfold iteration. simpl.
  destruct (length (stock_rows f ticker) <? 15)%nat; [reflexivity|].
  destruct (indicators momentum_rsi (stock_rows f ticker)); reflexivity.
Qed.

Lemma for_tickers_run (tickers : list string) :
  forall (st : Store) df f results,
    st !! df = Some f ->
    exists ext,
      for_tickers momentum_rsi df tickers results st
      = (results_of momentum_rsi f tickers results, st ++ ext).
Proof.
  induction tickers as [|ticker rest IH]; intros st df f results Hdf.
  - exists []. rewrite app_nil_r. reflexivity.
  - destruct (analyze_ticker_run st df f ticker results Hdf) as [ext1 H1].
    rewrite results_of_cons.
    change (for_tickers momentum_rsi df (ticker :: rest) results)
      with (bind (analyze_ticker momentum_rsi df ticker results)
              (fun results' => for_tickers momentum_rsi df rest results')).
    destruct (iteration momentum_rsi f ticker results) as [e|results'].
    + exists ext1. apply (run_bind_raise _ _ _ _ _ H1).
    + rewrite (run_bind _ _ _ _ _ H1).
      destruct (IH (st ++ ext1) df f results'
                  (lookup_app_l_Some _ _ _ _ Hdf)) as [ext2 H2].
      exists (ext1 ++ ext2). rewrite H2, app_assoc. reflexivity.
Qed.

(** The program computes [compute] of the table it is given, and the
    final store is the initial one followed by the frames it created. *)
Theorem analyze_run (st : Store) df f :
  st !! df = Some f ->
  exists ext,
    analyze_technical_indicators momentum_rsi df st
    = (compute momentum_rsi f, st ++ ext).
Proof.
  intros Hdf. unfold analyze_technical_indicators, compute.
  rewrite (run_bind _ _ _ _ _ (col_product_id_run _ _ _ Hdf)).
  apply for_tickers_run. exact Hdf.
Qed.

Lemma analyze_unbound (st : Store) df :
  st !! df = None ->
  analyze_technical_indicators momentum_rsi df st = (inl Unbound, st).
Proof.
  intros Hdf. unfold analyze_technical_indicators, col_product_id.
  unfold bind, read. rewrite Hdf. reflexivity.
Qed.

(** *** Reading the result mapping *)

Lemma unique_from_elem (s : list string) :
  forall seen x, x ∈ unique_from seen s <-> x ∈ s /\ x ∉ seen.
Proof.
  induction s as [|y t IH]; intros seen x; simpl.
  - split; [intros H; inversion H | intros [H _]; inversion H].
  - destruct (bool_decide (y ∈ seen)) eqn:Hy.
    + apply bool_decide_eq_true in Hy. rewrite IH. set_solver.
    + apply bool_decide_eq_false in Hy.
      rewrite elem_of_cons, IH. 
      destruct (decide (x = y)) as [->|Hne]; set_solver.
Qed.

Lemma unique_elem (s : list string) x : x ∈ unique s <-> x ∈ s.
Proof. unfold unique. rewrite unique_from_elem. set_solver. Qed.

(** An instrument that is not iterated over, or has too few rows, keeps
    whatever the accumulator held for it. *)
Lemma results_of_skip (f : DataFrame) (tickers : list string) t :
  forall results out,
    results_of momentum_rsi f tickers results = inr out ->
    t ∉ tickers \/ (length (stock_rows f t) < 15)%nat ->
    out !! t = results !! t.
Proof.
  induction tickers as [|x rest IH]; intros results out Hout Ht.
  - simpl in Hout. congruence.
  - simpl in Hout.
    assert (Hrest : t ∉ rest \/ (length (stock_rows f t) < 15)%nat)
      by (destruct Ht as [Ht|Ht]; [left; set_solver | right; exact Ht]).
    destruct (length (stock_rows f x) <? 15)%nat eqn:Hlen.
    + apply (IH _ _ Hout Hrest).
    + destruct (indicators momentum_rsi (stock_rows f x)) as [e|entry];
        [discriminate|].
      rewrite (IH _ _ Hout Hrest).
      apply lookup_insert_ne. intros ->.
      apply Nat.ltb_ge in Hlen.
      destruct Ht as [Ht|Ht]; [set_solver | lia].
Qed.

(** An instrument that is iterated over and has enough rows gets the
    entry [indicators] builds from its ordered rows. *)
Lemma results_of_entry (f : DataFrame) (tickers : list string) t :
  forall results out,
    results_of momentum_rsi f tickers results = inr out ->
    t ∈ tickers ->
    (15 <= length (stock_rows f t))%nat ->
    exists entry,
      indicators momentum_rsi (stock_rows f t) = inr entry /\
      out !! t = Some entry.
Proof.
  induction tickers as [|x rest IH]; intros results out Hout Ht Hn.
  - inversion Ht.
  - simpl in Hout.
    destruct (decide (t ∈ rest)) as [Hin|Hnin].
    + destruct (length (stock_rows f x) <? 15)%nat;
        [apply (IH _ _ Hout Hin Hn)|].
      destruct (indicators momentum_rsi (stock_rows f x)); [discriminate|].
      apply (IH _ _ Hout Hin Hn).
    + assert (x = t) as -> by set_solver.
      rewrite (proj2 (Nat.ltb_ge _ _) Hn) in Hout.
      destruct (indicators momentum_rsi (stock_rows f t)) as [e|entry];
        [discriminate|].
      exists entry. split; [reflexivity|].
      rewrite (results_of_skip _ _ t _ _ Hout (or_introl Hnin)).
      apply lookup_insert_eq.
Qed.

(** Every entry of the result is the entry of its instrument, which has
    at least 15 rows. *)
Lemma compute_lookup (f : DataFrame) out t entry :
  compute momentum_rsi f = inr out ->
  out !! t = Some entry ->
  (15 <= length (stock_rows f t))%nat /\
  indicators momentum_rsi (stock_rows f t) = inr entry.
Proof.
  unfold compute. intros Hout Ht.
  destruct (decide (t ∈ unique (map product_id f))) as [Hin|Hnin].
  - destruct (Nat.lt_ge_cases (length (stock_rows f t)) 15) as [Hlt|Hge].
    + rewrite (results_of_skip _ _ t _ _ Hout (or_intror Hlt)) in Ht.
      rewrite lookup_empty in Ht. discriminate.
    + destruct (results_of_entry _ _ t _ _ Hout Hin Hge) as [e [He Hl]].
      split; [exact Hge|]. congruence.
  - rewrite (results_of_skip _ _ t _ _ Hout (or_introl Hnin)) in Ht.
    rewrite lookup_empty in Ht. discriminate.
Qed.

(** With an oscillator that returns a series as long as its input, no
    step raises. *)
Hypothesis rsi_length :
  forall close window, length (momentum_rsi close window) = length close.

Lemma indicators_total (stock : DataFrame) :
  (15 <= length stock)%nat ->
  exists entry, indicators momentum_rsi stock = inr entry.
Proof.
  intros Hn. unfold indicators.
  rewrite rsi_length, length_map, Nat.eqb_refl.
  unfold iloc_last.
  destruct (last (momentum_rsi (map avg_price stock) 14)) as [cur|] eqn:Hl.
  - eauto.
  - apply last_None in Hl. apply (f_equal length) in Hl.
    rewrite rsi_length, length_map in Hl. simpl in Hl. lia.
Qed.

Lemma results_of_total (f : DataFrame) (tickers : list string) :
  forall results, exists out,
    results_of momentum_rsi f tickers results = inr out.
Proof.
  induction tickers as [|x rest IH]; intros results; simpl; [eauto|].
  destruct (length (stock_rows f x) <? 15)%nat eqn:Hlen; [apply IH|].
  apply Nat.ltb_ge in Hlen.
  destruct (indicators_total _ Hlen) as [entry ->]. apply IH.
Qed.

Lemma compute_total (f : DataFrame) :
  exists out, compute momentum_rsi f = inr out.
Proof. apply results_of_total. Qed.

End Run.

(* ===================================================================== *)
(** ** Signal classification *)
(* ===================================================================== *)

Section Signals.
Context {N : NumOps}.

Lemma signal_logic_signal (current_rsi : num) :
  fst (signal_logic current_rsi) = signal_of_momentum current_rsi.
Proof.
  unfold signal_logic, signal_of_momentum.
  destruct (flt (of_Z 70) current_rsi); [reflexivity|].
  destruct (flt current_rsi (of_Z 30)); [reflexivity|].
  destruct (flt (of_Z 60) current_rsi); [reflexivity|].
  destruct (flt current_rsi (of_Z 40)); reflexivity.
Qed.

Lemma signal_logic_color (current_rsi : num) :
  color_of_signal (fst (signal_logic current_rsi))
  = Some (snd (signal_logic current_rsi)).
Proof.
  unfold signal_logic.
  destruct (flt (of_Z 70) current_rsi); [reflexivity|].
  destruct (flt current_rsi (of_Z 30)); [reflexivity|].
  destruct (flt (of_Z 60) current_rsi); [reflexivity|].
  destruct (flt current_rsi (of_Z 40)); reflexivity.
Qed.

Lemma signal_logic_red (current_rsi : num) :
  snd (signal_logic current_rsi) = "red"
  <-> fst (signal_logic current_rsi) = "SELL (Overbought)".
Proof.
  unfold signal_logic.
  destruct (flt (of_Z 70) current_rsi); [tauto|].
  destruct (flt current_rsi (of_Z 30)); [split; discriminate|].
  destruct (flt (of_Z 60) current_rsi); [split; discriminate|].
  destruct (flt current_rsi (of_Z 40)); split; discriminate.
Qed.

(** Every emitted entry was built by [indicators] from the last value of
    the oscillator series. *)
Lemma emitted_entry momentum_rsi (st : Store) df out t entry :
  fst (analyze_technical_indicators momentum_rsi df st) = inr out ->
  out !! t = Some entry ->
  exists f,
    st !! df = Some f /\
    (15 <= length (stock_rows f t))%nat /\
    indicators momentum_rsi (stock_rows f t) = inr entry.
Proof.
  intros Hrun Ht.
  destruct (st !! df) as [f|] eqn:Hdf.
  - destruct (analyze_run momentum_rsi st df f Hdf) as [ext Hext].
    rewrite Hext in Hrun. simpl in Hrun.
    exists f. split; [reflexivity|].
    apply (compute_lookup momentum_rsi f out t entry Hrun Ht).
  - rewrite (analyze_unbound momentum_rsi st df Hdf) in Hrun.
    discriminate.
Qed.

Lemma indicators_fields momentum_rsi (stock : DataFrame) entry :
  indicators momentum_rsi stock = inr entry ->
  signal entry = fst (signal_logic (rsi entry)) /\
  signal_color entry = snd (signal_logic (rsi entry)) /\
  iloc_last (momentum_rsi (map avg_price stock) 14) = Some (rsi entry) /\
  volatility entry
  = fmul (std (pct_change (map avg_price stock))) (fsqrt (of_Z 252)).
Proof.
  unfold indicators.
  destruct (_ =? _)%nat; [|discriminate].
  destruct (iloc_last _) as [cur|]; [|discriminate].
  intros H. injection H as <-. simpl. auto.
Qed.

End Signals.

(** The five values the specification lists, as Python floats. *)
Example signal_at_75 :
  @signal_of_momentum Float64 (of_Z 75) = "SELL (Overbought)".
Proof. vm_compute. reflexivity. Qed.

Example signal_at_25 :
  @signal_of_momentum Float64 (of_Z 25) = "BUY (Oversold)".
Proof. vm_compute. reflexivity. Qed.

Example signal_at_65 :
  @signal_of_momentum Float64 (of_Z 65) = "Watch (Trending High)".
Proof. vm_compute. reflexivity. Qed.

Example signal_at_35 :
  @signal_of_momentum Float64 (of_Z 35) = "Watch (Trending Low)".
Proof. vm_compute. reflexivity. Qed.

Example signal_at_50 :
  @signal_of_momentum Float64 (of_Z 50) = "HOLD / NEUTRAL".
Proof. vm_compute. reflexivity. Qed.

(** A missing oscillator value fails every comparison. *)
Example signal_at_nan :
  @signal_of_momentum Float64 nan = "HOLD / NEUTRAL".
Proof. vm_compute. reflexivity. Qed.

(** C1: for every instrument emitted in the output mapping, the signal is
    the threshold function of the emitted momentum value: above 70 it is
    "SELL (Overbought)", otherwise below 30 "BUY (Oversold)", otherwise
    above 60 "Watch (Trending High)", otherwise below 40
    "Watch (Trending Low)", otherwise "HOLD / NEUTRAL". *)
Theorem signal_is_threshold_function {N : NumOps}
    (momentum_rsi : list num -> nat -> list num)
    (st : Store) (df : loc) (out : gmap string Entry) (t : string)
    (entry : Entry) :
  fst (analyze_technical_indicators momentum_rsi df st) = inr out ->
  out !! t = Some entry ->
  signal entry = signal_of_momentum (rsi entry).
Proof.
  intros Hrun Ht.
  destruct (emitted_entry _ _ _ _ _ _ Hrun Ht) as [f [_ [_ Hind]]].
  destruct (indicators_fields _ _ _ Hind) as [Hs _].
  rewrite Hs. apply signal_logic_signal.
Qed.

Lemma signal_is_threshold_function_witness :
  fst (analyze_technical_indicators ta_momentum_rsi 0%nat
         [@dip_then_rise Float64]) = inr demo_out /\
  demo_out !! "X" = Some demo_entry /\
  signal demo_entry = signal_of_momentum (rsi demo_entry).
Proof.
  split; [vm_compute; reflexivity|].
  split; [vm_compute; reflexivity|].
  apply (signal_is_threshold_function ta_momentum_rsi [dip_then_rise] 0%nat
           demo_out "X" demo_entry);
    vm_compute; reflexivity.
Defined.

(** C10: every entry of the output mapping has a fourth field,
    [signal_color], and it is the colour of the entry's signal: "red"
    exactly when the signal is "SELL (Overbought)", "green" for
    "BUY (Oversold)", "orange" for "Watch (Trending High)", "blue" for
    "Watch (Trending Low)" and "gray" for "HOLD / NEUTRAL". *)
Theorem signal_color_matches_signal {N : NumOps}
    (momentum_rsi : list num -> nat -> list num)
    (st : Store) (df : loc) (out : gmap string Entry) (t : string)
    (entry : Entry) :
  fst (analyze_technical_indicators momentum_rsi df st) = inr out ->
  out !! t = Some entry ->
  color_of_signal (signal entry) = Some (signal_color entry) /\
  (signal_color entry = "red" <-> signal entry = "SELL (Overbought)").
Proof.
  intros Hrun Ht.
  destruct (emitted_entry _ _ _ _ _ _ Hrun Ht) as [f [_ [_ Hind]]].
  destruct (indicators_fields _ _ _ Hind) as [Hs [Hc _]].
  rewrite Hs, Hc. split.
  - apply signal_logic_color.
  - apply signal_logic_red.
Qed.

Lemma signal_color_matches_signal_witness :
  fst (analyze_technical_indicators ta_momentum_rsi 0%nat
         [@dip_then_rise Float64]) = inr demo_out /\
  demo_out !! "X" = Some demo_entry /\
  color_of_signal (signal demo_entry) = Some (signal_color demo_entry) /\
  (signal_color demo_entry = "red"
   <-> signal demo_entry = "SELL (Overbought)").
Proof.
  split; [vm_compute; reflexivity|].
  split; [vm_compute; reflexivity|].
  apply (signal_color_matches_signal ta_momentum_rsi [dip_then_rise] 0%nat
           demo_out "X" demo_entry);
    vm_compute; reflexivity.
Defined.

(* ===================================================================== *)
(** ** Insufficient history, malformed observations, purity *)
(* ===================================================================== *)

(** C3: for every table and every instrument whose filtered, date-ordered
    rows number fewer than 15, the loop iteration of that instrument
    returns the accumulated results unchanged without raising, and the
    operation returns a mapping that has no entry for the instrument (the
    oscillator returning a series as long as its input, no other
    instrument raises either). *)
Theorem insufficient_history_omitted {N : NumOps}
    (momentum_rsi : list num -> nat -> list num)
    (st : Store) (df : loc) (f : DataFrame) (t : string) :
  (forall close window,
      length (momentum_rsi close window) = length close) ->
  st !! df = Some f ->
  (length (stock_rows f t) < 15)%nat ->
  (forall results, iteration momentum_rsi f t results = inr results) /\
  exists out st',
    analyze_technical_indicators momentum_rsi df st = (inr out, st') /\
    out !! t = None.
Proof.
  intros Hrsi Hdf Hlen. split.
  - intros results. unfold iteration.
    rewrite (proj2 (Nat.ltb_lt _ _) Hlen). reflexivity.
  - destruct (analyze_run momentum_rsi st df f Hdf) as [ext Hext].
    destruct (compute_total momentum_rsi Hrsi f) as [out Hout].
    exists out, (st ++ ext). split; [rewrite Hext, Hout; reflexivity|].
    unfold compute in Hout.
    rewrite (results_of_skip _ _ _ t _ _ Hout (or_intror Hlen)).
    apply lookup_empty.
Qed.

Lemma insufficient_history_omitted_witness :
  (forall close window,
      length (@ta_momentum_rsi Float64 close window) = length close) /\
  [@two_stocks Float64] !! 0%nat = Some two_stocks /\
  (length (stock_rows (@two_stocks Float64) "Y") < 15)%nat /\
  (forall results,
      iteration ta_momentum_rsi (@two_stocks Float64) "Y" results
      = inr results) /\
  exists out st',
    analyze_technical_indicators ta_momentum_rsi 0%nat [@two_stocks Float64]
    = (inr out, st') /\
    out !! "Y" = None.
Proof.
  split; [exact (@length_ta_momentum_rsi Float64)|].
  split; [reflexivity|].
  split; [vm_compute; lia|].
  apply (insufficient_history_omitted ta_momentum_rsi [two_stocks] 0%nat
           two_stocks "Y");
    [exact (@length_ta_momentum_rsi Float64) | reflexivity
    | vm_compute; lia].
Defined.

(** The instrument with enough rows is present in the same run. *)
Example two_stocks_run :
  float_run two_stocks = inr two_out /\
  is_Some (two_out !! "X") /\ two_out !! "Y" = None.
Proof.
  split; [vm_compute; reflexivity|].
  split; [exists (entry_of two_out "X")|]; vm_compute; reflexivity.
Qed.

(** C4 as stated fails: a table with a zero price is not rejected.  The
    run returns a mapping, and the instrument's volatility in it is
    not-a-number. *)
Lemma zero_price_not_rejected :
  malformed (@zero_price Float64) /\
  fst (analyze_technical_indicators ta_momentum_rsi 0%nat
         [@zero_price Float64]) = inr zero_out /\
  zero_out !! "X" = Some zero_entry /\
  isna (volatility zero_entry) = true.
Proof.
  split.
  - left. unfold zero_price, daily. simpl.
    do 7 apply Exists_cons_tl. apply Exists_cons_hd.
    vm_compute. reflexivity.
  - repeat split; vm_compute; reflexivity.
Qed.

(** C4, amended: the operation makes no data-quality check.  For every
    table, whatever its prices and dates (the oscillator returning a series
    as long as its input), it raises nothing and returns a mapping with an
    entry for every instrument that has at least 15 rows. *)
Theorem no_data_quality_check {N : NumOps}
    (momentum_rsi : list num -> nat -> list num)
    (st : Store) (df : loc) (f : DataFrame) :
  (forall close window,
      length (momentum_rsi close window) = length close) ->
  st !! df = Some f ->
  exists out st',
    analyze_technical_indicators momentum_rsi df st = (inr out, st') /\
    forall t,
      t ∈ map product_id f ->
      (15 <= length (stock_rows f t))%nat ->
      is_Some (out !! t).
Proof.
  intros Hrsi Hdf.
  destruct (analyze_run momentum_rsi st df f Hdf) as [ext Hext].
  destruct (compute_total momentum_rsi Hrsi f) as [out Hout].
  exists out, (st ++ ext). split; [rewrite Hext, Hout; reflexivity|].
  intros t Ht Hn. unfold compute in Hout.
  apply unique_elem in Ht.
  destruct (results_of_entry _ _ _ t _ _ Hout Ht Hn) as [entry [_ He]].
  exists entry. exact He.
Qed.

Lemma no_data_quality_check_witness :
  (forall close window,
      length (@ta_momentum_rsi Float64 close window) = length close) /\
  [@zero_price Float64] !! 0%nat = Some zero_price /\
  exists out st',
    analyze_technical_indicators ta_momentum_rsi 0%nat [@zero_price Float64]
    = (inr out, st') /\
    forall t,
      t ∈ map product_id (@zero_price Float64) ->
      (15 <= length (stock_rows (@zero_price Float64) t))%nat ->
      is_Some (out !! t).
Proof.
  split; [exact (@length_ta_momentum_rsi Float64)|].
  split; [reflexivity|].
  apply (no_data_quality_check ta_momentum_rsi [zero_price] 0%nat zero_price);
    [exact (@length_ta_momentum_rsi Float64) | reflexivity].
Defined.

(** C9: the operation leaves every object of the store it started from as
    it was (the input table in particular); its output depends on the
    content of the table only, not on where the table is or on what else
    the store holds; so running it again on the store the first run left
    gives the same output. *)
Theorem compute_is_pure {N : NumOps}
    (momentum_rsi : list num -> nat -> list num)
    (st : Store) (df : loc) (f : DataFrame) :
  st !! df = Some f ->
  let run := analyze_technical_indicators momentum_rsi df st in
  (forall l g, st !! l = Some g -> snd run !! l = Some g) /\
  (forall st2 df2,
      st2 !! df2 = Some f ->
      fst (analyze_technical_indicators momentum_rsi df2 st2) = fst run) /\
  fst (analyze_technical_indicators momentum_rsi df (snd run)) = fst run.
Proof.
  intros Hdf run.
  destruct (analyze_run momentum_rsi st df f Hdf) as [ext Hext].
  assert (Hsame : forall st2 df2,
             st2 !! df2 = Some f ->
             fst (analyze_technical_indicators momentum_rsi df2 st2)
             = fst run).
  { intros st2 df2 H2.
    destruct (analyze_run momentum_rsi st2 df2 f H2) as [ext2 Hext2].
    unfold run. rewrite Hext, Hext2. reflexivity. }
  assert (Hkeep : forall l g, st !! l = Some g -> snd run !! l = Some g).
  { intros l g Hl. unfold run. rewrite Hext. simpl.
    apply lookup_app_l_Some. exact Hl. }
  split; [exact Hkeep|]. split; [exact Hsame|].
  apply Hsame. apply Hkeep. exact Hdf.
Qed.

Lemma compute_is_pure_witness :
  [@dip_then_rise Float64] !! 0%nat = Some dip_then_rise /\
  let run :=
    analyze_technical_indicators ta_momentum_rsi 0%nat
      [@dip_then_rise Float64] in
  (forall l g,
      [@dip_then_rise Float64] !! l = Some g -> snd run !! l = Some g) /\
  (forall st2 df2,
      st2 !! df2 = Some dip_then_rise ->
      fst (analyze_technical_indicators ta_momentum_rsi df2 st2) = fst run) /\
  fst (analyze_technical_indicators ta_momentum_rsi 0%nat (snd run))
  = fst run.
Proof.
  split; [reflexivity|].
  apply (compute_is_pure ta_momentum_rsi [dip_then_rise] 0%nat dip_then_rise).
  reflexivity.
Defined.

(* ===================================================================== *)
(** ** The indicators in exact arithmetic *)
(* ===================================================================== *)

Section IdealFacts.
Local Open Scope R_scope.

Lemma ideal_fadd a b : @fadd Ideal (XFin a) (XFin b) = XFin (a + b).
Proof. reflexivity. Qed.

Lemma ideal_fsub a b : @fsub Ideal (XFin a) (XFin b) = XFin (a - b).
Proof. reflexivity. Qed.

Lemma ideal_fmul a b : @fmul Ideal (XFin a) (XFin b) = XFin (a * b).
Proof. reflexivity. Qed.

Lemma ideal_fdiv a b :
  b <> 0 -> @fdiv Ideal (XFin a) (XFin b) = XFin (a / b).
Proof.
  intros Hb. simpl. unfold xdiv.
  destruct (Req_dec_T b 0); [contradiction | reflexivity].
Qed.

Lemma ideal_fsqrt a : 0 <= a -> @fsqrt Ideal (XFin a) = XFin (sqrt a).
Proof.
  intros Ha. simpl. unfold xsqrt.
  destruct (Rlt_dec a 0); [lra | reflexivity].
Qed.

Lemma ideal_flt a b :
  @flt Ideal (XFin a) (XFin b) = if Rlt_dec a b then true else false.
Proof. reflexivity. Qed.

Lemma ideal_of_Z z : @of_Z Ideal z = XFin (IZR z).
Proof. reflexivity. Qed.

Lemma ideal_of_nat n : @of_Z Ideal (Z.of_nat n) = XFin (INR n).
Proof. rewrite INR_IZR_INZ. reflexivity. Qed.

(** *** Changes, gains and losses *)

Lemma adjacent_fsub_fin (t : list R) :
  forall p,
    @adjacent Ideal fsub (XFin p) (map XFin t) = map XFin (changes_from p t).
Proof.
  induction t as [|q t IH]; intros p; [reflexivity|].
  simpl. rewrite IH. reflexivity.
Qed.

Lemma diff_fin p (t : list R) :
  @diff Ideal (map XFin (p :: t)) = XNan :: map XFin (changes_from p t).
Proof.
  change (map XFin (p :: t)) with (XFin p :: map XFin t).
  rewrite (@diff_cons Ideal), adjacent_fsub_fin. reflexivity.
Qed.

Lemma up_direction_fin p (t : list R) :
  @up_direction Ideal (map XFin (p :: t))
  = XFin 0 :: map XFin (map gain (changes_from p t)).
Proof.
  unfold up_direction. rewrite diff_fin. unfold where_.
  simpl map at 1. f_equal. rewrite !map_map. apply map_ext. intros d.
  unfold gain. destruct (Rlt_dec 0 d); reflexivity.
Qed.

Lemma down_direction_fin p (t : list R) :
  @down_direction Ideal (map XFin (p :: t))
  = XFin 0 :: map XFin (map loss (changes_from p t)).
Proof.
  unfold down_direction. rewrite diff_fin. unfold where_.
  simpl map at 1. f_equal.
  - simpl. f_equal. lra.
  - rewrite !map_map. apply map_ext. intros d.
    unfold loss. simpl. destruct (Rlt_dec d 0); simpl; f_equal; lra.
Qed.

(** *** Smoothing *)

Lemma alpha_fin :
  @fdiv Ideal (of_Z 1) (of_Z (Z.of_nat 14)) = XFin (1 / 14).
Proof.
  change (Z.of_nat 14) with 14%Z. rewrite !ideal_of_Z.
  apply ideal_fdiv. lra.
Qed.

Lemma fold_ewm_fin a (xs : list R) :
  forall y,
    fold_left (@ewm_step Ideal (XFin a)) (map XFin xs) (XFin y)
    = XFin (fold_left (fun avg x => (1 - a) * avg + a * x) xs y).
Proof.
  induction xs as [|x xs IH]; intros y; [reflexivity|].
  simpl fold_left. rewrite <- IH. reflexivity.
Qed.

Lemma fold_wilder (xs : list R) :
  forall y,
    fold_left (fun avg x => (1 - 1 / 14) * avg + 1 / 14 * x) xs y
    = fold_left (fun avg x => (13 * avg + x) / 14) xs y.
Proof.
  induction xs as [|x xs IH]; intros y; [reflexivity|].
  simpl. rewrite IH. f_equal. field.
Qed.

Lemma wilder_fold_nonneg (xs : list R) :
  forall y,
    0 <= y -> Forall (fun x => 0 <= x) xs ->
    0 <= fold_left (fun avg x => (13 * avg + x) / 14) xs y.
Proof.
  induction xs as [|x xs IH]; intros y Hy Hxs; [exact Hy|].
  inversion Hxs; subst. simpl. apply IH; [lra | assumption].
Qed.

Lemma wilder_fold_pos (xs : list R) :
  forall y,
    0 < y -> Forall (fun x => 0 <= x) xs ->
    0 < fold_left (fun avg x => (13 * avg + x) / 14) xs y.
Proof.
  induction xs as [|x xs IH]; intros y Hy Hxs; [exact Hy|].
  inversion Hxs; subst. simpl. apply IH; [lra | assumption].
Qed.

Lemma wilder_fold_zero (xs : list R) :
  Forall (fun x => x = 0) xs ->
  fold_left (fun avg x => (13 * avg + x) / 14) xs 0 = 0.
Proof.
  induction xs as [|x xs IH]; intros Hxs; [reflexivity|].
  inversion Hxs; subst. simpl.
  replace ((13 * 0 + 0) / 14) with 0 by lra. apply IH. assumption.
Qed.

Lemma gain_nonneg d : 0 <= gain d.
Proof. unfold gain. destruct (Rlt_dec 0 d); lra. Qed.

Lemma loss_nonneg d : 0 <= loss d.
Proof. unfold loss. destruct (Rlt_dec d 0); lra. Qed.

Lemma wilder_avg_nonneg (f : R -> R) (ds : list R) :
  (forall d, 0 <= f d) -> 0 <= wilder_avg (map f ds).
Proof.
  intros Hf. unfold wilder_avg. apply wilder_fold_nonneg; [lra|].
  induction ds as [|d ds IH]; simpl; constructor; auto.
Qed.

(** *** The oscillator *)

Lemma rsi_value_fin u d :
  0 <= u -> 0 <= d ->
  @rsi_value Ideal (XFin u) (XFin d) = XFin (oscillator u d).
Proof.
  intros Hu Hd. unfold rsi_value, oscillator.
  change (@feq Ideal (XFin d) (of_Z 0)) with (xeq (XFin d) (XFin 0)).
  unfold xeq. destruct (Req_dec_T d 0) as [Hz|Hnz]; [reflexivity|].
  assert (Hq : 0 <= u / d) by (apply Rle_mult_inv_pos; lra).
  rewrite !ideal_of_Z, (ideal_fdiv u d Hnz), ideal_fadd.
  rewrite ideal_fdiv by lra. reflexivity.
Qed.

Lemma oscillator_bounds u d :
  0 <= u -> 0 <= d -> 0 <= oscillator u d <= 100.
Proof.
  intros Hu Hd. unfold oscillator.
  destruct (Req_dec_T d 0) as [Hz|Hnz]; [lra|].
  assert (Hq : 0 <= u / d) by (apply Rle_mult_inv_pos; lra).
  assert (H1 : 0 < / (1 + u / d)) by (apply Rinv_0_lt_compat; lra).
  assert (H2 : / (1 + u / d) <= / 1) by (apply Rinv_le_contravar; lra).
  rewrite Rinv_1 in H2.
  replace (100 / (1 + u / d)) with (100 * / (1 + u / d)) by reflexivity.
  lra.
Qed.

(** The last oscillator value of a real price series is Wilder's
    oscillator of the series. *)
Lemma last_rsi_fin (ps : list R) :
  (14 <= length ps)%nat ->
  iloc_last (@ta_momentum_rsi Ideal (map XFin ps) 14)
  = Some (XFin (wilder_rsi ps)).
Proof.
  intros Hn. destruct ps as [|p t]; [simpl in Hn; lia|].
  rewrite (@last_ta_momentum_rsi Ideal _ _ _ _ _ _
             (up_direction_fin p t) (down_direction_fin p t))
    by (rewrite length_map; exact Hn).
  rewrite alpha_fin, !fold_ewm_fin, !fold_wilder.
  unfold wilder_rsi, changes. fold (wilder_avg (map gain (changes_from p t))).
  fold (wilder_avg (map loss (changes_from p t))).
  rewrite rsi_value_fin; [reflexivity | |].
  - apply wilder_avg_nonneg, gain_nonneg.
  - apply wilder_avg_nonneg, loss_nonneg.
Qed.

(** *** Returns and their standard deviation *)

Lemma adjacent_returns_fin (t : list R) :
  forall p,
    Forall (fun x => 0 < x) (p :: t) ->
    map (fun q => @fsub Ideal q (of_Z 1))
      (@adjacent Ideal fdiv (XFin p) (map XFin t))
    = map XFin (returns_from p t).
Proof.
  induction t as [|q t IH]; intros p Hpos; [reflexivity|].
  inversion Hpos as [|? ? Hp Ht]; subst.
  cbn [map adjacent returns_from].
  rewrite <- (IH q Ht). f_equal.
  rewrite ideal_fdiv by lra. rewrite ideal_of_Z, ideal_fsub.
  f_equal. field. lra.
Qed.

Lemma pct_change_fin p (t : list R) :
  Forall (fun x => 0 < x) (p :: t) ->
  @pct_change Ideal (map XFin (p :: t))
  = XNan :: map XFin (returns_from p t).
Proof.
  intros Hpos. change (map XFin (p :: t)) with (XFin p :: map XFin t).
  rewrite (@pct_change_cons Ideal), (adjacent_returns_fin t p Hpos).
  reflexivity.
Qed.

Lemma dropna_fin (rs : list R) : @dropna Ideal (map XFin rs) = map XFin rs.
Proof.
  unfold dropna. induction rs as [|r rs IH]; [reflexivity|].
  simpl. unfold notna. simpl. unfold xeq.
  destruct (Req_dec_T r r); [|contradiction].
  f_equal. exact IH.
Qed.

Lemma fold_fadd_fin (rs : list R) :
  forall a,
    fold_left (@fadd Ideal) (map XFin rs) (XFin a) = XFin (a + Rsum rs).
Proof.
  induction rs as [|r rs IH]; intros a; cbn [map fold_left].
  - unfold Rsum. simpl. f_equal. lra.
  - rewrite ideal_fadd, IH. f_equal. unfold Rsum. simpl. lra.
Qed.

Lemma fsum_fin (rs : list R) : @fsum Ideal (map XFin rs) = XFin (Rsum rs).
Proof.
  unfold fsum. rewrite ideal_of_Z, fold_fadd_fin. f_equal. lra.
Qed.

Lemma Rsum_squares_nonneg (m : R) (rs : list R) :
  0 <= Rsum (map (fun x => (x - m) * (x - m)) rs).
Proof.
  induction rs as [|r rs IH]; [unfold Rsum; simpl; lra|].
  change (0 <= (r - m) * (r - m)
               + Rsum (map (fun x => (x - m) * (x - m)) rs)).
  pose proof (Rle_0_sqr (r - m)) as Hsq. unfold Rsqr in Hsq. lra.
Qed.

Lemma std_fin (rs : list R) :
  (2 <= length rs)%nat ->
  @std Ideal (XNan :: map XFin rs) = XFin (sample_std rs).
Proof.
  intros Hn. unfold std. cbv zeta.
  assert (Hdrop : @dropna Ideal (XNan :: map XFin rs) = map XFin rs)
    by (exact (dropna_fin rs)).
  rewrite Hdrop, length_map.
  destruct (length rs <=? 1)%nat eqn:E; [apply Nat.leb_le in E; lia|].
  assert (Hn0 : INR (length rs) <> 0)
    by (apply not_0_INR; lia).
  assert (Hmean : @nanmean Ideal (map XFin rs) = XFin (Rmean rs)).
  { unfold nanmean. rewrite fsum_fin, length_map, ideal_of_nat.
    apply ideal_fdiv. exact Hn0. }
  rewrite Hmean, map_map.
  assert (Hsq : map (fun x => @fmul Ideal
                                (@fsub Ideal (XFin (Rmean rs)) (XFin x))
                                (@fsub Ideal (XFin (Rmean rs)) (XFin x))) rs
                = map XFin
                    (map (fun x => (x - Rmean rs) * (x - Rmean rs)) rs)).
  { rewrite map_map. apply map_ext. intros x. simpl. f_equal. ring. }
  rewrite Hsq, fsum_fin, ideal_of_nat.
  assert (Hd : INR (length rs - 1) = INR (length rs) - 1)
    by (rewrite minus_INR by lia; reflexivity).
  assert (Hlt : 1 < INR (length rs))
    by (change 1 with (INR 1); apply lt_INR; lia).
  rewrite ideal_fdiv by (rewrite Hd; lra).
  rewrite ideal_fsqrt.
  - unfold sample_std. rewrite Hd. reflexivity.
  - apply Rle_mult_inv_pos; [apply Rsum_squares_nonneg | rewrite Hd; lra].
Qed.

(** The volatility the engine computes from a series of positive real
    prices is the annualized sample standard deviation of its returns. *)
Lemma volatility_fin (ps : list R) :
  (3 <= length ps)%nat ->
  Forall (fun x => 0 < x) ps ->
  @fmul Ideal (@std Ideal (@pct_change Ideal (map XFin ps)))
    (@fsqrt Ideal (@of_Z Ideal 252))
  = XFin (annualized_volatility ps).
Proof.
  intros Hn Hpos. destruct ps as [|p t]; [simpl in Hn; lia|].
  rewrite (pct_change_fin p t Hpos).
  assert (Hlen : forall (l : list R) q, length (returns_from q l) = length l)
    by (induction l; intros; simpl; auto).
  rewrite std_fin by (rewrite Hlen; simpl in Hn; lia).
  rewrite ideal_of_Z, ideal_fsqrt by lra.
  reflexivity.
Qed.

(** *** Monotone and constant series *)

Lemma increasing_changes (t : list R) :
  forall p,
    strictly_increasing (p :: t) ->
    Forall (fun d => 0 < d) (changes_from p t).
Proof.
  induction t as [|q t IH]; intros p Hinc; simpl; constructor.
  - specialize (Hinc 0%nat p q eq_refl eq_refl). lra.
  - apply IH. intros i a b Ha Hb. apply (Hinc (S i) a b Ha Hb).
Qed.

Lemma decreasing_changes (t : list R) :
  forall p,
    strictly_decreasing (p :: t) ->
    Forall (fun d => d < 0) (changes_from p t).
Proof.
  induction t as [|q t IH]; intros p Hdec; simpl; constructor.
  - specialize (Hdec 0%nat p q eq_refl eq_refl). lra.
  - apply IH. intros i a b Ha Hb. apply (Hdec (S i) a b Ha Hb).
Qed.

Lemma constant_changes c (t : list R) :
  forall p,
    Forall (fun x => x = c) (p :: t) ->
    Forall (fun d => d = 0) (changes_from p t).
Proof.
  induction t as [|q t IH]; intros p Hc; simpl; constructor.
  - inversion Hc as [|? ? Hp Ht]; inversion Ht; subst. lra.
  - apply IH. inversion Hc. assumption.
Qed.

Lemma Forall_map_zero (f : R -> R) (P : R -> Prop) (ds : list R) :
  (forall d, P d -> f d = 0) ->
  Forall P ds -> Forall (fun x => x = 0) (map f ds).
Proof.
  intros Hf Hds. induction Hds; simpl; constructor; auto.
Qed.

(** In exact arithmetic nothing is rounded away: the oscillator of a
    strictly increasing series is 100, that of a strictly decreasing one
    is 0. *)
Lemma rising_rsi (ps : list R) :
  strictly_increasing ps -> wilder_rsi ps = 100.
Proof.
  intros Hinc. unfold wilder_rsi, oscillator.
  assert (Hz : wilder_avg (map loss (changes ps)) = 0).
  { apply wilder_fold_zero. destruct ps as [|p t]; [constructor|].
    apply (Forall_map_zero loss (fun d => 0 < d)).
    - intros d Hd. unfold loss. destruct (Rlt_dec d 0); lra.
    - apply increasing_changes. exact Hinc. }
  rewrite Hz. destruct (Req_dec_T 0 0); [reflexivity | contradiction].
Qed.

Lemma falling_rsi (ps : list R) :
  (2 <= length ps)%nat ->
  strictly_decreasing ps -> wilder_rsi ps = 0.
Proof.
  intros Hn Hdec. unfold wilder_rsi, oscillator.
  destruct ps as [|p [|q t]]; simpl in Hn; try lia.
  pose proof (decreasing_changes (q :: t) p Hdec) as Hch.
  assert (Hu : wilder_avg (map gain (changes (p :: q :: t))) = 0).
  { apply wilder_fold_zero.
    apply (Forall_map_zero gain (fun d => d < 0)); [|exact Hch].
    intros d Hd. unfold gain. destruct (Rlt_dec 0 d); lra. }
  assert (Hd : 0 < wilder_avg (map loss (changes (p :: q :: t)))).
  { unfold wilder_avg, changes. simpl changes_from in *.
    inversion Hch as [|? ? Hq Ht]; subst. simpl.
    assert (Hl : 0 < loss (q - p))
      by (unfold loss; destruct (Rlt_dec (q - p) 0); lra).
    apply wilder_fold_pos; [lra|].
    clear -t. generalize (changes_from q t). intros ds.
    induction ds; simpl; constructor; auto using loss_nonneg. }
  rewrite Hu.
  destruct (Req_dec_T _ 0) as [Hz|Hnz]; [lra|].
  unfold Rdiv. rewrite Rmult_0_l, Rplus_0_r, Rinv_1. lra.
Qed.

Lemma constant_rsi c (ps : list R) :
  Forall (fun x => x = c) ps -> wilder_rsi ps = 100.
Proof.
  intros Hc. unfold wilder_rsi, oscillator.
  assert (Hz : wilder_avg (map loss (changes ps)) = 0).
  { apply wilder_fold_zero. destruct ps as [|p t]; [constructor|].
    apply (Forall_map_zero loss (fun d => d = 0)).
    - intros d ->. unfold loss. destruct (Rlt_dec 0 0); lra.
    - apply (constant_changes c). exact Hc. }
  rewrite Hz. destruct (Req_dec_T 0 0); [reflexivity | contradiction].
Qed.

Lemma constant_returns c (t : list R) :
  forall p,
    c <> 0 ->
    Forall (fun x => x = c) (p :: t) ->
    Forall (fun r => r = 0) (returns_from p t).
Proof.
  induction t as [|q t IH]; intros p Hc0 Hc; simpl; constructor.
  - inversion Hc as [|? ? Hp Ht]; inversion Ht; subst.
    unfold Rdiv. rewrite Rminus_diag. apply Rmult_0_l.
  - apply IH; [exact Hc0|]. inversion Hc. assumption.
Qed.

Lemma Rsum_zero (xs : list R) : Forall (fun x => x = 0) xs -> Rsum xs = 0.
Proof.
  intros H. induction H; unfold Rsum in *; simpl; [reflexivity|]. lra.
Qed.

Lemma constant_volatility c (ps : list R) :
  c <> 0 ->
  Forall (fun x => x = c) ps -> annualized_volatility ps = 0.
Proof.
  intros Hc0 Hc. unfold annualized_volatility, sample_std.
  assert (Hr : Forall (fun r => r = 0) (returns ps)).
  { destruct ps as [|p t]; [constructor|].
    apply (constant_returns c); assumption. }
  assert (Hm : Rmean (returns ps) = 0).
  { unfold Rmean. rewrite (Rsum_zero _ Hr). unfold Rdiv. apply Rmult_0_l. }
  rewrite Hm.
  assert (Hs : Rsum (map (fun x => (x - 0) * (x - 0)) (returns ps)) = 0).
  { apply Rsum_zero.
    apply (Forall_map_zero _ (fun r => r = 0)); [|exact Hr].
    intros d ->. ring. }
  rewrite Hs. unfold Rdiv. rewrite Rmult_0_l, sqrt_0. apply Rmult_0_l.
Qed.

End IdealFacts.

(* ===================================================================== *)
(** ** Date order *)
(* ===================================================================== *)

Section DateOrder.
Context {N : NumOps}.

(** Inserting two rows of different dates commutes. *)
Lemma insert_by_date_comm (a b : Row) (l : DataFrame) :
  date a <> date b ->
  insert_by_date a (insert_by_date b l) = insert_by_date b (insert_by_date a l).
Proof.
  intros Hne. induction l as [|x t IH]; simpl.
  - destruct (date b <? date a)%Z eqn:E1, (date a <? date b)%Z eqn:E2;
      try reflexivity; lia.
  - destruct (date x <? date b)%Z eqn:Exb, (date x <? date a)%Z eqn:Exa;
      simpl; rewrite ?Exb, ?Exa.
    + rewrite IH. reflexivity.
    + destruct (date a <? date b)%Z eqn:E; [reflexivity | lia].
    + destruct (date b <? date a)%Z eqn:E; [reflexivity | lia].
    + destruct (date b <? date a)%Z eqn:E1, (date a <? date b)%Z eqn:E2;
        simpl; rewrite ?Exb, ?Exa; try reflexivity; lia.
Qed.

(** Ordering by date forgets the order of the input when its dates are
    pairwise different. *)
Lemma sorted_by_date_perm (l l' : DataFrame) :
  l ≡ₚ l' -> NoDup (map date l) -> sorted_by_date l = sorted_by_date l'.
Proof.
  intros Hp. induction Hp as [|x l l' Hp IH|x y l|l l' l'' H1 IH1 H2 IH2];
    intros Hnd.
  - reflexivity.
  - simpl in *. inversion Hnd; subst. rewrite IH by assumption. reflexivity.
  - simpl in *. inversion Hnd as [|? ? Hy Hnd']; subst.
    apply insert_by_date_comm. intros Heq. apply Hy.
    rewrite Heq. left.
  - rewrite IH1 by assumption. apply IH2.
    assert (Hm : map date l ≡ₚ map date l')
      by (apply Permutation_map; exact H1).
    rewrite <- Hm. exact Hnd.
Qed.

Lemma insert_by_date_perm (r : Row) (l : DataFrame) :
  insert_by_date r l ≡ₚ r :: l.
Proof.
  induction l as [|x t IH]; simpl; [reflexivity|].
  destruct (date x <? date r)%Z; [|reflexivity].
  rewrite IH. apply perm_swap.
Qed.

(** Ordering by date rearranges the rows, and leaves them in date order. *)
Lemma sorted_by_date_permutation (l : DataFrame) : sorted_by_date l ≡ₚ l.
Proof.
  induction l as [|x t IH]; simpl; [reflexivity|].
  rewrite insert_by_date_perm, IH. reflexivity.
Qed.

Lemma insert_by_date_ordered (r : Row) (l : DataFrame) :
  Sorted date_le l -> Sorted date_le (insert_by_date r l).
Proof.
  induction 1 as [|x t Hs IH Hx]; simpl; [repeat constructor|].
  destruct (date x <? date r)%Z eqn:E.
  - apply Z.ltb_lt in E. constructor; [exact IH|].
    destruct t as [|y t]; simpl.
    + constructor. unfold date_le. lia.
    + destruct (date y <? date r)%Z.
      * inversion Hx; subst. constructor. assumption.
      * constructor. unfold date_le. lia.
  - apply Z.ltb_ge in E. constructor; [constructor; assumption|].
    constructor. exact E.
Qed.

Lemma sorted_by_date_ordered (l : DataFrame) :
  Sorted date_le (sorted_by_date l).
Proof.
  induction l as [|x t IH]; simpl; [constructor|].
  apply insert_by_date_ordered. exact IH.
Qed.

(** Rows already in strictly increasing date order are left as they are. *)
Lemma sorted_by_date_fixed (l : DataFrame) :
  Sorted date_lt l -> sorted_by_date l = l.
Proof.
  induction 1 as [|x t Hs IH Hx]; simpl; [reflexivity|].
  rewrite IH. destruct Hx as [|y t Hxy]; simpl; [reflexivity|].
  unfold date_lt in Hxy.
  destruct (date y <? date x)%Z eqn:E; [apply Z.ltb_lt in E; lia|].
  reflexivity.
Qed.


(** Any rearrangement in date order of rows with pairwise different dates
    is the one [sorted_by_date] returns: with such dates a sort that
    promises nothing about ties and this one give the same rows. *)
Lemma any_date_sort_agrees (l l' : DataFrame) :
  l' ≡ₚ l -> Sorted date_le l' -> NoDup (map date l) ->
  sorted_by_date l = l'.
Proof.
  intros Hp Hs Hnd.
  assert (Hnd' : NoDup (map date l')).
  { assert (Hm : map date l' ≡ₚ map date l)
      by (apply Permutation_map; exact Hp).
    rewrite Hm. exact Hnd. }
  assert (Hlt : Sorted date_lt l').
  { clear Hp Hnd. induction Hs as [|x t Hs IH Hx]; [constructor|].
    cbn [map] in Hnd'. apply NoDup_cons in Hnd'. destruct Hnd' as [Hx' Ht].
    constructor; [apply IH; exact Ht|].
    destruct Hx as [|y t Hxy]; constructor.
    unfold date_le in Hxy. unfold date_lt.
    assert (date x <> date y) by (intros E; apply Hx'; rewrite E; left).
    lia. }
  rewrite <- (sorted_by_date_fixed l' Hlt).
  symmetry. apply sorted_by_date_perm; [exact Hp | exact Hnd'].
Qed.


End DateOrder.

(* ===================================================================== *)
(** ** IEEE doubles: signs of differences, products and sums *)
(* ===================================================================== *)

(** The facts below are read off the specification of binary64 in the
    standard library ([SpecFloat], [FloatAxioms]): a float of the format is
    [m * 2 ^ e] with a canonical mantissa; the difference of two floats is
    the rounding of their exact difference, and rounding keeps the sign. *)

Section FloatFacts.
Import SpecFloat.











End FloatFacts.






Section Rounding.
Import SpecFloat.











End Rounding.

(* ===================================================================== *)
(** ** Monotone series on IEEE doubles *)
(* ===================================================================== *)

Section SeriesMore.
Context {N : NumOps}.







End SeriesMore.

Section FloatSeries.















End FloatSeries.

Section Checks.
Context {N : NumOps}.






End Checks.



(* ===================================================================== *)
(** ** Momentum and volatility of the emitted entries *)
(* ===================================================================== *)

Section Emitted.
Context {N : NumOps}.
Variable momentum_rsi : list num -> nat -> list num.
Hypothesis rsi_length :
  forall close window, length (momentum_rsi close window) = length close.

Lemma stock_rows_ticker (f : DataFrame) t :
  (0 < length (stock_rows f t))%nat -> t ∈ map product_id f.
Proof.
  unfold stock_rows. rewrite length_sorted_by_date.
  induction f as [|r f IH]; simpl; [lia|].
  destruct (String.eqb (product_id r) t) eqn:E.
  - intros _. apply String.eqb_eq in E. rewrite E. constructor.
  - intros H. constructor. apply IH. exact H.
Qed.

(** An instrument with at least 15 rows is emitted, with the entry
    [indicators] builds from its ordered rows. *)
Lemma emitted_for (st : Store) df f t :
  st !! df = Some f ->
  (15 <= length (stock_rows f t))%nat ->
  exists out st' entry,
    analyze_technical_indicators momentum_rsi df st = (inr out, st') /\
    out !! t = Some entry /\
    indicators momentum_rsi (stock_rows f t) = inr entry.
Proof.
  intros Hdf Hn.
  destruct (analyze_run momentum_rsi st df f Hdf) as [ext Hext].
  destruct (compute_total momentum_rsi rsi_length f) as [out Hout].
  assert (Ht : t ∈ unique (map product_id f))
    by (apply unique_elem, stock_rows_ticker; lia).
  unfold compute in Hout.
  destruct (results_of_entry _ _ _ t _ _ Hout Ht Hn) as [entry [Hi He]].
  exists out, (st ++ ext), entry.
  split; [rewrite Hext; unfold compute; rewrite Hout; reflexivity|].
  split; assumption.
Qed.

End Emitted.

(** In exact arithmetic, with the [ta] oscillator: the entry of an
    instrument whose ordered prices are the real numbers [ps]. *)
Lemma ideal_entry (st : @Store Ideal) (df : loc) (f : @DataFrame Ideal)
    (t : string) (ps : list R) :
  st !! df = Some f ->
  map avg_price (stock_rows f t) = map XFin ps ->
  (15 <= length ps)%nat ->
  exists out st' entry,
    analyze_technical_indicators ta_momentum_rsi df st = (inr out, st') /\
    out !! t = Some entry /\
    rsi entry = XFin (wilder_rsi ps) /\
    signal entry = fst (signal_logic (rsi entry)) /\
    signal_color entry = snd (signal_logic (rsi entry)) /\
    volatility entry
    = @fmul Ideal (@std Ideal (@pct_change Ideal (map XFin ps)))
        (@fsqrt Ideal (@of_Z Ideal 252)).
Proof.
  intros Hdf Hps Hn.
  assert (Hlen : length (stock_rows f t) = length ps).
  { apply (f_equal length) in Hps. rewrite !length_map in Hps. exact Hps. }
  destruct (emitted_for ta_momentum_rsi (@length_ta_momentum_rsi Ideal)
              st df f t Hdf) as [out [st' [entry [Hrun [Ht Hi]]]]];
    [lia|].
  exists out, st', entry. split; [exact Hrun|]. split; [exact Ht|].
  destruct (indicators_fields _ _ _ Hi) as [Hs [Hc [Hl Hv]]].
  rewrite Hps in Hl, Hv.
  rewrite last_rsi_fin in Hl by lia. injection Hl as Hl.
  repeat split; auto.
Qed.

Lemma rising_prices_read :
  map avg_price (stock_rows (@rising Ideal) "X") = map XFin rising_prices.
Proof. reflexivity. Qed.

Lemma flat_prices_read :
  map avg_price (stock_rows (@flat Ideal) "X") = map XFin flat_prices.
Proof. reflexivity. Qed.

Lemma rising_prices_positive : Forall (fun p => (0 < p)%R) rising_prices.
Proof. unfold rising_prices. repeat constructor; lra. Qed.

Ltac walk_series i Ha Hb :=
  repeat (destruct i as [|i];
          [cbn in Ha, Hb; injection Ha as <-; injection Hb as <-; lra|]);
  cbn in Hb; discriminate.

Lemma rising_prices_increasing : strictly_increasing rising_prices.
Proof. intros i a b Ha Hb. unfold rising_prices in *. walk_series i Ha Hb. Qed.








(** C6: in exact arithmetic, for an instrument with at least 15
    observations (whatever their prices, positive ones in particular), the
    emitted momentum is a number between 0 and 100. *)
Theorem momentum_within_bounds (st : @Store Ideal) (df : loc)
    (f : @DataFrame Ideal) (t : string) (ps : list R) :
  st !! df = Some f ->
  map avg_price (stock_rows f t) = map XFin ps ->
  (15 <= length ps)%nat ->
  exists out st' entry r,
    analyze_technical_indicators ta_momentum_rsi df st = (inr out, st') /\
    out !! t = Some entry /\
    rsi entry = XFin r /\ (0 <= r <= 100)%R.
Proof.
  intros Hdf Hps Hn.
  destruct (ideal_entry st df f t ps Hdf Hps Hn)
    as [out [st' [entry [Hrun [Ht [Hr _]]]]]].
  exists out, st', entry, (wilder_rsi ps).
  split; [exact Hrun|]. split; [exact Ht|]. split; [exact Hr|].
  unfold wilder_rsi. apply oscillator_bounds.
  - apply wilder_avg_nonneg, gain_nonneg.
  - apply wilder_avg_nonneg, loss_nonneg.
Qed.

Lemma momentum_within_bounds_witness :
  [@rising Ideal] !! 0%nat = Some rising /\
  map avg_price (stock_rows (@rising Ideal) "X") = map XFin rising_prices /\
  (15 <= length rising_prices)%nat /\
  exists out st' entry r,
    analyze_technical_indicators ta_momentum_rsi 0%nat [@rising Ideal]
    = (inr out, st') /\
    out !! "X" = Some entry /\
    rsi entry = XFin r /\ (0 <= r <= 100)%R.
Proof.
  split; [reflexivity|]. split; [exact rising_prices_read|].
  split; [simpl; lia|].
  apply (momentum_within_bounds [rising] 0%nat rising "X" rising_prices);
    [reflexivity | exact rising_prices_read | simpl; lia].
Defined.




(** The same two series with Python floats. *)
Example rising_floats :
  rsi (entry_of (out_of (float_run rising)) "X") = of_Z 100.
Proof. vm_compute. reflexivity. Qed.

Example falling_floats :
  rsi (entry_of (out_of (float_run falling)) "X") = of_Z 0.
Proof. vm_compute. reflexivity. Qed.

(** C8 as stated fails: fifteen rows at the price 100 give volatility 0,
    but momentum 100 (not 50) and the signal "SELL (Overbought)". *)
Lemma flat_saturates_high :
  float_run flat = inr flat_out /\
  flat_out !! "X" = Some flat_entry /\
  volatility flat_entry = of_Z 0 /\
  rsi flat_entry = of_Z 100 /\
  feq (rsi flat_entry) (of_Z 50) = false /\
  signal flat_entry = "SELL (Overbought)" /\
  signal flat_entry <> "HOLD / NEUTRAL".
Proof.
  repeat split; try (vm_compute; reflexivity).
  vm_compute. discriminate.
Qed.

(** C8, amended: in exact arithmetic, an instrument whose price series of
    length at least 15 is constant at a positive price gets a defined
    output: volatility exactly 0, momentum 100 (the average loss is zero),
    signal "SELL (Overbought)" with the colour "red". *)
Theorem constant_series_output (st : @Store Ideal) (df : loc)
    (f : @DataFrame Ideal) (t : string) (ps : list R) (c : R) :
  st !! df = Some f ->
  map avg_price (stock_rows f t) = map XFin ps ->
  (15 <= length ps)%nat ->
  (0 < c)%R ->
  Forall (fun p => p = c) ps ->
  exists out st',
    analyze_technical_indicators ta_momentum_rsi df st = (inr out, st') /\
    out !! t
    = Some (@mkEntry Ideal (XFin 100) (XFin 0) "SELL (Overbought)" "red").
Proof.
  intros Hdf Hps Hn Hc Hconst.
  destruct (ideal_entry st df f t ps Hdf Hps Hn)
    as [out [st' [entry [Hrun [Ht [Hr [Hs [Hcol Hv]]]]]]]].
  exists out, st'. split; [exact Hrun|]. rewrite Ht. f_equal.
  assert (Hpos : Forall (fun p => (0 < p)%R) ps).
  { clear -Hc Hconst.
    induction Hconst; constructor; [subst; exact Hc | assumption]. }
  rewrite volatility_fin in Hv by (lia || exact Hpos).
  rewrite (constant_volatility c ps) in Hv by (lra || exact Hconst).
  rewrite (constant_rsi c ps Hconst) in Hr.
  rewrite Hr in Hs, Hcol.
  assert (Hsig : @signal_logic Ideal (XFin 100)
                 = ("SELL (Overbought)", "red")).
  { unfold signal_logic. rewrite ideal_of_Z, ideal_flt.
    destruct (Rlt_dec 70 100); [reflexivity | lra]. }
  rewrite Hsig in Hs, Hcol. simpl in Hs, Hcol.
  destruct entry as [r v s col]. simpl in *. subst. reflexivity.
Qed.

Lemma constant_series_output_witness :
  [@flat Ideal] !! 0%nat = Some flat /\
  map avg_price (stock_rows (@flat Ideal) "X") = map XFin flat_prices /\
  (15 <= length flat_prices)%nat /\
  (0 < 100)%R /\
  Forall (fun p => p = 100%R) flat_prices /\
  exists out st',
    analyze_technical_indicators ta_momentum_rsi 0%nat [@flat Ideal]
    = (inr out, st') /\
    out !! "X"
    = Some (@mkEntry Ideal (XFin 100) (XFin 0) "SELL (Overbought)" "red").
Proof.
  assert (Hflat : Forall (fun p => p = 100%R) flat_prices)
    by (unfold flat_prices; simpl; repeat constructor).
  split; [reflexivity|]. split; [exact flat_prices_read|].
  split; [simpl; lia|]. split; [lra|]. split; [exact Hflat|].
  apply (constant_series_output [flat] 0%nat flat "X" flat_prices 100%R);
    [reflexivity | exact flat_prices_read | simpl; lia | lra | exact Hflat].
Defined.

(* ===================================================================== *)
(** ** Further properties of the engine *)
(* ===================================================================== *)

Section EngineFacts.
Context {N : NumOps}.
Variable momentum_rsi : list num -> nat -> list num.

Lemma results_of_all_skipped (f : DataFrame) (tickers : list string) :
  (forall t, (length (stock_rows f t) < 15)%nat) ->
  forall results, results_of momentum_rsi f tickers results = inr results.
Proof.
  intros Hshort. induction tickers as [|x rest IH]; intros results;
    [reflexivity|].
  simpl. rewrite (proj2 (Nat.ltb_lt _ _) (Hshort x)). apply IH.
Qed.

Lemma rows_of_perm (f g : DataFrame) t :
  f ≡ₚ g -> rows_of f t ≡ₚ rows_of g t.
Proof.
  intros Hp. unfold rows_of.
  induction Hp as [|x l l' Hp IH|x y l|l l' l'' H1 IH1 H2 IH2]; simpl.
  - reflexivity.
  - destruct (String.eqb (product_id x) t); [constructor|]; exact IH.
  - destruct (String.eqb (product_id x) t), (String.eqb (product_id y) t);
      try reflexivity. apply perm_swap.
  - etransitivity; eassumption.
Qed.

Lemma stock_rows_perm (f g : DataFrame) t :
  f ≡ₚ g -> unique_dates f -> stock_rows f t = stock_rows g t.
Proof.
  intros Hp Hu. unfold stock_rows.
  apply sorted_by_date_perm; [apply rows_of_perm; exact Hp | apply Hu].
Qed.

(** The entry of an instrument in the result of [compute], read off the
    instrument's ordered rows alone. *)
Lemma compute_lookup_exact (f : DataFrame) out t :
  compute momentum_rsi f = inr out ->
  out !! t
  = if (length (stock_rows f t) <? 15)%nat then None
    else match indicators momentum_rsi (stock_rows f t) with
         | inr entry => Some entry
         | inl _ => None
         end.
Proof.
  intros Hout. destruct (length (stock_rows f t) <? 15)%nat eqn:Hlen.
  - apply Nat.ltb_lt in Hlen. unfold compute in Hout.
    rewrite (results_of_skip _ _ _ t _ _ Hout (or_intror Hlen)).
    apply lookup_empty.
  - apply Nat.ltb_ge in Hlen.
    assert (Ht : t ∈ unique (map product_id f))
      by (apply unique_elem, stock_rows_ticker; lia).
    unfold compute in Hout.
    destruct (results_of_entry _ _ _ t _ _ Hout Ht Hlen) as [entry [Hi He]].
    rewrite Hi. exact He.
Qed.

End EngineFacts.

(** X1: when no instrument of the table has 15 rows (an empty table in
    particular), the operation returns the empty mapping and raises
    nothing, whatever the oscillator. *)
Theorem no_qualifying_instrument_empty {N : NumOps}
    (momentum_rsi : list num -> nat -> list num)
    (st : Store) (df : loc) (f : DataFrame) :
  st !! df = Some f ->
  (forall t, (length (stock_rows f t) < 15)%nat) ->
  fst (analyze_technical_indicators momentum_rsi df st) = inr ∅.
Proof.
  intros Hdf Hshort.
  destruct (analyze_run momentum_rsi st df f Hdf) as [ext Hext].
  rewrite Hext. simpl. unfold compute.
  apply results_of_all_skipped. exact Hshort.
Qed.

Lemma no_qualifying_instrument_empty_witness :
  [@nil (@Row Float64)] !! 0%nat = Some [] /\
  (forall t, (length (stock_rows (@nil (@Row Float64)) t) < 15)%nat) /\
  fst (analyze_technical_indicators ta_momentum_rsi 0%nat
         [@nil (@Row Float64)]) = inr ∅.
Proof.
  assert (Hshort : forall t,
             (length (stock_rows (@nil (@Row Float64)) t) < 15)%nat)
    by (intros t; simpl; lia).
  split; [reflexivity|]. split; [exact Hshort|].
  apply (no_qualifying_instrument_empty ta_momentum_rsi [[]] 0%nat []);
    [reflexivity | exact Hshort].
Defined.

(** X2: the entry of an instrument depends on that instrument's rows only:
    two tables holding the same rows for it (whatever else they hold) give
    it the same entry, or both give it none. *)
Theorem entry_depends_on_own_rows {N : NumOps}
    (momentum_rsi : list num -> nat -> list num)
    (st1 st2 : Store) (df1 df2 : loc) (f g : DataFrame) (t : string)
    (out1 out2 : gmap string Entry) :
  st1 !! df1 = Some f ->
  st2 !! df2 = Some g ->
  rows_of f t = rows_of g t ->
  fst (analyze_technical_indicators momentum_rsi df1 st1) = inr out1 ->
  fst (analyze_technical_indicators momentum_rsi df2 st2) = inr out2 ->
  out1 !! t = out2 !! t.
Proof.
  intros H1 H2 Hrows Hr1 Hr2.
  destruct (analyze_run momentum_rsi st1 df1 f H1) as [e1 He1].
  destruct (analyze_run momentum_rsi st2 df2 g H2) as [e2 He2].
  rewrite He1 in Hr1. rewrite He2 in Hr2. simpl in Hr1, Hr2.
  assert (Hs : stock_rows f t = stock_rows g t)
    by (unfold stock_rows; fold (rows_of f t); fold (rows_of g t);
        rewrite Hrows; reflexivity).
  destruct (out1 !! t) as [x1|] eqn:L1, (out2 !! t) as [x2|] eqn:L2.
  - destruct (compute_lookup _ _ _ _ _ Hr1 L1) as [_ I1].
    destruct (compute_lookup _ _ _ _ _ Hr2 L2) as [_ I2].
    rewrite Hs in I1. rewrite I1 in I2. injection I2 as ->. reflexivity.
  - exfalso.
    destruct (compute_lookup _ _ _ _ _ Hr1 L1) as [Hn I1].
    rewrite Hs in Hn.
    assert (Ht : t ∈ unique (map product_id g))
      by (apply unique_elem, stock_rows_ticker; lia).
    unfold compute in Hr2.
    destruct (results_of_entry _ _ _ t _ _ Hr2 Ht Hn) as [y [_ Hy]].
    rewrite Hy in L2. discriminate.
  - exfalso.
    destruct (compute_lookup _ _ _ _ _ Hr2 L2) as [Hn I2].
    rewrite <- Hs in Hn.
    assert (Ht : t ∈ unique (map product_id f))
      by (apply unique_elem, stock_rows_ticker; lia).
    unfold compute in Hr1.
    destruct (results_of_entry _ _ _ t _ _ Hr1 Ht Hn) as [y [_ Hy]].
    rewrite Hy in L1. discriminate.
  - reflexivity.
Qed.

Lemma entry_depends_on_own_rows_witness :
  [@two_stocks Float64] !! 0%nat = Some two_stocks /\
  [@rising Float64] !! 0%nat = Some rising /\
  rows_of (@two_stocks Float64) "X" = rows_of (@rising Float64) "X" /\
  fst (analyze_technical_indicators ta_momentum_rsi 0%nat
         [@two_stocks Float64]) = inr two_out /\
  fst (analyze_technical_indicators ta_momentum_rsi 0%nat
         [@rising Float64]) = inr (out_of (float_run rising)) /\
  two_out !! "X" = out_of (float_run rising) !! "X".
Proof.
  split; [reflexivity|]. split; [reflexivity|].
  split; [vm_compute; reflexivity|].
  split; [vm_compute; reflexivity|].
  split; [vm_compute; reflexivity|].
  apply (entry_depends_on_own_rows ta_momentum_rsi [two_stocks] [rising]
           0%nat 0%nat two_stocks rising "X");
    vm_compute; reflexivity.
Defined.

Lemma rows_of_single {N : NumOps} (t : string) (l : DataFrame) ticker :
  Forall (fun r => product_id r = t) l ->
  rows_of l ticker = if String.eqb t ticker then l else [].
Proof.
  intros Hall. unfold rows_of.
  induction Hall as [|r l Hr Hall IH]; simpl.
  - destruct (String.eqb t ticker); reflexivity.
  - rewrite Hr, IH. destruct (String.eqb t ticker); reflexivity.
Qed.

Lemma daily_single {N : NumOps} (t : string) (prices : list Z) :
  Forall (fun r => product_id r = t) (daily t prices).
Proof.
  unfold daily.
  assert (Hall : forall (g : nat -> Z -> Row) (l : list Z),
             (forall i p, product_id (g i p) = t) ->
             Forall (fun r => product_id r = t) (imap g l)).
  { intros g l. revert g.
    induction l as [|p ps IH]; intros g Hg; simpl; constructor;
      [apply Hg | apply IH; intros i q; apply Hg]. }
  apply Hall. reflexivity.
Qed.

Lemma rising_unique_dates : unique_dates (@rising Float64).
Proof.
  intros ticker. rewrite (rows_of_single "X") by apply daily_single.
  destruct (String.eqb "X" ticker); [|constructor].
  apply (bool_decide_unpack _). vm_compute. reflexivity.
Qed.

(** X3: the order of the rows in the table is irrelevant when no
    instrument has two rows of the same date: a table and any
    rearrangement of it give the same output mapping (the oscillator
    returning a series as long as its input). *)
Theorem row_order_irrelevant {N : NumOps}
    (momentum_rsi : list num -> nat -> list num)
    (st1 st2 : Store) (df1 df2 : loc) (f g : DataFrame) :
  (forall close window,
      length (momentum_rsi close window) = length close) ->
  st1 !! df1 = Some f ->
  st2 !! df2 = Some g ->
  f ≡ₚ g ->
  unique_dates f ->
  fst (analyze_technical_indicators momentum_rsi df1 st1)
  = fst (analyze_technical_indicators momentum_rsi df2 st2).
Proof.
  intros Hrsi H1 H2 Hp Hu.
  destruct (analyze_run momentum_rsi st1 df1 f H1) as [e1 He1].
  destruct (analyze_run momentum_rsi st2 df2 g H2) as [e2 He2].
  rewrite He1, He2. simpl.
  destruct (compute_total momentum_rsi Hrsi f) as [out1 Ho1].
  destruct (compute_total momentum_rsi Hrsi g) as [out2 Ho2].
  rewrite Ho1, Ho2. f_equal. apply map_eq. intros t.
  rewrite (compute_lookup_exact momentum_rsi f out1 t Ho1).
  rewrite (compute_lookup_exact momentum_rsi g out2 t Ho2).
  rewrite (stock_rows_perm f g t Hp Hu). reflexivity.
Qed.

Lemma row_order_irrelevant_witness :
  (forall close window,
      length (@ta_momentum_rsi Float64 close window) = length close) /\
  [@rising Float64] !! 0%nat = Some rising /\
  [@rising_reversed Float64] !! 0%nat = Some rising_reversed /\
  @rising Float64 ≡ₚ rising_reversed /\
  unique_dates (@rising Float64) /\
  fst (analyze_technical_indicators ta_momentum_rsi 0%nat [@rising Float64])
  = fst (analyze_technical_indicators ta_momentum_rsi 0%nat
           [@rising_reversed Float64]).
Proof.
  assert (Hp : @rising Float64 ≡ₚ rising_reversed)
    by (unfold rising_reversed; symmetry; apply reverse_Permutation).
  split; [exact (@length_ta_momentum_rsi Float64)|].
  split; [reflexivity|]. split; [reflexivity|].
  split; [exact Hp|]. split; [exact rising_unique_dates|].
  apply (row_order_irrelevant ta_momentum_rsi [rising] [rising_reversed]
           0%nat 0%nat rising rising_reversed);
    [exact (@length_ta_momentum_rsi Float64) | reflexivity | reflexivity
    | exact Hp | exact rising_unique_dates].
Defined.

(* ===================================================================== *)
(** ** Further properties in exact arithmetic *)
(* ===================================================================== *)

Section IdealMore.
Local Open Scope R_scope.

Lemma annualized_volatility_nonneg (ps : list R) :
  0 <= annualized_volatility ps.
Proof.
  unfold annualized_volatility, sample_std.
  apply Rmult_le_pos; apply sqrt_pos.
Qed.

(** The branches of the threshold chain as intervals of a real value. *)
Lemma signal_logic_intervals (r : R) :
  let s := fst (@signal_logic Ideal (XFin r)) in
  (s = "SELL (Overbought)" <-> 70 < r) /\
  (s = "BUY (Oversold)" <-> r < 30) /\
  (s = "Watch (Trending High)" <-> 60 < r <= 70) /\
  (s = "Watch (Trending Low)" <-> 30 <= r < 40) /\
  (s = "HOLD / NEUTRAL" <-> 40 <= r <= 60).
Proof.
  unfold signal_logic. rewrite !ideal_of_Z, !ideal_flt.
  destruct (Rlt_dec 70 r); [|destruct (Rlt_dec r 30);
    [|destruct (Rlt_dec 60 r); [|destruct (Rlt_dec r 40)]]];
    simpl;
    repeat match goal with
           | |- _ /\ _ => split
           | |- _ <-> _ => split
           end;
    intros Hx; try discriminate; try reflexivity; lra.
Qed.

End IdealMore.

(** X4: in exact arithmetic, the volatility emitted for an instrument with
    positive prices is a non-negative number (whatever the oscillator,
    provided it returns a series as long as its input). *)
Theorem volatility_nonnegative
    (momentum_rsi : list xreal -> nat -> list xreal)
    (st : @Store Ideal) (df : loc) (f : @DataFrame Ideal) (t : string)
    (ps : list R) :
  (forall close window,
      length (momentum_rsi close window) = length close) ->
  st !! df = Some f ->
  map avg_price (stock_rows f t) = map XFin ps ->
  (15 <= length ps)%nat ->
  Forall (fun p => (0 < p)%R) ps ->
  exists out st' entry v,
    @analyze_technical_indicators Ideal momentum_rsi df st = (inr out, st') /\
    out !! t = Some entry /\
    volatility entry = XFin v /\ (0 <= v)%R.
Proof.
  intros Hrsi Hdf Hps Hn Hpos.
  assert (Hlen : length (stock_rows f t) = length ps).
  { apply (f_equal length) in Hps. rewrite !length_map in Hps. exact Hps. }
  destruct (@emitted_for Ideal momentum_rsi Hrsi st df f t Hdf)
    as [out [st' [entry [Hrun [Ht Hi]]]]]; [lia|].
  exists out, st', entry, (annualized_volatility ps).
  split; [exact Hrun|]. split; [exact Ht|].
  destruct (indicators_fields _ _ _ Hi) as [_ [_ [_ Hv]]].
  split; [|apply annualized_volatility_nonneg].
  rewrite Hv, Hps. apply volatility_fin; [lia | exact Hpos].
Qed.

Lemma volatility_nonnegative_witness :
  (forall close window,
      length (@ta_momentum_rsi Ideal close window) = length close) /\
  [@rising Ideal] !! 0%nat = Some rising /\
  map avg_price (stock_rows (@rising Ideal) "X") = map XFin rising_prices /\
  (15 <= length rising_prices)%nat /\
  Forall (fun p => (0 < p)%R) rising_prices /\
  exists out st' entry v,
    analyze_technical_indicators ta_momentum_rsi 0%nat [@rising Ideal]
    = (inr out, st') /\
    out !! "X" = Some entry /\
    volatility entry = XFin v /\ (0 <= v)%R.
Proof.
  split; [exact (@length_ta_momentum_rsi Ideal)|].
  split; [reflexivity|]. split; [exact rising_prices_read|].
  split; [simpl; lia|]. split; [exact rising_prices_positive|].
  apply (volatility_nonnegative (@ta_momentum_rsi Ideal) [rising] 0%nat
           rising "X" rising_prices);
    [exact (@length_ta_momentum_rsi Ideal) | reflexivity
    | exact rising_prices_read | simpl; lia | exact rising_prices_positive].
Defined.

(** X5: the thresholds are strict.  In exact arithmetic, for an emitted
    entry whose momentum is the real number r, whatever the oscillator:
    the signal is "SELL (Overbought)" exactly when r > 70,
    "BUY (Oversold)" exactly when r < 30, "Watch (Trending High)" exactly
    when 60 < r <= 70, "Watch (Trending Low)" exactly when 30 <= r < 40,
    and "HOLD / NEUTRAL" exactly when 40 <= r <= 60. *)
Theorem signal_intervals
    (momentum_rsi : list xreal -> nat -> list xreal)
    (st : @Store Ideal) (df : loc) (out : gmap string (@Entry Ideal))
    (t : string) (entry : @Entry Ideal) (r : R) :
  fst (@analyze_technical_indicators Ideal momentum_rsi df st) = inr out ->
  out !! t = Some entry ->
  rsi entry = XFin r ->
  (signal entry = "SELL (Overbought)" <-> (70 < r)%R) /\
  (signal entry = "BUY (Oversold)" <-> (r < 30)%R) /\
  (signal entry = "Watch (Trending High)" <-> (60 < r <= 70)%R) /\
  (signal entry = "Watch (Trending Low)" <-> (30 <= r < 40)%R) /\
  (signal entry = "HOLD / NEUTRAL" <-> (40 <= r <= 60)%R).
Proof.
  intros Hrun Ht Hr.
  destruct (emitted_entry _ _ _ _ _ _ Hrun Ht) as [f [_ [_ Hind]]].
  destruct (indicators_fields _ _ _ Hind) as [Hs _].
  rewrite Hs, Hr. apply signal_logic_intervals.
Qed.

Lemma signal_intervals_witness :
  exists out entry,
    fst (analyze_technical_indicators ta_momentum_rsi 0%nat [@rising Ideal])
    = inr out /\
    out !! "X" = Some entry /\
    rsi entry = XFin 100 /\
    (signal entry = "SELL (Overbought)" <-> (70 < 100)%R) /\
    (signal entry = "BUY (Oversold)" <-> (100 < 30)%R) /\
    (signal entry = "Watch (Trending High)" <-> (60 < 100 <= 70)%R) /\
    (signal entry = "Watch (Trending Low)" <-> (30 <= 100 < 40)%R) /\
    (signal entry = "HOLD / NEUTRAL" <-> (40 <= 100 <= 60)%R).
Proof.
  destruct (ideal_entry [rising] 0%nat rising "X" rising_prices eq_refl
              rising_prices_read (le_n 15))
    as [out [st' [entry [Hrun [Ht [Hr _]]]]]].
  rewrite (rising_rsi _ rising_prices_increasing) in Hr.
  assert (Hfst : fst (analyze_technical_indicators ta_momentum_rsi 0%nat
                        [@rising Ideal]) = inr out)
    by (rewrite Hrun; reflexivity).
  exists out, entry. split; [exact Hfst|]. split; [exact Ht|].
  split; [exact Hr|].
  exact (signal_intervals (@ta_momentum_rsi Ideal) [rising] 0%nat out "X"
           entry 100%R Hfst Ht Hr).
Defined.

(* ===================================================================== *)
(** ** The dashboard script and its values *)
(* ===================================================================== *)

Section AppRun.
Context {N : NumOps}.
Variable momentum_rsi : list num -> nat -> list num.

Lemma app_run_bind {A B} (m : App A) (k : A -> App B) st a st' :
  m st = (inr a, st') -> app_bind m k st = k a st'.
Proof. intros H. unfold app_bind. rewrite H. reflexivity. Qed.

Lemma app_run_raise {A B} (m : App A) (k : A -> App B) st e st' :
  m st = (inl e, st') -> app_bind m k st = (inl e, st').
Proof. intros H. unfold app_bind. rewrite H. reflexivity. Qed.

Lemma lift_run {A} (m : M A) st a st' :
  m st = (inr a, st') -> lift m st = (inr a, st').
Proof. intros H. unfold lift. rewrite H. reflexivity. Qed.

Lemma lift_raise {A} (m : M A) st e st' :
  m st = (inl e, st') -> lift m st = (inl (Raised e), st').
Proof. intros H. unfold lift. rewrite H. reflexivity. Qed.

Lemma col_product_name_run (st : Store) df f :
  st !! df = Some f ->
  col_product_name df st = (inr (map product_name f), st).
Proof.
  intros H. unfold col_product_name.
  rewrite (run_bind _ _ _ _ _ (read_bound _ _ _ H)). reflexivity.
Qed.

Lemma col_date_run (st : Store) df f :
  st !! df = Some f -> col_date df st = (inr (map date f), st).
Proof.
  intros H. unfold col_date.
  rewrite (run_bind _ _ _ _ _ (read_bound _ _ _ H)). reflexivity.
Qed.

Lemma col_qty_sold_run (st : Store) df f :
  st !! df = Some f -> col_qty_sold df st = (inr (map qty_sold f), st).
Proof.
  intros H. unfold col_qty_sold.
  rewrite (run_bind _ _ _ _ _ (read_bound _ _ _ H)). reflexivity.
Qed.

(** Assigning a column to a frame anywhere in the store. *)
Lemma setcol_at (st : Store) l f name (values : list num) :
  st !! l = Some f ->
  setcol l name values st
  = if (length values =? length f)%nat
    then (inr tt, <[l := with_column name values f]> st)
    else (inl ValueError, st).
Proof.
  intros H. unfold setcol.
  rewrite (run_bind _ _ _ _ _ (read_bound _ _ _ H)).
  destruct (length values =? length f)%nat; reflexivity.
Qed.

Lemma date_with_column name (values : list num) (f : DataFrame) :
  length values = length f ->
  map date (with_column name values f) = map date f.
Proof.
  unfold with_column. revert values.
  induction f as [|r f IH]; intros [|v values] H; simpl in *;
    try discriminate; auto.
  f_equal. apply IH. lia.
Qed.

Lemma qty_sold_with_column name (values : list num) (f : DataFrame) :
  length values = length f ->
  map qty_sold (with_column name values f) = map qty_sold f.
Proof.
  unfold with_column. revert values.
  induction f as [|r f IH]; intros [|v values] H; simpl in *;
    try discriminate; auto.
  f_equal. apply IH. lia.
Qed.

(** The script returns what [dashboard_of] says of the table, and only
    adds objects to the store. *)
Lemma dashboard_run (st : Store) df f choice :
  st !! df = Some f ->
  exists ext,
    dashboard momentum_rsi df choice st
    = (dashboard_of momentum_rsi f choice, st ++ ext).
Proof.
  intros Hdf. unfold dashboard, dashboard_of.
  rewrite (app_run_bind _ _ _ _ _
             (lift_run _ _ _ _ (col_product_name_run _ _ _ Hdf))).
  rewrite (app_run_bind _ _ _ _ _
             (lift_run _ _ _ _ (col_product_id_run _ _ _ Hdf))).
  fold (name_map_of f). fold (options_of f).
  fold (selected_ticker_of f choice).
  destruct (selected_ticker_of f choice) as [ticker|].
  2:{ exists []. rewrite app_nil_r. reflexivity. }
  unfold app_option at 1. unfold app_bind at 1.
  rewrite (app_run_bind _ _ _ _ _
             (lift_run _ _ _ _ (select_product_run _ _ _ ticker Hdf))).
  set (sel := List.filter _ f).
  rewrite (app_run_bind _ _ _ _ _
             (lift_run _ _ _ _
                (sort_values_date_run _ _ _ (lookup_fresh st sel)))).
  change (sorted_by_date sel) with (stock_rows f ticker).
  set (stock := stock_rows f ticker).
  set (st1 := st ++ [sel]).
  assert (Hdf2 : ((st1 ++ [stock]) !! df) = Some f).
  { apply lookup_app_l_Some. unfold st1.
    apply lookup_app_l_Some. exact Hdf. }
  destruct (analyze_run momentum_rsi _ df f Hdf2) as [ext3 Hrun].
  destruct (compute momentum_rsi f) as [e|indicators].
  { rewrite (app_run_raise _ _ _ _ _ (lift_raise _ _ _ _ Hrun)).
    exists ([sel; stock] ++ ext3). unfold st1.
    rewrite <- !app_assoc. reflexivity. }
  rewrite (app_run_bind _ _ _ _ _ (lift_run _ _ _ _ Hrun)).
  set (st3 := (st1 ++ [stock]) ++ ext3).
  assert (Hst3 : forall g, (st1 ++ [g]) ++ ext3 = st ++ ([sel; g] ++ ext3)).
  { intros g. unfold st1. rewrite <- !app_assoc. reflexivity. }
  assert (Hstock : st3 !! length st1 = Some stock)
    by (apply lookup_app_l_Some, lookup_fresh).
  rewrite (app_run_bind _ _ _ _ _
             (lift_run _ _ _ _ (col_avg_price_run _ _ _ Hstock))).
  destruct (iloc_neg 1 (map avg_price stock)) as [latest|].
  2:{ exists ([sel; stock] ++ ext3). unfold st3. rewrite Hst3.
      reflexivity. }
  unfold app_option at 1. unfold app_bind at 1.
  rewrite (app_run_bind _ _ _ _ _
             (lift_run _ _ _ _ (col_avg_price_run _ _ _ Hstock))).
  destruct (iloc_neg 2 (map avg_price stock)) as [prev|].
  2:{ exists ([sel; stock] ++ ext3). unfold st3. rewrite Hst3.
      reflexivity. }
  unfold app_option at 1. unfold app_bind at 1.
  destruct (indicators !! ticker) as [entry|].
  2:{ exists ([sel; stock] ++ ext3). unfold st3. rewrite Hst3.
      reflexivity. }
  unfold app_option at 1. unfold app_bind at 1.
  rewrite (app_run_bind _ _ _ _ _
             (lift_run _ _ _ _ (col_date_run _ _ _ Hstock))).
  rewrite (app_run_bind _ _ _ _ _
             (lift_run _ _ _ _ (col_avg_price_run _ _ _ Hstock))).
  rewrite (app_run_bind _ _ _ _ _
             (lift_run _ _ _ _ (col_avg_price_run _ _ _ Hstock))).
  pose proof (setcol_at st3 (length st1) stock "rsi_plot"
                (momentum_rsi (map avg_price stock) 14) Hstock) as Hset.
  destruct (length (momentum_rsi (map avg_price stock) 14) =? length stock)%nat
    eqn:Hlen.
  2:{ rewrite (app_run_raise _ _ _ _ _ (lift_raise _ _ _ _ Hset)).
      exists ([sel; stock] ++ ext3). unfold st3. rewrite Hst3.
      reflexivity. }
  apply Nat.eqb_eq in Hlen.
  set (stock' := with_column "rsi_plot"
                   (momentum_rsi (map avg_price stock) 14) stock) in *.
  assert (Hins : <[length st1 := stock']> st3 = (st1 ++ [stock']) ++ ext3).
  { unfold st3. rewrite insert_app_l
      by (rewrite length_app; simpl; lia).
    f_equal. apply insert_fresh. }
  assert (Hset' : setcol (length st1) "rsi_plot"
                    (momentum_rsi (map avg_price stock) 14) st3
                  = (inr tt, (st1 ++ [stock']) ++ ext3))
    by (rewrite Hset; f_equal; exact Hins).
  rewrite (app_run_bind _ _ _ _ _ (lift_run _ _ _ _ Hset')).
  assert (Hstock' : ((st1 ++ [stock']) ++ ext3) !! length st1 = Some stock')
    by (apply lookup_app_l_Some, lookup_fresh).
  rewrite (app_run_bind _ _ _ _ _
             (lift_run _ _ _ _ (col_date_run _ _ _ Hstock'))).
  rewrite (app_run_bind _ _ _ _ _
             (lift_run _ _ _ _
                (getcol_run _ _ _ _ _ Hstock'
                   (col_values_with_column _ _ _ Hlen)))).
  rewrite (app_run_bind _ _ _ _ _
             (lift_run _ _ _ _ (col_date_run _ _ _ Hstock'))).
  rewrite (app_run_bind _ _ _ _ _
             (lift_run _ _ _ _ (col_avg_price_run _ _ _ Hstock'))).
  rewrite (app_run_bind _ _ _ _ _
             (lift_run _ _ _ _ (col_qty_sold_run _ _ _ Hstock'))).
  unfold stock'.
  rewrite (date_with_column _ _ _ Hlen), (avg_price_with_column _ _ _ Hlen),
    (qty_sold_with_column _ _ _ Hlen).
  exists ([sel; with_column "rsi_plot"
                  (momentum_rsi (map avg_price stock) 14) stock] ++ ext3).
  rewrite Hst3. reflexivity.
Qed.

(** *** Negative positions *)

Lemma iloc_neg_1_last (s : list num) : iloc_neg 1 s = last s.
Proof.
  unfold iloc_neg. rewrite last_lookup.
  destruct s as [|x s]; [reflexivity|].
  simpl length. replace (S (length s) <? 1)%nat with false
    by (symmetry; apply Nat.ltb_ge; lia).
  f_equal. lia.
Qed.

Lemma iloc_neg_None k (s : list num) :
  (0 < k)%nat -> (iloc_neg k s = None <-> (length s < k)%nat).
Proof.
  clear momentum_rsi. intros Hk. unfold iloc_neg.
  destruct (length s <? k)%nat eqn:E.
  - apply Nat.ltb_lt in E. split; [intros _; exact E | reflexivity].
  - apply Nat.ltb_ge in E. split; [|lia].
    intros H. apply lookup_ge_None in H. lia.
Qed.

(** *** The name map and the dropdown *)

Lemma dict_zip_step (kvs : list (string * string)) :
  forall (m : gmap string string) k,
    fold_left (fun m kv => <[kv.1 := kv.2]> m) kvs m !! k
    = match last (List.filter (fun kv => String.eqb kv.1 k) kvs) with
      | Some kv => Some kv.2
      | None => m !! k
      end.
Proof.
  induction kvs as [|[k' v'] kvs IH]; intros m k; [reflexivity|].
  simpl fold_left. rewrite IH. simpl List.filter.
  destruct (String.eqb k' k) eqn:E.
  - apply String.eqb_eq in E. subst k'.
    destruct (List.filter (fun kv => String.eqb kv.1 k) kvs) as [|y l];
      simpl.
    + apply lookup_insert_eq.
    + destruct (last (y :: l)) eqn:El; [reflexivity|].
      apply last_None in El. discriminate.
  - apply String.eqb_neq in E.
    destruct (last (List.filter (fun kv => String.eqb kv.1 k) kvs));
      [reflexivity|].
    apply lookup_insert_ne. exact E.
Qed.

Lemma filter_zip_names (f : DataFrame) name :
  List.filter (fun kv : string * string => String.eqb kv.1 name)
    (zip (map product_name f) (map product_id f))
  = map (fun r => (product_name r, product_id r))
      (List.filter (fun r => String.eqb (product_name r) name) f).
Proof.
  induction f as [|r f IH]; [reflexivity|].
  simpl. destruct (String.eqb (product_name r) name); simpl; rewrite IH;
    reflexivity.
Qed.

Lemma last_map {A B} (g : A -> B) (l : list A) :
  last (map g l) = g <$> last l.
Proof.
  induction l as [|x [|y l] IH]; [reflexivity | reflexivity|].
  change (last (map g (x :: y :: l))) with (last (map g (y :: l))).
  rewrite IH. reflexivity.
Qed.

(** Looking a name up in the name map gives the ticker of the last row of
    the table that carries the name. *)
Lemma name_map_lookup (f : DataFrame) name :
  name_map_of f !! name
  = product_id
      <$> last (List.filter (fun r => String.eqb (product_name r) name) f).
Proof.
  unfold name_map_of, dict_zip. rewrite dict_zip_step, filter_zip_names.
  rewrite last_map, lookup_empty.
  destruct (last _); reflexivity.
Qed.

Lemma insert_string_elem x y (l : list string) :
  y ∈ insert_string x l <-> y = x \/ y ∈ l.
Proof.
  induction l as [|z l IH]; simpl.
  - rewrite elem_of_cons. set_solver.
  - destruct (String.leb x z).
    + rewrite !elem_of_cons. tauto.
    + rewrite !elem_of_cons, IH. tauto.
Qed.

Lemma sorted_strings_elem y (l : list string) :
  y ∈ sorted_strings l <-> y ∈ l.
Proof.
  induction l as [|x l IH]; simpl; [tauto|].
  rewrite insert_string_elem, elem_of_cons, IH. tauto.
Qed.

Lemma options_listed (f : DataFrame) name :
  name ∈ options_of f <-> is_Some (name_map_of f !! name).
Proof.
  unfold options_of. rewrite sorted_strings_elem.
  rewrite list_elem_of_In, in_map_iff. split.
  - intros [[k v] [Hk Hin]]. simpl in Hk. subst k.
    apply list_elem_of_In, elem_of_map_to_list in Hin. eauto.
  - intros [v Hv]. exists (name, v). split; [reflexivity|].
    apply list_elem_of_In, elem_of_map_to_list. exact Hv.
Qed.

(** A ticker the dropdown selects has at least one row. *)
Lemma selected_ticker_rows (f : DataFrame) choice ticker :
  selected_ticker_of f choice = Some ticker ->
  (1 <= length (stock_rows f ticker))%nat.
Proof.
  unfold selected_ticker_of. intros H.
  destruct (options_of f !! choice) as [name|]; [|discriminate].
  simpl in H. rewrite name_map_lookup in H.
  destruct (last _) as [r|] eqn:El; [|discriminate].
  injection H as <-.
  apply last_Some in El. destruct El as [l' El].
  assert (Hin : In r (List.filter
                        (fun r => String.eqb (product_name r) name) f))
    by (rewrite El; apply in_or_app; right; left; reflexivity).
  apply filter_In in Hin. destruct Hin as [Hin _].
  unfold stock_rows. rewrite length_sorted_by_date.
  assert (Hr : In r (List.filter
                       (fun x => String.eqb (product_id x) (product_id r)) f))
    by (apply filter_In; split; [exact Hin | apply String.eqb_refl]).
  destruct (List.filter
              (fun x => String.eqb (product_id x) (product_id r)) f);
    [contradiction | simpl; lia].
Qed.

End AppRun.

Section AppFacts.
Context {N : NumOps}.
Variable momentum_rsi : list num -> nat -> list num.

Lemma last_zip {A B} (a : list A) (b : list B) x y :
  length a = length b ->
  last a = Some x -> last b = Some y ->
  last (zip a b) = Some (x, y).
Proof.
  intros Hlen Ha Hb.
  rewrite last_lookup in Ha. rewrite last_lookup in Hb.
  rewrite <- Hlen in Hb.
  rewrite last_lookup.
  rewrite length_zip_with, <- Hlen, Nat.min_id.
  rewrite lookup_zip_with, Ha. simpl. rewrite Hb. reflexivity.
Qed.

Lemma signal_box_of_logic (current_rsi : num) :
  let s := fst (signal_logic current_rsi) in
  let c := snd (signal_logic current_rsi) in
  snd (signal_box_of s) = s /\
  (fst (signal_box_of s) = success <-> c = "green") /\
  (fst (signal_box_of s) = error <-> c = "red") /\
  (fst (signal_box_of s) = info
   <-> c = "orange" \/ c = "blue" \/ c = "gray").
Proof.
  unfold signal_logic.
  destruct (flt (of_Z 70) current_rsi);
    [|destruct (flt current_rsi (of_Z 30));
      [|destruct (flt (of_Z 60) current_rsi);
        [|destruct (flt current_rsi (of_Z 40))]]];
    cbn; repeat split; intros Hx; try discriminate; try reflexivity;
    try (destruct Hx as [Hx|[Hx|Hx]]; discriminate); auto.
Qed.

(** What a returned dashboard was built from. *)
Lemma dashboard_of_inr (f : DataFrame) choice view :
  dashboard_of momentum_rsi f choice = inr view ->
  exists ticker out entry latest prev,
    selected_ticker_of f choice = Some ticker /\
    compute momentum_rsi f = inr out /\
    out !! ticker = Some entry /\
    iloc_neg 1 (map avg_price (stock_rows f ticker)) = Some latest /\
    iloc_neg 2 (map avg_price (stock_rows f ticker)) = Some prev /\
    length (momentum_rsi (map avg_price (stock_rows f ticker)) 14)
    = length (stock_rows f ticker) /\
    view
    = {| latest_price := latest;
         daily_pct := fmul (fdiv (fsub latest prev) prev) (of_Z 100);
         rsi_kpi := rsi entry;
         volatility_kpi := fmul (volatility entry) (of_Z 100);
         signal_box := signal_box_of (signal entry);
         price_chart :=
           zip (map date (stock_rows f ticker))
             (map avg_price (stock_rows f ticker));
         rsi_chart :=
           zip (map date (stock_rows f ticker))
             (momentum_rsi (map avg_price (stock_rows f ticker)) 14);
         raw_data :=
           take 100
             (newest_first
                (zip (zip (map date (stock_rows f ticker))
                        (map avg_price (stock_rows f ticker)))
                   (map qty_sold (stock_rows f ticker)))) |}.
Proof.
  unfold dashboard_of. intros H.
  destruct (selected_ticker_of f choice) as [ticker|]; [|discriminate].
  destruct (compute momentum_rsi f) as [e|out]; [discriminate|].
  destruct (iloc_neg 1 _) as [latest|] eqn:E1; [|discriminate].
  destruct (iloc_neg 2 _) as [prev|] eqn:E2; [|discriminate].
  destruct (out !! ticker) as [entry|] eqn:He; [|discriminate].
  destruct (_ =? _)%nat eqn:Hlen; [|discriminate].
  apply Nat.eqb_eq in Hlen. injection H as <-.
  exists ticker, out, entry, latest, prev. repeat split; auto.
Qed.

End AppFacts.

(** X7: selecting an instrument with too little history makes the script
    raise (the oscillator returning a series as long as its input): with a
    single row, [IndexError] at the previous price ([iloc[-2]]); with 2 to
    14 rows, [TypeError] at the first KPI read from the absent indicator
    entry. *)
Theorem dashboard_thin_history_raises {N : NumOps}
    (momentum_rsi : list num -> nat -> list num)
    (st : Store) (df : loc) (f : DataFrame) (choice : nat)
    (ticker : string) :
  (forall close window,
      length (momentum_rsi close window) = length close) ->
  st !! df = Some f ->
  selected_ticker_of f choice = Some ticker ->
  (length (stock_rows f ticker) < 15)%nat ->
  fst (dashboard momentum_rsi df choice st)
  = inl (if (length (stock_rows f ticker) =? 1)%nat
         then Raised IndexError else TypeError).
Proof.
  intros Hrsi Hdf Hsel Hlen.
  destruct (dashboard_run momentum_rsi st df f choice Hdf) as [ext Hrun].
  rewrite Hrun. simpl. unfold dashboard_of. rewrite Hsel.
  destruct (compute_total momentum_rsi Hrsi f) as [out Hout].
  rewrite Hout.
  pose proof (selected_ticker_rows f choice ticker Hsel) as Hone.
  destruct (iloc_neg 1 (map avg_price (stock_rows f ticker)))
    as [latest|] eqn:E1.
  2:{ apply (proj1 (iloc_neg_None 1 _ Nat.lt_0_1)) in E1.
      rewrite length_map in E1. lia. }
  destruct (length (stock_rows f ticker) =? 1)%nat eqn:Eone.
  - apply Nat.eqb_eq in Eone.
    assert (E2 : iloc_neg 2 (map avg_price (stock_rows f ticker)) = None)
      by (apply (proj2 (iloc_neg_None 2 _ Nat.lt_0_2));
          rewrite length_map; lia).
    rewrite E2. reflexivity.
  - apply Nat.eqb_neq in Eone.
    destruct (iloc_neg 2 (map avg_price (stock_rows f ticker)))
      as [prev|] eqn:E2.
    2:{ apply (proj1 (iloc_neg_None 2 _ Nat.lt_0_2)) in E2.
      rewrite length_map in E2. lia. }
    rewrite (compute_lookup_exact momentum_rsi f out ticker Hout).
    rewrite (proj2 (Nat.ltb_lt _ _) Hlen). reflexivity.
Qed.

Lemma dashboard_thin_history_raises_witness :
  (forall close window,
      length (@ta_momentum_rsi Float64 close window) = length close) /\
  [@two_stocks Float64] !! 0%nat = Some two_stocks /\
  selected_ticker_of (@two_stocks Float64) 1 = Some "Y" /\
  (length (stock_rows (@two_stocks Float64) "Y") < 15)%nat /\
  fst (dashboard ta_momentum_rsi 0%nat 1%nat [@two_stocks Float64])
  = inl (if (length (stock_rows (@two_stocks Float64) "Y") =? 1)%nat
         then Raised IndexError else TypeError).
Proof.
  split; [exact (@length_ta_momentum_rsi Float64)|].
  split; [reflexivity|].
  split; [vm_compute; reflexivity|].
  split; [vm_compute; lia|].
  apply (dashboard_thin_history_raises ta_momentum_rsi [two_stocks] 0%nat
           two_stocks 1%nat "Y");
    [exact (@length_ta_momentum_rsi Float64) | reflexivity
    | vm_compute; reflexivity | vm_compute; lia].
Defined.

Lemma rsi_length_eqb {A} (a b : nat) (x y : A) :
  a = b -> (if (a =? b)%nat then x else y) = x.
Proof. intros ->. rewrite Nat.eqb_refl. reflexivity. Qed.

(** X8: for a selected instrument with at least 15 rows the script returns
    its values, and they agree with the engine and with one another: the
    RSI widget shows the engine's momentum for the instrument, which is
    the last point of the RSI chart; the price widget shows the last point
    of the price chart; the signal box carries the engine's signal. *)
Theorem dashboard_kpis_match_charts {N : NumOps}
    (momentum_rsi : list num -> nat -> list num)
    (st : Store) (df : loc) (f : DataFrame) (choice : nat)
    (ticker : string) :
  (forall close window,
      length (momentum_rsi close window) = length close) ->
  st !! df = Some f ->
  selected_ticker_of f choice = Some ticker ->
  (15 <= length (stock_rows f ticker))%nat ->
  exists view out entry,
    fst (dashboard momentum_rsi df choice st) = inr view /\
    fst (analyze_technical_indicators momentum_rsi df st) = inr out /\
    out !! ticker = Some entry /\
    rsi_kpi view = rsi entry /\
    snd <$> last (rsi_chart view) = Some (rsi_kpi view) /\
    snd <$> last (price_chart view) = Some (latest_price view) /\
    snd (signal_box view) = signal entry.
Proof.
  intros Hrsi Hdf Hsel Hlen.
  destruct (dashboard_run momentum_rsi st df f choice Hdf) as [ext Hrun].
  destruct (analyze_run momentum_rsi st df f Hdf) as [ext' Hrun'].
  rewrite Hrun, Hrun'. simpl. unfold dashboard_of. rewrite Hsel.
  destruct (compute_total momentum_rsi Hrsi f) as [out Hout].
  rewrite Hout.
  set (stock := stock_rows f ticker) in *.
  destruct (iloc_neg 1 (map avg_price stock)) as [latest|] eqn:E1.
  2:{ apply (proj1 (iloc_neg_None 1 _ Nat.lt_0_1)) in E1.
      rewrite length_map in E1. lia. }
  destruct (iloc_neg 2 (map avg_price stock)) as [prev|] eqn:E2.
  2:{ apply (proj1 (iloc_neg_None 2 _ Nat.lt_0_2)) in E2.
      rewrite length_map in E2. lia. }
  pose proof (compute_lookup_exact momentum_rsi f out ticker Hout) as Hl.
  fold stock in Hl. rewrite (proj2 (Nat.ltb_ge _ _) Hlen) in Hl.
  destruct (indicators_total momentum_rsi Hrsi stock Hlen) as [entry Hi].
  rewrite Hi in Hl. rewrite Hl.
  rewrite rsi_length_eqb.
  2:{ rewrite Hrsi, length_map. reflexivity. }
  destruct (indicators_fields _ _ _ Hi) as [Hs [_ [Hlast _]]].
  eexists. exists out, entry. split; [reflexivity|]. split; [reflexivity|].
  split; [exact Hl|]. simpl. split; [reflexivity|].
  assert (Hdates : exists d, last (map date stock) = Some d).
  { destruct (last (map date stock)) as [d|] eqn:Ed; [eauto|].
    apply last_None in Ed. apply (f_equal length) in Ed.
    rewrite length_map in Ed. simpl in Ed. lia. }
  destruct Hdates as [d Hd].
  split; [|split].
  - rewrite (last_zip _ _ d (rsi entry)); [reflexivity | | exact Hd |].
    + rewrite Hrsi, !length_map. reflexivity.
    + exact Hlast.
  - rewrite (last_zip _ _ d latest); [reflexivity | | exact Hd |].
    + rewrite !length_map. reflexivity.
    + rewrite <- iloc_neg_1_last. exact E1.
  - destruct (signal_box_of_logic (rsi entry)) as [Hb _].
    rewrite Hs. exact Hb.
Qed.

Lemma dashboard_kpis_match_charts_witness :
  (forall close window,
      length (@ta_momentum_rsi Float64 close window) = length close) /\
  [@two_stocks Float64] !! 0%nat = Some two_stocks /\
  selected_ticker_of (@two_stocks Float64) 0 = Some "X" /\
  (15 <= length (stock_rows (@two_stocks Float64) "X"))%nat /\
  exists view out entry,
    fst (dashboard ta_momentum_rsi 0%nat 0%nat [@two_stocks Float64])
    = inr view /\
    fst (analyze_technical_indicators ta_momentum_rsi 0%nat
           [@two_stocks Float64]) = inr out /\
    out !! "X" = Some entry /\
    rsi_kpi view = rsi entry /\
    snd <$> last (rsi_chart view) = Some (rsi_kpi view) /\
    snd <$> last (price_chart view) = Some (latest_price view) /\
    snd (signal_box view) = signal entry.
Proof.
  split; [exact (@length_ta_momentum_rsi Float64)|].
  split; [reflexivity|].
  split; [vm_compute; reflexivity|].
  split; [vm_compute; lia|].
  apply (dashboard_kpis_match_charts ta_momentum_rsi [two_stocks] 0%nat
           two_stocks 0%nat "X");
    [exact (@length_ta_momentum_rsi Float64) | reflexivity
    | vm_compute; reflexivity | vm_compute; lia].
Defined.

(** X9: the kind of the signal box agrees with the colour the engine
    attached to the signal, although the script derives it from the text
    of the signal: a success box exactly for the "green" signal, an error
    box exactly for the "red" one, an info box for the three others; and
    the box shows the engine's signal. *)
Theorem signal_box_matches_colour {N : NumOps}
    (momentum_rsi : list num -> nat -> list num)
    (st : Store) (df : loc) (f : DataFrame) (choice : nat)
    (view : Dashboard) :
  st !! df = Some f ->
  fst (dashboard momentum_rsi df choice st) = inr view ->
  exists ticker out entry,
    selected_ticker_of f choice = Some ticker /\
    fst (analyze_technical_indicators momentum_rsi df st) = inr out /\
    out !! ticker = Some entry /\
    snd (signal_box view) = signal entry /\
    (fst (signal_box view) = success <-> signal_color entry = "green") /\
    (fst (signal_box view) = error <-> signal_color entry = "red") /\
    (fst (signal_box view) = info
     <-> signal_color entry = "orange" \/ signal_color entry = "blue"
         \/ signal_color entry = "gray").
Proof.
  intros Hdf Hview.
  destruct (dashboard_run momentum_rsi st df f choice Hdf) as [ext Hrun].
  destruct (analyze_run momentum_rsi st df f Hdf) as [ext' Hrun'].
  rewrite Hrun in Hview. simpl in Hview.
  destruct (dashboard_of_inr momentum_rsi f choice view Hview)
    as [ticker [out [entry [latest [prev
         [Hsel [Hout [He [_ [_ [_ Hv]]]]]]]]]]].
  exists ticker, out, entry. split; [exact Hsel|].
  split; [rewrite Hrun'; exact Hout|]. split; [exact He|].
  destruct (compute_lookup momentum_rsi f out ticker entry Hout He)
    as [_ Hi].
  destruct (indicators_fields _ _ _ Hi) as [Hs [Hc _]].
  rewrite Hv. simpl. rewrite Hs, Hc. apply signal_box_of_logic.
Qed.

Lemma signal_box_matches_colour_witness :
  [@two_stocks Float64] !! 0%nat = Some two_stocks /\
  fst (dashboard ta_momentum_rsi 0%nat 0%nat [@two_stocks Float64])
  = inr two_view /\
  exists ticker out entry,
    selected_ticker_of (@two_stocks Float64) 0 = Some ticker /\
    fst (analyze_technical_indicators ta_momentum_rsi 0%nat
           [@two_stocks Float64]) = inr out /\
    out !! ticker = Some entry /\
    snd (signal_box two_view) = signal entry /\
    (fst (signal_box two_view) = success <-> signal_color entry = "green") /\
    (fst (signal_box two_view) = error <-> signal_color entry = "red") /\
    (fst (signal_box two_view) = info
     <-> signal_color entry = "orange" \/ signal_color entry = "blue"
         \/ signal_color entry = "gray").
Proof.
  split; [reflexivity|]. split; [vm_compute; reflexivity|].
  apply (signal_box_matches_colour ta_momentum_rsi [two_stocks] 0%nat
           two_stocks 0%nat two_view);
    [reflexivity | vm_compute; reflexivity].
Defined.

(** X10: the script leaves every object of the store it started from as it
    was, the price table in particular: the [rsi_plot] column it assigns
    lands on the frame that selecting and sorting created. *)
Theorem dashboard_preserves_store {N : NumOps}
    (momentum_rsi : list num -> nat -> list num)
    (st : Store) (df : loc) (f : DataFrame) (choice : nat) :
  st !! df = Some f ->
  forall l g,
    st !! l = Some g ->
    snd (dashboard momentum_rsi df choice st) !! l = Some g.
Proof.
  intros Hdf l g Hl.
  destruct (dashboard_run momentum_rsi st df f choice Hdf) as [ext Hrun].
  rewrite Hrun. simpl. apply lookup_app_l_Some. exact Hl.
Qed.

Lemma dashboard_preserves_store_witness :
  [@two_stocks Float64] !! 0%nat = Some two_stocks /\
  forall l g,
    [@two_stocks Float64] !! l = Some g ->
    snd (dashboard ta_momentum_rsi 0%nat 0%nat [@two_stocks Float64]) !! l
    = Some g.
Proof.
  split; [reflexivity|].
  apply (dashboard_preserves_store ta_momentum_rsi [two_stocks] 0%nat
           two_stocks 0%nat).
  reflexivity.
Defined.

(** X11: the dropdown and the name map.  The dropdown lists exactly the
    product names that occur in the table; looking a name up gives the
    ticker of the last row carrying it; so every choice in the dropdown
    selects an instrument that has at least one row. *)
Theorem dropdown_selects_last_owner {N : NumOps} (f : DataFrame) :
  (forall name,
      name ∈ options_of f <-> exists r, r ∈ f /\ product_name r = name) /\
  (forall name,
      name_map_of f !! name
      = product_id
          <$> last (List.filter
                      (fun r => String.eqb (product_name r) name) f)) /\
  (forall choice name,
      options_of f !! choice = Some name ->
      exists ticker,
        selected_ticker_of f choice = Some ticker /\
        (1 <= length (stock_rows f ticker))%nat).
Proof.
  assert (Hopt : forall name,
             name ∈ options_of f
             <-> exists r, r ∈ f /\ product_name r = name).
  { intros name. rewrite options_listed, name_map_lookup. split.
    - intros [t Ht].
      destruct (last _) as [r|] eqn:El; [|discriminate].
      apply last_Some in El. destruct El as [l' El].
      assert (Hin : In r (List.filter
                            (fun r => String.eqb (product_name r) name) f))
        by (rewrite El; apply in_or_app; right; left; reflexivity).
      apply filter_In in Hin. destruct Hin as [Hin Hn].
      exists r. split; [apply list_elem_of_In; exact Hin|].
      apply String.eqb_eq. exact Hn.
    - intros [r [Hin Hn]].
      assert (Hr : In r (List.filter
                           (fun r => String.eqb (product_name r) name) f))
        by (apply filter_In; split;
            [apply list_elem_of_In; exact Hin | apply String.eqb_eq; exact Hn]).
      destruct (last (List.filter
                        (fun r => String.eqb (product_name r) name) f))
        as [r'|] eqn:El; [eexists; reflexivity|].
      apply last_None in El. rewrite El in Hr. contradiction. }
  split; [exact Hopt|]. split; [apply name_map_lookup|].
  intros choice name Hc.
  assert (Hin : name ∈ options_of f)
    by (apply list_elem_of_lookup; eauto).
  apply options_listed in Hin. destruct Hin as [ticker Ht].
  assert (Hsel : selected_ticker_of f choice = Some ticker)
    by (unfold selected_ticker_of; rewrite Hc; exact Ht).
  exists ticker. split; [exact Hsel|].
  apply (selected_ticker_rows f choice ticker Hsel).
Qed.

(* ===================================================================== *)
(** ** Ingestion *)
(* ===================================================================== *)

Section IngestionFacts.
Context {N : NumOps}.
Variable history : string -> string + list Bar.

Lemma fetch_step_spec all_data failed (entry : string * string) :
  fetch_step history (all_data, failed) entry
  = (all_data ++ option_list (fetched history entry),
     failed ++ option_list (failure history entry)).
Proof.
  destruct entry as [symbol name]. unfold fetch_step, fetched, failure.
  simpl fst. simpl snd.
  destruct (history symbol) as [message|[|b bars]]; simpl;
    rewrite ?app_nil_r; reflexivity.
Qed.

Lemma fetch_fold (registry : list (string * string)) :
  forall all_data failed,
    fold_left (fetch_step history) registry (all_data, failed)
    = (all_data ++ omap (fetched history) registry,
       failed ++ omap (failure history) registry).
Proof.
  induction registry as [|entry rest IH]; intros all_data failed.
  - simpl. rewrite !app_nil_r. reflexivity.
  - cbn [fold_left]. rewrite fetch_step_spec, IH.
    cbn [omap list_omap].
    destruct (fetched history entry), (failure history entry); simpl;
      rewrite <- ?app_assoc, ?app_nil_r; reflexivity.
Qed.

Lemma fetch_all_spec (registry : list (string * string)) :
  fetch_all history registry
  = (omap (fetched history) registry, omap (failure history) registry).
Proof. unfold fetch_all. rewrite fetch_fold. reflexivity. Qed.

Lemma fetched_or_failed (entry : string * string) :
  (is_Some (fetched history entry) /\ failure history entry = None) \/
  (fetched history entry = None /\ is_Some (failure history entry)).
Proof.
  unfold fetched, failure.
  destruct (history entry.1) as [message|[|b bars]]; eauto.
Qed.

Lemma accounted_length (registry : list (string * string)) :
  (length (omap (fetched history) registry)
   + length (omap (failure history) registry) = length registry)%nat.
Proof.
  induction registry as [|entry rest IH]; [reflexivity|].
  cbn [omap list_omap].
  destruct (fetched_or_failed entry) as [[[x Hx] Hf]|[Hx [y Hy]]];
    rewrite Hx; [rewrite Hf | rewrite Hy]; simpl; lia.
Qed.

(** *** The sort by symbol and date *)

Lemma row_leb_total (a b : Row) : row_leb a b = false -> row_leb b a = true.
Proof.
  unfold row_leb. rewrite (String.compare_antisym (product_id b)).
  destruct (String.compare (product_id a) (product_id b)); simpl;
    intros H; try discriminate; [|reflexivity].
  apply Z.leb_le. apply Z.leb_gt in H. lia.
Qed.

Lemma insert_row_perm (r : Row) (l : DataFrame) : insert_row r l ≡ₚ r :: l.
Proof.
  induction l as [|x t IH]; simpl; [reflexivity|].
  destruct (row_leb r x); [reflexivity|].
  rewrite IH. apply perm_swap.
Qed.

Lemma sort_rows_perm (l : DataFrame) : sort_by_product_and_date l ≡ₚ l.
Proof.
  induction l as [|x t IH]; simpl; [reflexivity|].
  rewrite insert_row_perm, IH. reflexivity.
Qed.

Lemma insert_row_sorted (r : Row) (l : DataFrame) :
  Sorted row_le l -> Sorted row_le (insert_row r l).
Proof.
  induction l as [|x t IH]; intros Hs; simpl.
  - repeat constructor.
  - destruct (row_leb r x) eqn:E.
    + constructor; [exact Hs | constructor; exact E].
    + apply Sorted_inv in Hs. destruct Hs as [Hs Hhd].
      constructor; [apply IH; exact Hs|].
      destruct t as [|y t]; simpl.
      * constructor. apply row_leb_total. exact E.
      * destruct (row_leb r y) eqn:E'.
        -- constructor. apply row_leb_total. exact E.
        -- constructor. apply HdRel_inv in Hhd. exact Hhd.
Qed.

Lemma sort_rows_sorted (l : DataFrame) :
  Sorted row_le (sort_by_product_and_date l).
Proof.
  induction l as [|x t IH]; simpl; [constructor|].
  apply insert_row_sorted. exact IH.
Qed.

(** *** The rows of one symbol in what was fetched *)

Lemma rows_of_app (f g : DataFrame) t :
  rows_of (f ++ g) t = rows_of f t ++ rows_of g t.
Proof. unfold rows_of. apply List.filter_app. Qed.

Lemma tag_rows_single symbol name (bars : list Bar) :
  Forall (fun r => product_id r = symbol) (tag_rows symbol name bars).
Proof.
  unfold tag_rows. induction bars; simpl; constructor; auto.
Qed.

(** The fetched frames laid end to end: for every entry of the registry,
    in order, the rows made from its bars. *)
Lemma concat_fetched (registry : list (string * string)) :
  concat (omap (fetched history) registry)
  = concat (map (fun e => tag_rows e.1 e.2 (bars_of history e.1)) registry).
Proof.
  induction registry as [|[s n] rest IH]; [reflexivity|].
  cbn [omap list_omap map concat]. rewrite <- IH.
  unfold fetched, bars_of. simpl fst. simpl snd.
  destruct (history s) as [message|[|b bars]]; reflexivity.
Qed.

Lemma rows_of_tagged_other (registry : list (string * string)) symbol :
  symbol ∉ map fst registry ->
  rows_of
    (concat (map (fun e => tag_rows e.1 e.2 (bars_of history e.1)) registry))
    symbol = [].
Proof.
  induction registry as [|[s n] rest IH]; intros Hnot; [reflexivity|].
  simpl in Hnot. apply not_elem_of_cons in Hnot. destruct Hnot as [Hne Hnot].
  cbn [map concat]. simpl fst. simpl snd.
  rewrite rows_of_app, (IH Hnot), app_nil_r.
  rewrite (rows_of_single s) by apply tag_rows_single.
  destruct (String.eqb s symbol) eqn:E; [|reflexivity].
  apply String.eqb_eq in E. congruence.
Qed.

(** With pairwise different symbols in the registry, the fetched frames
    hold for a registered symbol exactly the rows made from its bars. *)
Lemma rows_of_fetched (registry : list (string * string)) symbol name :
  NoDup (map fst registry) ->
  (symbol, name) ∈ registry ->
  rows_of (concat (omap (fetched history) registry)) symbol
  = tag_rows symbol name (bars_of history symbol).
Proof.
  rewrite concat_fetched.
  induction registry as [|[s n] rest IH]; intros Hnd Hin;
    [inversion Hin|].
  simpl in Hnd. apply NoDup_cons in Hnd. destruct Hnd as [Hs Hnd].
  apply elem_of_cons in Hin.
  cbn [map concat]. simpl fst. simpl snd. rewrite rows_of_app.
  rewrite (rows_of_single s) by apply tag_rows_single.
  destruct Hin as [Heq|Hin].
  - injection Heq as <- <-.
    rewrite (rows_of_tagged_other rest symbol Hs), app_nil_r.
    rewrite String.eqb_refl. reflexivity.
  - assert (Hne : s <> symbol).
    { intros ->. apply Hs.
      apply list_elem_of_In, in_map_iff. exists (symbol, name).
      split; [reflexivity | apply list_elem_of_In; exact Hin]. }
    rewrite (IH Hnd Hin).
    destruct (String.eqb s symbol) eqn:E; [|reflexivity].
    apply String.eqb_eq in E. contradiction.
Qed.

Lemma length_tag_rows symbol name (bars : list Bar) :
  length (tag_rows symbol name bars) = length bars.
Proof. unfold tag_rows. apply length_map. Qed.

Lemma ingested_rows_length (registry : list (string * string)) symbol name :
  NoDup (map fst registry) ->
  (symbol, name) ∈ registry ->
  length (stock_rows (ingested_table history registry) symbol)
  = length (bars_of history symbol).
Proof.
  intros Hnd Hin. unfold stock_rows.
  fold (rows_of (ingested_table history registry) symbol).
  rewrite length_sorted_by_date. unfold ingested_table.
  rewrite (Permutation_length
             (rows_of_perm _ _ symbol (sort_rows_perm _))).
  rewrite fetch_all_spec. simpl fst.
  rewrite (rows_of_fetched registry symbol name Hnd Hin).
  apply length_tag_rows.
Qed.

(** Every row of the fetched frames carries a pair of the registry and no
    added column. *)
Lemma fetched_rows_registered (registry : list (string * string)) r :
  r ∈ concat (omap (fetched history) registry) ->
  (product_id r, product_name r) ∈ registry /\ extra r = ∅.
Proof.
  rewrite concat_fetched.
  induction registry as [|[s n] rest IH]; intros Hin; [inversion Hin|].
  cbn [map concat] in Hin. simpl fst in Hin. simpl snd in Hin.
  apply elem_of_app in Hin. destruct Hin as [Hin|Hin].
  - unfold tag_rows in Hin.
    apply list_elem_of_In, in_map_iff in Hin. destruct Hin as [bar [<- _]].
    simpl. split; [left | reflexivity].
  - destruct (IH Hin) as [H1 H2]. split; [|exact H2].
    apply elem_of_cons. right. exact H1.
Qed.

End IngestionFacts.

Lemma registry_symbols_distinct : NoDup (map fst NIFTY_50_TICKERS).
Proof. apply (bool_decide_unpack _). vm_compute. reflexivity. Qed.

Lemma registry_names_distinct : NoDup (map snd NIFTY_50_TICKERS).
Proof. apply (bool_decide_unpack _). vm_compute. reflexivity. Qed.

Lemma registry_size : length NIFTY_50_TICKERS = 50%nat.
Proof. reflexivity. Qed.

Lemma snd_determines_fst {A B} (l : list (A * B)) a b n :
  NoDup (map snd l) -> (a, n) ∈ l -> (b, n) ∈ l -> a = b.
Proof.
  induction l as [|[x y] l IH]; intros Hnd Ha Hb; [inversion Ha|].
  simpl in Hnd. apply NoDup_cons in Hnd. destruct Hnd as [Hy Hnd].
  assert (Hin : forall c, (c, n) ∈ l -> n ∈ map snd l).
  { intros c Hc. apply list_elem_of_In, in_map_iff. exists (c, n).
    split; [reflexivity | apply list_elem_of_In; exact Hc]. }
  apply elem_of_cons in Ha. apply elem_of_cons in Hb.
  destruct Ha as [Ha|Ha], Hb as [Hb|Hb].
  - congruence.
  - injection Ha as -> ->. exfalso. apply Hy. apply (Hin b Hb).
  - injection Hb as -> ->. exfalso. apply Hy. apply (Hin a Ha).
  - apply IH; assumption.
Qed.

(** X12: the fetch loop accounts for every entry of the registry exactly
    once: the frames gathered and the failures recorded add up to the
    size of the registry; a symbol that brought bars has its frame in
    [all_data], one that came back empty is recorded under its symbol, one
    whose fetch raised under its symbol followed by the message in
    parentheses. *)
Theorem every_symbol_accounted {N : NumOps}
    (history : string -> string + list Bar)
    (registry : list (string * string)) :
  (length (fst (fetch_all history registry))
   + length (snd (fetch_all history registry)) = length registry)%nat /\
  forall symbol name,
    (symbol, name) ∈ registry ->
    match history symbol with
    | inr (b :: bars) =>
        tag_rows symbol name (b :: bars) ∈ fst (fetch_all history registry)
    | inr [] => symbol ∈ snd (fetch_all history registry)
    | inl message =>
        (symbol ++ " (" ++ message ++ ")")%string
          ∈ snd (fetch_all history registry)
    end.
Proof.
  rewrite fetch_all_spec. simpl fst. simpl snd.
  split; [apply accounted_length|].
  intros symbol name Hin.
  destruct (history symbol) as [message|[|b bars]] eqn:Eh;
    apply list_elem_of_omap; exists (symbol, name);
    (split; [exact Hin|]); unfold fetched, failure; simpl fst; simpl snd;
    rewrite Eh; reflexivity.
Qed.

(** X13: when at least one symbol brought rows, the ingestion writes at
    [OUTPUT_PATH] one table and touches no other file; the table holds
    exactly the fetched rows, ordered by symbol and then by date, each
    carrying a symbol and display name of the registry and no other
    column. *)
Theorem ingested_file_sorted_and_complete {N : NumOps}
    (history : string -> string + list Bar)
    (content : Type) (to_csv : DataFrame -> content)
    (registry : list (string * string)) (files : gmap string content) :
  fst (fetch_all history registry) <> [] ->
  let table := ingested_table history registry in
  ingest_registry history content to_csv registry files
  = <[OUTPUT_PATH := to_csv table]> files /\
  table ≡ₚ concat (fst (fetch_all history registry)) /\
  Sorted row_le table /\
  forall r,
    r ∈ table ->
    (product_id r, product_name r) ∈ registry /\ extra r = ∅.
Proof.
  intros Hne table. unfold table, ingested_table, ingest_registry.
  split; [|split; [apply sort_rows_perm | split; [apply sort_rows_sorted|]]].
  - destruct (fetch_all history registry) as [all_data failed].
    simpl in *. destruct all_data; [contradiction | reflexivity].
  - intros r Hr. rewrite sort_rows_perm in Hr.
    rewrite fetch_all_spec in Hr. simpl fst in Hr.
    apply (fetched_rows_registered history registry r Hr).
Qed.

Lemma demo_fetch_nonempty :
  fst (@fetch_all Float64 demo_history NIFTY_50_TICKERS) <> [].
Proof.
  intros H. apply (f_equal length) in H. vm_compute in H. discriminate.
Qed.

Lemma ingested_file_sorted_and_complete_witness :
  fst (@fetch_all Float64 demo_history NIFTY_50_TICKERS) <> [] /\
  let table := @ingested_table Float64 demo_history NIFTY_50_TICKERS in
  ingest_registry demo_history (@DataFrame Float64) (fun d => d) NIFTY_50_TICKERS (∅ : gmap string (@DataFrame Float64))
  = <[OUTPUT_PATH := table]> (∅ : gmap string (@DataFrame Float64)) /\
  table ≡ₚ concat (fst (fetch_all demo_history NIFTY_50_TICKERS)) /\
  Sorted row_le table /\
  forall r,
    r ∈ table ->
    (product_id r, product_name r) ∈ NIFTY_50_TICKERS /\ extra r = ∅.
Proof.
  split; [exact demo_fetch_nonempty|].
  apply (ingested_file_sorted_and_complete demo_history (@DataFrame Float64) (fun d => d)
           NIFTY_50_TICKERS (∅ : gmap string (@DataFrame Float64)) demo_fetch_nonempty).
Defined.

(** X14: when no symbol brings any bar (every fetch raises or comes back
    empty), the ingestion writes nothing: the files are left as they were,
    a table written by an earlier run included. *)
Theorem nothing_fetched_nothing_written {N : NumOps}
    (history : string -> string + list Bar)
    (content : Type) (to_csv : DataFrame -> content)
    (registry : list (string * string)) (files : gmap string content) :
  (forall symbol name,
      (symbol, name) ∈ registry -> bars_of history symbol = []) ->
  ingest_registry history content to_csv registry files = files.
Proof.
  intros Hnone. unfold ingest_registry. rewrite fetch_all_spec.
  assert (Hall : omap (fetched history) registry = []).
  { induction registry as [|[s n] rest IH]; [reflexivity|].
    cbn [omap list_omap].
    assert (Hs : fetched history (s, n) = None).
    { pose proof (Hnone s n ltac:(left)) as Hb.
      unfold fetched, bars_of in *. simpl fst.
      destruct (history s) as [message|[|b bars]];
        [reflexivity | reflexivity | discriminate]. }
    rewrite Hs. apply IH. intros symbol name Hin.
    apply (Hnone symbol name). right. exact Hin. }
  rewrite Hall. reflexivity.
Qed.

Lemma nothing_fetched_nothing_written_witness :
  (forall symbol name,
      (symbol, name) ∈ NIFTY_50_TICKERS ->
      bars_of (@dead_history Float64) symbol = []) /\
  ingest_registry (@dead_history Float64) (@DataFrame Float64) (fun d => d) NIFTY_50_TICKERS
    {[OUTPUT_PATH := @rising Float64]}
  = {[OUTPUT_PATH := @rising Float64]}.
Proof.
  assert (Hdead : forall symbol name,
             (symbol, name) ∈ NIFTY_50_TICKERS ->
             bars_of (@dead_history Float64) symbol = [])
    by (intros; reflexivity).
  split; [exact Hdead|].
  apply (nothing_fetched_nothing_written dead_history (@DataFrame Float64) (fun d => d)
           NIFTY_50_TICKERS {[OUTPUT_PATH := rising]} Hdead).
Defined.

(** X15: [load_data] fetches on first use only.  With a data file present
    it returns what reading that file gives (no table when the file cannot
    be read) and leaves the files alone.  With no data file it runs the
    ingestion: if no symbol brought rows, it returns no table and leaves
    the files as they were; otherwise it returns what reading the table
    just written gives, the files being those of before with that table at
    [DATA_PATH]. *)
Theorem load_data_fetches_on_first_use {N : NumOps}
    (history : string -> string + list Bar)
    (content : Type) (to_csv : DataFrame -> content)
    (read_table : content -> option DataFrame)
    (files : gmap string content) :
  (forall c,
      files !! DATA_PATH = Some c ->
      load_data history content to_csv read_table files
      = (read_table c, files)) /\
  (files !! DATA_PATH = None ->
   fst (fetch_all history NIFTY_50_TICKERS) = [] ->
   load_data history content to_csv read_table files = (None, files)) /\
  (files !! DATA_PATH = None ->
   fst (fetch_all history NIFTY_50_TICKERS) <> [] ->
   let table := ingested_table history NIFTY_50_TICKERS in
   load_data history content to_csv read_table files
   = (read_table (to_csv table), <[DATA_PATH := to_csv table]> files)).
Proof.
  split; [|split].
  - intros c Hc. unfold load_data. rewrite Hc. simpl. rewrite Hc.
    reflexivity.
  - intros Hnone Hempty. unfold load_data. rewrite Hnone.
    unfold ingest_nifty50_data, ingest_registry.
    destruct (fetch_all history NIFTY_50_TICKERS) as [all_data failed].
    simpl in Hempty. subst all_data. rewrite Hnone. reflexivity.
  - intros Hnone Hsome table. unfold load_data. rewrite Hnone.
    unfold table, ingest_nifty50_data, ingest_registry, ingested_table.
    destruct (fetch_all history NIFTY_50_TICKERS) as [all_data failed].
    simpl in Hsome. simpl fst.
    destruct all_data as [|d rest]; [contradiction|].
    change OUTPUT_PATH with DATA_PATH.
    rewrite lookup_insert_eq. reflexivity.
Qed.

Lemma load_data_fetches_on_first_use_witness :
  load_data demo_history (@DataFrame Float64) (fun d => d) read_nonempty
    {[DATA_PATH := @rising Float64]}
  = (Some rising, {[DATA_PATH := @rising Float64]}) /\
  load_data demo_history (@DataFrame Float64) (fun d => d) read_nonempty
    {[DATA_PATH := ([] : @DataFrame Float64)]}
  = (None, {[DATA_PATH := ([] : @DataFrame Float64)]}) /\
  load_data dead_history (@DataFrame Float64) (fun d => d) read_nonempty ∅
  = (None, ∅) /\
  load_data demo_history (@DataFrame Float64) (fun d => d) read_nonempty ∅
  = (read_nonempty (ingested_table demo_history NIFTY_50_TICKERS),
     <[DATA_PATH := ingested_table demo_history NIFTY_50_TICKERS]> ∅).
Proof.
  split; [|split; [|split]].
  - apply (proj1 (load_data_fetches_on_first_use demo_history
                    (@DataFrame Float64) (fun d => d) read_nonempty
                    {[DATA_PATH := rising]}) rising).
    reflexivity.
  - apply (proj1 (load_data_fetches_on_first_use demo_history
                    (@DataFrame Float64) (fun d => d) read_nonempty
                    {[DATA_PATH := []]}) []).
    reflexivity.
  - apply (proj1 (proj2 (load_data_fetches_on_first_use dead_history
                           (@DataFrame Float64) (fun d => d)
                           read_nonempty ∅)));
      reflexivity.
  - apply (proj2 (proj2 (load_data_fetches_on_first_use demo_history
                           (@DataFrame Float64) (fun d => d)
                           read_nonempty ∅)));
      [reflexivity | exact demo_fetch_nonempty].
Defined.

(** X16: from ingestion to indicators.  On the table an ingestion run
    writes, the engine emits an entry for a symbol of the registry exactly
    when the symbol brought at least 15 bars (the oscillator returning a
    series as long as its input); a symbol whose fetch raised, came back
    empty or brought fewer bars has none. *)
Theorem fetched_symbol_gets_indicators {N : NumOps}
    (history : string -> string + list Bar)
    (momentum_rsi : list num -> nat -> list num)
    (st : Store) (df : loc) :
  (forall close window,
      length (momentum_rsi close window) = length close) ->
  st !! df = Some (ingested_table history NIFTY_50_TICKERS) ->
  exists out st',
    analyze_technical_indicators momentum_rsi df st = (inr out, st') /\
    forall symbol name,
      (symbol, name) ∈ NIFTY_50_TICKERS ->
      (is_Some (out !! symbol)
       <-> (15 <= length (bars_of history symbol))%nat).
Proof.
  intros Hrsi Hdf.
  destruct (analyze_run momentum_rsi st df _ Hdf) as [ext Hrun].
  destruct (compute_total momentum_rsi Hrsi
              (ingested_table history NIFTY_50_TICKERS)) as [out Hout].
  exists out, (st ++ ext). split; [rewrite Hrun, Hout; reflexivity|].
  intros symbol name Hin.
  rewrite (compute_lookup_exact momentum_rsi _ out symbol Hout).
  rewrite (ingested_rows_length history NIFTY_50_TICKERS symbol name
             registry_symbols_distinct Hin) at 1.
  destruct (length (bars_of history symbol) <? 15)%nat eqn:E.
  - apply Nat.ltb_lt in E. split; [intros [x Hx]; discriminate | lia].
  - apply Nat.ltb_ge in E. split; [intros _; exact E|]. intros _.
    destruct (indicators_total momentum_rsi Hrsi
                (stock_rows (ingested_table history NIFTY_50_TICKERS) symbol))
      as [entry ->]; [|eauto].
    rewrite (ingested_rows_length history NIFTY_50_TICKERS symbol name
               registry_symbols_distinct Hin). exact E.
Qed.

Lemma fetched_symbol_gets_indicators_witness :
  (forall close window,
      length (@ta_momentum_rsi Float64 close window) = length close) /\
  [@ingested_table Float64 demo_history NIFTY_50_TICKERS] !! 0%nat
  = Some (ingested_table demo_history NIFTY_50_TICKERS) /\
  exists out st',
    analyze_technical_indicators ta_momentum_rsi 0%nat
      [@ingested_table Float64 demo_history NIFTY_50_TICKERS]
    = (inr out, st') /\
    forall symbol name,
      (symbol, name) ∈ NIFTY_50_TICKERS ->
      (is_Some (out !! symbol)
       <-> (15 <= length (bars_of (@demo_history Float64) symbol))%nat).
Proof.
  split; [exact (@length_ta_momentum_rsi Float64)|].
  split; [reflexivity|].
  apply (fetched_symbol_gets_indicators demo_history ta_momentum_rsi
           [ingested_table demo_history NIFTY_50_TICKERS] 0%nat);
    [exact (@length_ta_momentum_rsi Float64) | reflexivity].
Defined.

Lemma ingested_name_lookup {N : NumOps}
    (history : string -> string + list Bar)
    (registry : list (string * string)) (symbol name : string) :
  NoDup (map fst registry) ->
  NoDup (map snd registry) ->
  (symbol, name) ∈ registry ->
  bars_of history symbol <> [] ->
  name_map_of (ingested_table history registry) !! name = Some symbol.
Proof.
  intros Hfst Hsnd Hin Hbars. rewrite name_map_lookup.
  set (table := ingested_table history registry).
  assert (Hperm : table ≡ₚ concat (omap (fetched history) registry)).
  { unfold table, ingested_table. rewrite sort_rows_perm, fetch_all_spec.
    reflexivity. }
  assert (Hsome : exists r0, r0 ∈ table /\ product_name r0 = name).
  { pose proof (rows_of_fetched history registry symbol name
                  Hfst Hin) as Hrows.
    destruct (bars_of history symbol) as [|b bars]; [contradiction|].
    simpl tag_rows in Hrows.
    exists {| date := bar_date b; product_id := symbol;
              product_name := name; avg_price := bar_close b;
              qty_sold := bar_volume b; extra := ∅ |}.
    split; [|reflexivity]. rewrite Hperm.
    apply list_elem_of_In.
    assert (Hr : In {| date := bar_date b; product_id := symbol;
                       product_name := name; avg_price := bar_close b;
                       qty_sold := bar_volume b; extra := ∅ |}
                   (rows_of (concat (omap (fetched history) registry))
                      symbol))
      by (rewrite Hrows; left; reflexivity).
    unfold rows_of in Hr. apply filter_In in Hr. tauto. }
  destruct Hsome as [r0 [Hr0 Hn0]].
  destruct (last (List.filter
                    (fun r => String.eqb (product_name r) name) table))
    as [r|] eqn:El.
  - simpl. f_equal.
    apply last_Some in El. destruct El as [l' El].
    assert (Hr : In r (List.filter
                         (fun r => String.eqb (product_name r) name) table))
      by (rewrite El; apply in_or_app; right; left; reflexivity).
    apply filter_In in Hr. destruct Hr as [Hr Hn].
    apply String.eqb_eq in Hn. apply list_elem_of_In in Hr.
    rewrite Hperm in Hr.
    destruct (fetched_rows_registered history registry r Hr)
      as [Hreg _].
    rewrite Hn in Hreg.
    apply (snd_determines_fst registry _ _ name
             Hsnd Hreg Hin).
  - exfalso. apply last_None in El.
    assert (Hr : In r0 (List.filter
                          (fun r => String.eqb (product_name r) name) table))
      by (apply filter_In; split;
          [apply list_elem_of_In; exact Hr0 | apply String.eqb_eq; exact Hn0]).
    rewrite El in Hr. contradiction.
Qed.

(** X17: every ingested instrument can be reached from the dashboard's
    dropdown: on the table an ingestion run writes, the name map sends the
    display name of a symbol that brought rows back to that very symbol
    (the display names of the registry are pairwise different). *)
Theorem ingested_names_select_their_ticker {N : NumOps}
    (history : string -> string + list Bar) (symbol name : string) :
  (symbol, name) ∈ NIFTY_50_TICKERS ->
  bars_of history symbol <> [] ->
  name_map_of (ingested_table history NIFTY_50_TICKERS) !! name = Some symbol.
Proof.
  apply ingested_name_lookup;
    [exact registry_symbols_distinct | exact registry_names_distinct].
Qed.

Lemma ingested_names_select_their_ticker_witness :
  ("RELIANCE.NS", "Reliance Industries") ∈ NIFTY_50_TICKERS /\
  bars_of (@demo_history Float64) "RELIANCE.NS" <> [] /\
  name_map_of (@ingested_table Float64 demo_history NIFTY_50_TICKERS)
    !! "Reliance Industries" = Some "RELIANCE.NS".
Proof.
  assert (Hin : ("RELIANCE.NS", "Reliance Industries") ∈ NIFTY_50_TICKERS)
    by (unfold NIFTY_50_TICKERS; left).
  assert (Hb : bars_of (@demo_history Float64) "RELIANCE.NS" <> [])
    by (intros H; apply (f_equal length) in H; vm_compute in H;
        discriminate).
  split; [exact Hin|]. split; [exact Hb|].
  apply (ingested_names_select_their_ticker demo_history "RELIANCE.NS"
           "Reliance Industries" Hin Hb).
Defined.

Section RawTab.
Context {N : NumOps}.

Lemma insert_by_date_desc_perm r l : insert_by_date_desc r l ≡ₚ r :: l.
Proof.
  induction l as [|x t IH]; simpl; [reflexivity|].
  destruct (r.1.1 <? x.1.1)%Z; [|reflexivity].
  rewrite IH. apply perm_swap.
Qed.

Lemma newest_first_perm l : newest_first l ≡ₚ l.
Proof.
  induction l as [|x t IH]; simpl; [reflexivity|].
  rewrite insert_by_date_desc_perm, IH. reflexivity.
Qed.

Lemma insert_by_date_desc_sorted r l :
  StronglySorted newer l -> StronglySorted newer (insert_by_date_desc r l).
Proof.
  induction 1 as [|x t Hs IH Hx]; simpl.
  - constructor; constructor.
  - destruct (r.1.1 <? x.1.1)%Z eqn:E.
    + apply Z.ltb_lt in E. constructor; [exact IH|].
      rewrite insert_by_date_desc_perm. constructor; [unfold newer; lia|].
      exact Hx.
    + apply Z.ltb_ge in E. constructor; [constructor; assumption|].
      constructor; [exact E|].
      eapply Forall_impl; [exact Hx|]. unfold newer. intros y Hy. simpl in Hy.
      lia.
Qed.

Lemma newest_first_sorted l : StronglySorted newer (newest_first l).
Proof.
  induction l as [|x t IH]; simpl; [constructor|].
  apply insert_by_date_desc_sorted. exact IH.
Qed.

Lemma strongly_sorted_split (l1 l2 : list (Z * num * Z)) :
  StronglySorted newer (l1 ++ l2) ->
  StronglySorted newer l1 /\
  forall x y, x ∈ l1 -> y ∈ l2 -> newer x y.
Proof.
  induction l1 as [|a l1 IH]; simpl; intros Hs.
  - split; [constructor|]. intros x y Hx. inversion Hx.
  - inversion Hs as [|? ? Hs' Ha]; subst.
    destruct (IH Hs') as [H1 H2].
    apply Forall_app in Ha. destruct Ha as [Ha1 Ha2].
    split; [constructor; assumption|].
    intros x y Hx Hy. apply elem_of_cons in Hx. destruct Hx as [->|Hx].
    + rewrite Forall_forall in Ha2. apply Ha2. exact Hy.
    + apply H2; assumption.
Qed.

Lemma zip_columns (stock : DataFrame) :
  zip (zip (map date stock) (map avg_price stock)) (map qty_sold stock)
  = map (fun r => (date r, avg_price r, qty_sold r)) stock.
Proof.
  induction stock as [|r t IH]; simpl; [reflexivity|].
  rewrite IH. reflexivity.
Qed.

Lemma raw_tab_rows (stock : DataFrame) :
  let rows := map (fun r => (date r, avg_price r, qty_sold r)) stock in
  let raw := take 100 (newest_first rows) in
  length raw = Nat.min 100 (length stock) /\
  Sorted (fun a b => (b.1.1 <= a.1.1)%Z) raw /\
  exists older,
    rows ≡ₚ raw ++ older /\
    forall x y, x ∈ raw -> y ∈ older -> (y.1.1 <= x.1.1)%Z.
Proof.
  intros rows raw.
  pose proof (newest_first_sorted rows) as Hs.
  rewrite <- (take_drop 100 (newest_first rows)) in Hs.
  destruct (strongly_sorted_split _ _ Hs) as [Hraw Hold].
  split; [|split].
  - unfold raw. rewrite length_take, (Permutation_length (newest_first_perm rows)).
    unfold rows. rewrite length_map. reflexivity.
  - apply StronglySorted_Sorted. exact Hraw.
  - exists (drop 100 (newest_first rows)). split; [|exact Hold].
    unfold raw. rewrite take_drop, newest_first_perm. reflexivity.
Qed.

End RawTab.

(** X18: the raw-data tab of a rendered dashboard shows the 100 newest rows
    of the selected instrument, newest first: it has as many rows as the
    instrument, up to 100; its dates never increase downwards; its rows are
    rows of the instrument, and every row of the instrument left out is no
    newer than any row shown. *)
Theorem raw_tab_newest_hundred {N : NumOps}
    (momentum_rsi : list num -> nat -> list num)
    (st : Store) (df : loc) (f : DataFrame) (choice : nat)
    (ticker : string) (view : Dashboard) :
  st !! df = Some f ->
  selected_ticker_of f choice = Some ticker ->
  fst (dashboard momentum_rsi df choice st) = inr view ->
  length (raw_data view) = Nat.min 100 (length (stock_rows f ticker)) /\
  Sorted (fun a b => (b.1.1 <= a.1.1)%Z) (raw_data view) /\
  exists older,
    map (fun r => (date r, avg_price r, qty_sold r)) (stock_rows f ticker)
    ≡ₚ raw_data view ++ older /\
    forall x y, x ∈ raw_data view -> y ∈ older -> (y.1.1 <= x.1.1)%Z.
Proof.
  intros Hdf Hsel Hview.
  destruct (dashboard_run momentum_rsi st df f choice Hdf) as [ext Hrun].
  rewrite Hrun in Hview. simpl in Hview.
  destruct (dashboard_of_inr momentum_rsi f choice view Hview)
    as (ticker' & out & entry & latest & prev & Hsel' & _ & _ & _ & _ & _
        & ->).
  rewrite Hsel in Hsel'. injection Hsel' as <-.
  cbn [raw_data]. rewrite zip_columns.
  apply (raw_tab_rows (stock_rows f ticker)).
Qed.

Lemma raw_tab_newest_hundred_witness :
  [@two_stocks Float64] !! 0%nat = Some two_stocks /\
  selected_ticker_of (@two_stocks Float64) 0 = Some "X" /\
  fst (dashboard ta_momentum_rsi 0%nat 0%nat [@two_stocks Float64])
  = inr two_view /\
  length (raw_data two_view)
  = Nat.min 100 (length (stock_rows (@two_stocks Float64) "X")) /\
  Sorted (fun a b => (b.1.1 <= a.1.1)%Z) (raw_data two_view) /\
  exists older,
    map (fun r => (date r, avg_price r, qty_sold r))
      (stock_rows (@two_stocks Float64) "X")
    ≡ₚ raw_data two_view ++ older /\
    forall x y, x ∈ raw_data two_view -> y ∈ older -> (y.1.1 <= x.1.1)%Z.
Proof.
  split; [reflexivity|].
  split; [vm_compute; reflexivity|].
  split; [vm_compute; reflexivity|].
  apply (raw_tab_newest_hundred ta_momentum_rsi [two_stocks] 0%nat
           two_stocks 0%nat "X" two_view);
    [reflexivity | vm_compute; reflexivity | vm_compute; reflexivity].
Defined.
